(** * Firmament: flow scheduler, simulated Quincy cost model, trace generator

    A shallow embedding of three translation units of the Firmament
    cluster scheduler,

      - [src/misc/generate_trace.cc]             (module [GenerateTrace]),
      - [src/scheduling/flow/flow_scheduler.cc]  (module [FlowScheduler]),
      - [src/scheduling/flow/sim/simulated_quincy_cost_model.cc]
                                      (module [SimulatedQuincyCostModel]),

    and of the loop that applies the deltas in
    [src/scheduling/quincy_scheduler.cc] (module [QuincyScheduler]),
    followed by what the specification says about them (module [Spec]),
    by sequences of calls and further inputs (modules [TraceCalls],
    [DeltaProps], [QuincyProps], [CostProps]) and by the properties of
    the units (modules [GenerateTraceFacts], [TraceCallsFacts],
    [FlowSchedulerFacts], [FlowSchedulerMoreFacts],
    [QuincySchedulerFacts], [SimulatedQuincyFacts],
    [SimulatedQuincyMoreFacts]).

    Conventions of the embedding.
      - A C++ unsigned integer of [w] bits is a [Z] reduced by [wrap w];
        a signed one is reduced by [wrap_signed w].  A [double] is a
        [spec_float] of 53 bits of precision.
      - [std::unordered_map] and [std::unordered_set] are stdpp's [gmap]
        and [gset]; iterating over them is iterating over [map_to_list]
        and [elements], whose order is fixed but carries no meaning, as in
        the C++ containers.
      - Member functions take the object as their last argument and return
        the new object.  A function that can end the process
        ([CHECK], [CHECK_NOTNULL], [LOG(FATAL)], a null dereference)
        returns an [option]; [None] is the abort.
      - Code that the three units call but that is not part of them (base
        classes, the flow graph, the solver dispatcher, the simulated file
        system, Boost) is a [Variable] of the enclosing [Section]. *)

From Stdlib Require Import ZArith Lia List String SpecFloat.
From stdpp Require Import gmap strings list fin_maps.

Open Scope Z_scope.

(** ** Machine integers *)

Definition wrap (bits x : Z) : Z := x mod 2 ^ bits.

Definition wrap_signed (bits x : Z) : Z :=
  (x + 2 ^ (bits - 1)) mod 2 ^ bits - 2 ^ (bits - 1).

Definition uint64 (x : Z) : Z := wrap 64 x.
Definition uint32 (x : Z) : Z := wrap 32 x.
Definition int64 (x : Z) : Z := wrap_signed 64 x.

(** [m[k]] of [std::unordered_map]: the value at [k], after inserting the
    value-initialised [d] when [k] is absent. *)
Definition index_or_insert `{Countable K} {V} (d : V) (k : K) (m : gmap K V)
  : V * gmap K V :=
  match m !! k with
  | Some v => (v, m)
  | None => (d, <[k := d]> m)
  end.

(** [FindWithDefault(m, k, d)] of misc/map-util.h. *)
Definition FindWithDefault `{Countable K} {V} (m : gmap K V) (k : K) (d : V) : V :=
  default d (m !! k).

(** [InsertIfNotPresent(&m, k, v)] of misc/map-util.h: inserts only when
    [k] is absent and tells whether it inserted. *)
Definition InsertIfNotPresent `{Countable K} {V} (m : gmap K V) (k : K) (v : V)
  : bool * gmap K V :=
  match m !! k with
  | Some _ => (false, m)
  | None => (true, <[k := v]> m)
  end.

(** [s.find(p) == 0]: [p] occurs in [s] at position 0. *)
Definition find_at_0 (p s : string) : bool := String.prefix p s.

(** [s.substr(n, string::npos)] for [n <= s.size()]. *)
Definition substr_from (n : nat) (s : string) : string :=
  String.substring n (String.length s - n) s.

(** ** The trace generator, [misc/generate_trace.cc] *)

Module GenerateTrace.

(** The fields of the descriptors that the generator reads. *)
Record ResourceDescriptor := {
  rd_uuid : string;
  rd_friendly_name : option string;   (* [has_friendly_name()] *)
}.

Record JobDescriptor := {
  jd_name : option string;            (* [has_name()] *)
}.

Record TaskDescriptor := {
  td_uid : Z;
  td_index : Z;
}.

Record SchedulerStats := {
  scheduler_runtime : Z;
  algorithm_runtime : Z;
  total_runtime : Z;
}.

(** [struct TaskRuntime]; every field is a [uint64_t]. *)
Record TaskRuntime := {
  tr_task_id : Z;
  tr_start_time : Z;
  tr_num_runs : Z;
  tr_last_schedule_time : Z;
  tr_total_runtime : Z;
  tr_runtime : Z;
}.

(** One line of each CSV stream, as the tuple of the values that
    [fprintf] formats. *)
Definition machine_event_row : Type := Z * Z * Z.        (* "%ju,%ju,%d,,,\n" *)
Definition scheduler_event_row : Type := Z * Z * Z * Z * string.
                                                    (* "%ju,%ju,%ju,%ju,%s\n" *)
Definition task_event_row : Type := Z * Z * Z * Z.   (* "%ju,,%ju,%ju,%d,,,,,,,\n" *)
Definition task_runtime_row : Type := Z * Z * Z * Z * Z * Z * Z.
                                          (* "%ju,%ju,%ju,%ju,%ju,%ju,%ju\n" *)
Definition jobs_num_tasks_row : Type := Z * Z.          (* "%ju,%ju\n" *)

(** The object: the five output streams that are written and the three
    accumulated maps. *)
Record t := {
  machine_events_ : list machine_event_row;
  scheduler_events_ : list scheduler_event_row;
  task_events_ : list task_event_row;
  task_runtime_events_ : list task_runtime_row;
  jobs_num_tasks_ : list jobs_num_tasks_row;
  task_to_job_ : gmap Z Z;
  job_num_tasks_ : gmap Z Z;
  task_to_runtime_ : gmap Z TaskRuntime;
}.

(** The object that the constructor leaves: empty files, empty maps. *)
Definition GenerateTrace : t := {|
  machine_events_ := [];
  scheduler_events_ := [];
  task_events_ := [];
  task_runtime_events_ := [];
  jobs_num_tasks_ := [];
  task_to_job_ := ∅;
  job_num_tasks_ := ∅;
  task_to_runtime_ := ∅;
|}.

Definition set_task_to_runtime (g : t) (m : gmap Z TaskRuntime) : t := {|
  machine_events_ := machine_events_ g;
  scheduler_events_ := scheduler_events_ g;
  task_events_ := task_events_ g;
  task_runtime_events_ := task_runtime_events_ g;
  jobs_num_tasks_ := jobs_num_tasks_ g;
  task_to_job_ := task_to_job_ g;
  job_num_tasks_ := job_num_tasks_ g;
  task_to_runtime_ := m;
|}.

Definition fprintf_machine_events (g : t) (row : machine_event_row) : t := {|
  machine_events_ := machine_events_ g ++ [row];
  scheduler_events_ := scheduler_events_ g;
  task_events_ := task_events_ g;
  task_runtime_events_ := task_runtime_events_ g;
  jobs_num_tasks_ := jobs_num_tasks_ g;
  task_to_job_ := task_to_job_ g;
  job_num_tasks_ := job_num_tasks_ g;
  task_to_runtime_ := task_to_runtime_ g;
|}.

Definition fprintf_scheduler_events (g : t) (row : scheduler_event_row) : t := {|
  machine_events_ := machine_events_ g;
  scheduler_events_ := scheduler_events_ g ++ [row];
  task_events_ := task_events_ g;
  task_runtime_events_ := task_runtime_events_ g;
  jobs_num_tasks_ := jobs_num_tasks_ g;
  task_to_job_ := task_to_job_ g;
  job_num_tasks_ := job_num_tasks_ g;
  task_to_runtime_ := task_to_runtime_ g;
|}.

Definition fprintf_task_events (g : t) (row : task_event_row) : t := {|
  machine_events_ := machine_events_ g;
  scheduler_events_ := scheduler_events_ g;
  task_events_ := task_events_ g ++ [row];
  task_runtime_events_ := task_runtime_events_ g;
  jobs_num_tasks_ := jobs_num_tasks_ g;
  task_to_job_ := task_to_job_ g;
  job_num_tasks_ := job_num_tasks_ g;
  task_to_runtime_ := task_to_runtime_ g;
|}.

Section WithEnvironment.

(** [FLAGS_generate_trace]. *)
Variable FLAGS_generate_trace : bool.

(** [boost::hash_combine(seed, v)] for a [std::string] and for a
    [uint64_t]: the new value of [seed]. *)
Variable hash_combine_string : Z -> string -> Z.
Variable hash_combine_uint64 : Z -> Z -> Z.

(** [boost::lexical_cast<uint64_t>]; [None] is [bad_lexical_cast]. *)
Variable lexical_cast_uint64 : string -> option Z.

Definition simulator_machine_prefix : string := "firmament_simulation_machine_".
Definition simulator_job_prefix : string := "firmament_simulation_job_".

Definition GetMachineId (rd : ResourceDescriptor) : option Z :=
  match rd_friendly_name rd with
  | Some friendly_name =>
      if find_at_0 simulator_machine_prefix friendly_name then
        (* a failed conversion is LOG(FATAL) *)
        lexical_cast_uint64
          (substr_from (String.length simulator_machine_prefix) friendly_name)
      else
        let hash := 42 in
        let hash := hash_combine_string hash (rd_uuid rd) in
        Some (uint64 hash)
  | None =>
      let hash := 42 in
      let hash := hash_combine_string hash (rd_uuid rd) in
      Some (uint64 hash)
  end.

Definition AddMachine (timestamp : Z) (rd : ResourceDescriptor) (g : t) : option t :=
  if FLAGS_generate_trace then
    let machine_event := 0 in
    machine_id ← GetMachineId rd;
    Some (fprintf_machine_events g (timestamp, machine_id, machine_event))
  else Some g.

Definition RemoveMachine (timestamp : Z) (rd : ResourceDescriptor) (g : t) : option t :=
  if FLAGS_generate_trace then
    let machine_event := 1 in
    machine_id ← GetMachineId rd;
    Some (fprintf_machine_events g (timestamp, machine_id, machine_event))
  else Some g.

(** [stats_string] is [dimacs_stats.GetStatsString()]. *)
Definition SchedulerRun (timestamp : Z) (scheduler_stats : SchedulerStats)
    (stats_string : string) (g : t) : option t :=
  if FLAGS_generate_trace then
    Some (fprintf_scheduler_events g
            (timestamp, scheduler_runtime scheduler_stats,
             algorithm_runtime scheduler_stats, total_runtime scheduler_stats,
             stats_string))
  else Some g.

(** [TaskSubmitted] declares [uint64_t job_id;] and [TaskRuntime
    task_runtime;] without initialising them.  [job_id_stack] and
    [task_runtime_stack] are what these two locals hold when the function
    is entered. *)
Definition TaskSubmitted (timestamp : Z) (job_id_stack : Z)
    (task_runtime_stack : TaskRuntime)
    (jd : JobDescriptor) (td : TaskDescriptor) (g : t) : option t :=
  if FLAGS_generate_trace then
    let task_event := 0 in
    let task_id := td_uid td in
    let from_hash :=
      let hash := 42 in
      let hash := hash_combine_uint64 hash job_id_stack in
      (* not in simulation mode: the id is the Firmament task id *)
      Some (uint64 hash, task_id) in
    ids ←
      match jd_name jd with
      | Some name =>
          if find_at_0 simulator_job_prefix name then
            (* a failed conversion is LOG(FATAL) *)
            job_id ← lexical_cast_uint64
                       (substr_from (String.length simulator_job_prefix) name);
            Some (job_id, td_index td)
          else from_hash
      | None => from_hash
      end;
    let '(job_id, trace_task_id) := ids in
    let '(inserted, task_to_job) :=
      InsertIfNotPresent (task_to_job_ g) task_id job_id in
    let job_num_tasks :=
      if inserted then
        match job_num_tasks_ g !! job_id with
        | None => snd (InsertIfNotPresent (job_num_tasks_ g) job_id 1)
        | Some num_tasks => <[job_id := uint64 (num_tasks + 1)]> (job_num_tasks_ g)
        end
      else job_num_tasks_ g in
    let task_to_runtime :=
      match task_to_runtime_ g !! task_id with
      | None =>
          let task_runtime := {|
            tr_task_id := trace_task_id;
            tr_start_time := timestamp;
            tr_num_runs := 0;
            tr_last_schedule_time := 0;
            tr_total_runtime := tr_total_runtime task_runtime_stack;
            tr_runtime := tr_runtime task_runtime_stack;
          |} in
          snd (InsertIfNotPresent (task_to_runtime_ g) task_id task_runtime)
      | Some _ => task_to_runtime_ g
      end in
    Some {|
      machine_events_ := machine_events_ g;
      scheduler_events_ := scheduler_events_ g;
      task_events_ :=
        task_events_ g ++ [(timestamp, job_id, trace_task_id, task_event)];
      task_runtime_events_ := task_runtime_events_ g;
      jobs_num_tasks_ := jobs_num_tasks_ g;
      task_to_job_ := task_to_job;
      job_num_tasks_ := job_num_tasks;
      task_to_runtime_ := task_to_runtime;
    |}
  else Some g.

(** The four terminal events and [TaskScheduled] share their prologue:
    both lookups are [CHECK_NOTNULL]ed, then the event row is written. *)
Definition TaskCompleted (timestamp : Z) (task_id : Z) (g : t) : option t :=
  if FLAGS_generate_trace then
    let task_event := 4 in
    job_id ← task_to_job_ g !! task_id;
    tr ← task_to_runtime_ g !! task_id;
    let g := fprintf_task_events g (timestamp, job_id, tr_task_id tr, task_event) in
    let tr := {|
      tr_task_id := tr_task_id tr;
      tr_start_time := tr_start_time tr;
      tr_num_runs := tr_num_runs tr;
      tr_last_schedule_time := tr_last_schedule_time tr;
      tr_total_runtime :=
        uint64 (tr_total_runtime tr + uint64 (timestamp - tr_last_schedule_time tr));
      tr_runtime := uint64 (timestamp - tr_last_schedule_time tr);
    |} in
    Some (set_task_to_runtime g (<[task_id := tr]> (task_to_runtime_ g)))
  else Some g.

(** [TaskEvicted], [TaskFailed] and [TaskKilled] differ in the event
    code only. *)
Definition terminal_event (task_event : Z) (timestamp : Z) (task_id : Z) (g : t)
  : option t :=
  if FLAGS_generate_trace then
    job_id ← task_to_job_ g !! task_id;
    tr ← task_to_runtime_ g !! task_id;
    let g := fprintf_task_events g (timestamp, job_id, tr_task_id tr, task_event) in
    let tr := {|
      tr_task_id := tr_task_id tr;
      tr_start_time := tr_start_time tr;
      tr_num_runs := tr_num_runs tr;
      tr_last_schedule_time := tr_last_schedule_time tr;
      tr_total_runtime :=
        uint64 (tr_total_runtime tr + uint64 (timestamp - tr_last_schedule_time tr));
      tr_runtime := tr_runtime tr;
    |} in
    Some (set_task_to_runtime g (<[task_id := tr]> (task_to_runtime_ g)))
  else Some g.

Definition TaskEvicted : Z -> Z -> t -> option t := terminal_event 2.
Definition TaskFailed : Z -> Z -> t -> option t := terminal_event 3.
Definition TaskKilled : Z -> Z -> t -> option t := terminal_event 5.

(** [res_id] is not used by the body. *)
Definition TaskScheduled (timestamp : Z) (task_id : Z) (res_id : Z) (g : t)
  : option t :=
  if FLAGS_generate_trace then
    let task_event := 1 in
    job_id ← task_to_job_ g !! task_id;
    tr ← task_to_runtime_ g !! task_id;
    let g := fprintf_task_events g (timestamp, job_id, tr_task_id tr, task_event) in
    let tr := {|
      tr_task_id := tr_task_id tr;
      tr_start_time := tr_start_time tr;
      tr_num_runs := uint64 (tr_num_runs tr + 1);
      tr_last_schedule_time := timestamp;
      tr_total_runtime := tr_total_runtime tr;
      tr_runtime := tr_runtime tr;
    |} in
    Some (set_task_to_runtime g (<[task_id := tr]> (task_to_runtime_ g)))
  else Some g.

(** The destructor: one row per entry of [task_to_runtime_] (the job id
    is dereferenced unchecked) and one row per entry of [job_num_tasks_]. *)
Definition task_runtime_rows (g : t) : option (list task_runtime_row) :=
  mapM (λ '(task_id, task_runtime),
          job_id ← task_to_job_ g !! task_id;
          Some (job_id, task_id, job_id,
                tr_start_time task_runtime, tr_total_runtime task_runtime,
                tr_runtime task_runtime, tr_num_runs task_runtime))
       (map_to_list (task_to_runtime_ g)).

Definition destructor (g : t) : option t :=
  if FLAGS_generate_trace then
    rows ← task_runtime_rows g;
    Some {|
      machine_events_ := machine_events_ g;
      scheduler_events_ := scheduler_events_ g;
      task_events_ := task_events_ g;
      task_runtime_events_ := task_runtime_events_ g ++ rows;
      jobs_num_tasks_ := jobs_num_tasks_ g ++ map_to_list (job_num_tasks_ g);
      task_to_job_ := task_to_job_ g;
      job_num_tasks_ := job_num_tasks_ g;
      task_to_runtime_ := task_to_runtime_ g;
    |}
  else Some g.

End WithEnvironment.

End GenerateTrace.

(** ** The flow scheduler, [scheduling/flow/flow_scheduler.cc] *)

Module FlowScheduler.

(** [CostModelType] (scheduling/flow/cost_models.h).  The values of the
    enumerators are those that the help text of
    [--flow_scheduling_cost_model] gives: "0 = TRIVIAL, 1 = RANDOM,
    2 = SJF, 3 = QUINCY, 4 = WHARE, 5 = COCO, 6 = OCTOPUS, 7 = VOID,
    8 = SIMULATED QUINCY". *)
Inductive CostModelType :=
  | COST_MODEL_TRIVIAL
  | COST_MODEL_RANDOM
  | COST_MODEL_SJF
  | COST_MODEL_QUINCY
  | COST_MODEL_WHARE
  | COST_MODEL_COCO
  | COST_MODEL_OCTOPUS
  | COST_MODEL_VOID
  | COST_MODEL_SIMULATED_QUINCY.

Definition CostModelType_value (c : CostModelType) : Z :=
  match c with
  | COST_MODEL_TRIVIAL => 0
  | COST_MODEL_RANDOM => 1
  | COST_MODEL_SJF => 2
  | COST_MODEL_QUINCY => 3
  | COST_MODEL_WHARE => 4
  | COST_MODEL_COCO => 5
  | COST_MODEL_OCTOPUS => 6
  | COST_MODEL_VOID => 7
  | COST_MODEL_SIMULATED_QUINCY => 8
  end.

(** The classes behind [CostModelInterface*].  The constructor of the
    scheduler instantiates the first seven. *)
Inductive CostModel :=
  | TrivialCostModel
  | RandomCostModel
  | SJFCostModel
  | QuincyCostModel
  | WhareMapCostModel
  | CocoCostModel
  | OctopusCostModel
  | VoidCostModel
  | SimulatedQuincyCostModel.

(** The [switch] of the constructor; [None] is the [LOG(FATAL)] of its
    [default] label. *)
Definition select_cost_model (FLAGS_flow_scheduling_cost_model : Z)
  : option CostModel :=
  let flag := FLAGS_flow_scheduling_cost_model in
  if flag =? CostModelType_value COST_MODEL_TRIVIAL then Some TrivialCostModel
  else if flag =? CostModelType_value COST_MODEL_RANDOM then Some RandomCostModel
  else if flag =? CostModelType_value COST_MODEL_COCO then Some CocoCostModel
  else if flag =? CostModelType_value COST_MODEL_SJF then Some SJFCostModel
  else if flag =? CostModelType_value COST_MODEL_QUINCY then Some QuincyCostModel
  else if flag =? CostModelType_value COST_MODEL_WHARE then Some WhareMapCostModel
  else if flag =? CostModelType_value COST_MODEL_OCTOPUS then Some OctopusCostModel
  else None.

(** Identifiers: [TaskID_t] and [JobID_t] are numbers; a [ResourceID_t] is
    a UUID, here the 128-bit number. *)
Abbreviation TaskID_t := Z (only parsing).
Abbreviation JobID_t := Z (only parsing).
Abbreviation ResourceID_t := Z (only parsing).

(** [JobDescriptor::JobState]: the three states that the scheduler tests
    for, and any other enumerator. *)
Inductive JobState :=
  | COMPLETED
  | FAILED
  | ABORTED
  | OTHER_STATE (enumerator : Z).

Global Instance JobState_eq_dec : EqDecision JobState.
Proof. solve_decision. Defined.

(** The fields of the descriptors that the scheduler reads.  [td_uid] and
    [rd_uuid] identify the descriptor and no handler reassigns them. *)
Record JobDescriptor := { jd_state : JobState }.
Record TaskDescriptor := { td_uid : TaskID_t }.
Record ResourceDescriptor := { rd_uuid : string }.
Record ResourceStatus := { rs_descriptor : ResourceDescriptor }.

(** [SchedulingDelta] (a protocol buffer). *)
Inductive ChangeType := NOOP | PLACE | PREEMPT | MIGRATE.

Global Instance ChangeType_eq_dec : EqDecision ChangeType.
Proof. solve_decision. Defined.

Record SchedulingDelta := {
  delta_type : ChangeType;
  delta_task_id : TaskID_t;
  delta_resource_id : string;
  delta_actioned : bool;
}.

Definition set_actioned (value : bool) (d : SchedulingDelta) : SchedulingDelta := {|
  delta_type := delta_type d;
  delta_task_id := delta_task_id d;
  delta_resource_id := delta_resource_id d;
  delta_actioned := value;
|}.

(** A [vector<SchedulingDelta*>] is a list of addresses into a store of
    deltas: two elements of the vector may be the same object. *)
Abbreviation delta_ptr := nat (only parsing).
Abbreviation delta_store := (gmap nat SchedulingDelta) (only parsing).

(** [FlowNodeType], with the four enumerators that the scheduler tests for
    and any other one, and the fields of a [FlowGraphNode] that are read. *)
Inductive FlowNodeType :=
  | SCHEDULED_TASK
  | UNSCHEDULED_TASK
  | ROOT_TASK
  | PU
  | OTHER_NODE_TYPE (enumerator : Z).

Global Instance FlowNodeType_eq_dec : EqDecision FlowNodeType.
Proof. solve_decision. Defined.

Record FlowGraphNode := {
  type_ : FlowNodeType;
  task_id_ : TaskID_t;
  resource_id_ : ResourceID_t;
}.

(** The flow graph is the object behind [flow_graph_]; the scheduler only
    calls it.  It is represented by the calls made on it so far, and what
    it answers is a function of them. *)
Inductive FlowGraphCall :=
  | AddResourceTopology
  | AddMachine
  | TaskEvicted (task_id : TaskID_t) (res_id : ResourceID_t)
  | TaskMigrated (task_id : TaskID_t) (old_res_id new_res_id : ResourceID_t)
  | TaskScheduled (task_id : TaskID_t) (res_id : ResourceID_t)
  | UpdateTimeDependentCosts (job_vec : list JobID_t)
  | ComputeTopologyStatistics_PrepareStats_GatherStats
  | ComputeTopologyStatistics_UpdateStats.

(** The members of [EventDrivenScheduler] that the flow scheduler reads. *)
Record EventDrivenScheduler := {
  job_map_ : gmap Z JobDescriptor;
  resource_map_ : gmap Z ResourceStatus;
  task_map_ : gmap Z TaskDescriptor;
  task_bindings_ : gmap Z Z;
}.

Section WithCollaborators.

(** The solver dispatcher, an object of a class that is not modelled. *)
Variable SolverDispatcher : Type.

Record t := {
  base : EventDrivenScheduler;
  cost_model_ : CostModel;
  flow_graph_ : list FlowGraphCall;
  last_updated_time_dependent_costs_ : Z;
  solver_dispatcher_ : SolverDispatcher;
}.

Definition with_base (s : t) (b : EventDrivenScheduler) : t := {|
  base := b;
  cost_model_ := cost_model_ s;
  flow_graph_ := flow_graph_ s;
  last_updated_time_dependent_costs_ := last_updated_time_dependent_costs_ s;
  solver_dispatcher_ := solver_dispatcher_ s;
|}.

Definition with_flow_graph (s : t) (flow_graph : list FlowGraphCall) : t := {|
  base := base s;
  cost_model_ := cost_model_ s;
  flow_graph_ := flow_graph;
  last_updated_time_dependent_costs_ := last_updated_time_dependent_costs_ s;
  solver_dispatcher_ := solver_dispatcher_ s;
|}.

Definition call_flow_graph (s : t) (c : FlowGraphCall) : t :=
  with_flow_graph s (flow_graph_ s ++ [c]).

(** The flags. *)
Variable FLAGS_flow_scheduling_cost_model : Z.            (* int32 *)
Variable FLAGS_time_dependent_cost_update_frequency : Z.  (* int64 *)

(** [ResourceIDFromString] of misc/utils.h. *)
Variable ResourceIDFromString : string -> ResourceID_t.

(** The handlers of the base class; [None] is a failed check inside. *)
Variable EventDrivenScheduler_HandleTaskPlacement :
  TaskDescriptor -> ResourceDescriptor -> EventDrivenScheduler -> option EventDrivenScheduler.
Variable EventDrivenScheduler_HandleTaskEviction :
  TaskDescriptor -> ResourceDescriptor -> EventDrivenScheduler -> option EventDrivenScheduler.
Variable EventDrivenScheduler_HandleTaskMigration :
  TaskDescriptor -> ResourceDescriptor -> EventDrivenScheduler -> option EventDrivenScheduler.

(** The flow graph's [NumNodes()] and [Node(id)], and the dispatcher's
    constructor, [seq_num()], [Run()] and [NodeBindingToSchedulingDelta]
    (the deltas it pushes). *)
Variable FlowGraph_NumNodes : list FlowGraphCall -> Z.
Variable FlowGraph_Node : list FlowGraphCall -> Z -> option FlowGraphNode.
Variable SolverDispatcher_new : list FlowGraphCall -> SolverDispatcher.
Variable SolverDispatcher_seq_num : SolverDispatcher -> Z.
Variable SolverDispatcher_Run :
  list FlowGraphCall -> SolverDispatcher -> list (Z * Z) * SolverDispatcher.
Variable SolverDispatcher_NodeBindingToSchedulingDelta :
  TaskDescriptor -> ResourceDescriptor -> gmap Z Z -> list SchedulingDelta.

(** The handlers hold the recursive scheduling lock for their whole body;
    the embedding is of one thread. *)
Definition HandleTaskEviction (td : TaskDescriptor) (rd : ResourceDescriptor)
    (s : t) : option t :=
  b ← EventDrivenScheduler_HandleTaskEviction td rd (base s);
  Some (call_flow_graph (with_base s b)
          (TaskEvicted (td_uid td) (ResourceIDFromString (rd_uuid rd)))).

Definition HandleTaskMigration (td : TaskDescriptor) (rd : ResourceDescriptor)
    (s : t) : option t :=
  let task_id := td_uid td in
  (* Get the old resource id before we call EventDrivenScheduler. *)
  old_res_id ← task_bindings_ (base s) !! task_id;       (* CHECK_NOTNULL *)
  b ← EventDrivenScheduler_HandleTaskMigration td rd (base s);
  Some (call_flow_graph (with_base s b)
          (TaskMigrated task_id old_res_id (ResourceIDFromString (rd_uuid rd)))).

Definition HandleTaskPlacement (td : TaskDescriptor) (rd : ResourceDescriptor)
    (s : t) : option t :=
  b ← EventDrivenScheduler_HandleTaskPlacement td rd (base s);
  Some (call_flow_graph (with_base s b)
          (TaskScheduled (td_uid td) (ResourceIDFromString (rd_uuid rd)))).

(** The loop of [ApplySchedulingDeltas] from the iterator [deltas] on:
    the result is the final [num_scheduled], the store of deltas and the
    scheduler. *)
Fixpoint ApplySchedulingDeltas_from (deltas : list delta_ptr) (num_scheduled : Z)
    (store : delta_store) (s : t) : option (Z * delta_store * t) :=
  match deltas with
  | [] => Some (num_scheduled, store, s)
  | it :: deltas =>
      d ← store !! it;                     (* the object that [*it] points to *)
      let task_id := delta_task_id d in
      let res_id := ResourceIDFromString (delta_resource_id d) in
      td ← task_map_ (base s) !! task_id;                 (* CHECK_NOTNULL *)
      rs ← resource_map_ (base s) !! res_id;              (* CHECK_NOTNULL *)
      match delta_type d with
      | NOOP =>
          (* We should not get any NOOP deltas as they get filtered before. *)
          ApplySchedulingDeltas_from deltas num_scheduled store s
      | PLACE =>
          s ← HandleTaskPlacement td (rs_descriptor rs) s;
          ApplySchedulingDeltas_from deltas (uint64 (num_scheduled + 1))
            (<[it := set_actioned true d]> store) s
      | PREEMPT =>
          s ← HandleTaskEviction td (rs_descriptor rs) s;
          ApplySchedulingDeltas_from deltas num_scheduled
            (<[it := set_actioned true d]> store) s
      | MIGRATE =>
          s ← HandleTaskMigration td (rs_descriptor rs) s;
          ApplySchedulingDeltas_from deltas num_scheduled
            (<[it := set_actioned true d]> store) s
      end
  end.

Definition ApplySchedulingDeltas (deltas : list delta_ptr) (store : delta_store)
    (s : t) : option (Z * delta_store * t) :=
  let num_scheduled := 0 in
  ApplySchedulingDeltas_from deltas num_scheduled store s.

(** [UpdateCostModelResourceStats] and [UpdateResourceTopology] touch the
    flow graph only; the constructor runs the second before the
    dispatcher exists. *)
Definition resource_stats_calls (flow_graph : list FlowGraphCall)
  : list FlowGraphCall :=
  if (FLAGS_flow_scheduling_cost_model =? CostModelType_value COST_MODEL_COCO)
     || (FLAGS_flow_scheduling_cost_model =? CostModelType_value COST_MODEL_OCTOPUS)
     || (FLAGS_flow_scheduling_cost_model =? CostModelType_value COST_MODEL_WHARE)
  then
    flow_graph ++ [ComputeTopologyStatistics_PrepareStats_GatherStats;
                   ComputeTopologyStatistics_UpdateStats]
  else flow_graph.

Definition UpdateCostModelResourceStats (s : t) : t :=
  with_flow_graph s (resource_stats_calls (flow_graph_ s)).

Definition resource_topology_calls (flow_graph : list FlowGraphCall)
  : list FlowGraphCall :=
  let flow_graph :=
    if FlowGraph_NumNodes flow_graph =? 1
    then flow_graph ++ [AddResourceTopology]
    else flow_graph ++ [AddMachine] in
  resource_stats_calls flow_graph.

Definition UpdateResourceTopology (s : t) : t :=
  with_flow_graph s (resource_topology_calls (flow_graph_ s)).

(** The constructor, from the base class that its arguments make.  [None]
    is the [LOG(FATAL)] of the selection of the cost model. *)
Definition FlowScheduler (b : EventDrivenScheduler) : option t :=
  cost_model ← select_cost_model FLAGS_flow_scheduling_cost_model;
  (* Set up the initial flow graph *)
  let flow_graph := resource_topology_calls [] in
  Some {| base := b;
          cost_model_ := cost_model;
          flow_graph_ := flow_graph;
          last_updated_time_dependent_costs_ := 0;
          (* Set up the dispatcher, which starts the flow solver *)
          solver_dispatcher_ := SolverDispatcher_new flow_graph |}.

(** The jobs of [job_map_] that are still active, in the order of the
    map; a [JobDescriptor*] into the map is the key of the entry. *)
Definition non_finished_jobs (job_map : gmap Z JobDescriptor) : list JobID_t :=
  (List.filter (λ it, bool_decide (jd_state it.2 ≠ COMPLETED)
                      && bool_decide (jd_state it.2 ≠ FAILED)
                      && bool_decide (jd_state it.2 ≠ ABORTED))
     (map_to_list job_map)).*1.

(** The test that guards the update of the time-dependent costs. *)
Definition time_dependent_costs_due (cur_time : Z) (s : t) : bool :=
  bool_decide
    (last_updated_time_dependent_costs_ s
     <= uint64 (cur_time - uint64 FLAGS_time_dependent_cost_update_frequency)).

(** The second step of [RunSchedulingIteration]: "If it's time to revisit
    time-dependent costs, do so now, just before we run the solver."
    [cur_time] is what [GetCurrentTimestamp()] returns. *)
Definition revisit_time_dependent_costs (cur_time : Z) (s : t) : t :=
  if time_dependent_costs_due cur_time s then
    let job_vec := non_finished_jobs (job_map_ (base s)) in
    let s := call_flow_graph s (UpdateTimeDependentCosts job_vec) in
    {| base := base s;
       cost_model_ := cost_model_ s;
       flow_graph_ := flow_graph_ s;
       last_updated_time_dependent_costs_ := cur_time;
       solver_dispatcher_ := solver_dispatcher_ s |}
  else s.

(** The loop over the solver's mapping: the sanity checks, then the
    deltas that the dispatcher derives from each binding. *)
Fixpoint bindings_to_deltas (task_mappings : list (Z * Z)) (s : t)
    (deltas : list SchedulingDelta) : option (list SchedulingDelta) :=
  match task_mappings with
  | [] => Some deltas
  | it :: task_mappings =>
      src ← FlowGraph_Node (flow_graph_ s) it.1;
      dst ← FlowGraph_Node (flow_graph_ s) it.2;
      (* Source must be a task node as this point *)
      guard (type_ src = SCHEDULED_TASK ∨ type_ src = UNSCHEDULED_TASK
             ∨ type_ src = ROOT_TASK);;
      (* Destination must be a PU node *)
      guard (type_ dst = PU);;
      task ← task_map_ (base s) !! task_id_ src;           (* CHECK_NOTNULL *)
      target_res_status ← resource_map_ (base s) !! resource_id_ dst;
      let resource := rs_descriptor target_res_status in
      bindings_to_deltas task_mappings s
        (deltas ++ SolverDispatcher_NodeBindingToSchedulingDelta
                     task resource (task_bindings_ (base s)))
  end.

(** [RunSchedulingIteration]; the result is [num_scheduled], the deltas
    that remain after the actioned ones are dropped, and the scheduler.
    The deltas are allocated one after the other, the [i]-th at address
    [i]. *)
Definition RunSchedulingIteration (cur_time : Z) (s : t)
  : option (Z * list SchedulingDelta * t) :=
  let s :=
    if SolverDispatcher_seq_num (solver_dispatcher_ s) =? 0
    then UpdateCostModelResourceStats s else s in
  let s := revisit_time_dependent_costs cur_time s in
  let '(task_mappings, dispatcher) :=
    SolverDispatcher_Run (flow_graph_ s) (solver_dispatcher_ s) in
  let s := {| base := base s;
              cost_model_ := cost_model_ s;
              flow_graph_ := flow_graph_ s;
              last_updated_time_dependent_costs_ :=
                last_updated_time_dependent_costs_ s;
              solver_dispatcher_ := dispatcher |} in
  new_deltas ← bindings_to_deltas task_mappings s [];
  let deltas := seq 0 (length new_deltas) in
  let store : delta_store := map_seq 0 new_deltas in
  '(num_scheduled, store, s) ← ApplySchedulingDeltas deltas store s;
  (* Drop all deltas that were actioned *)
  let remaining :=
    List.filter (λ d, negb (delta_actioned d))
      (omap (λ it, store !! it) deltas) in
  let s := UpdateCostModelResourceStats s in
  Some (num_scheduled, remaining, s).

End WithCollaborators.

Arguments base {SolverDispatcher} _.
Arguments cost_model_ {SolverDispatcher} _.
Arguments flow_graph_ {SolverDispatcher} _.
Arguments last_updated_time_dependent_costs_ {SolverDispatcher} _.
Arguments solver_dispatcher_ {SolverDispatcher} _.
Arguments with_base {SolverDispatcher} _ _.
Arguments with_flow_graph {SolverDispatcher} _ _.
Arguments call_flow_graph {SolverDispatcher} _ _.

End FlowScheduler.

(** ** The simulated Quincy cost model,
       [scheduling/flow/sim/simulated_quincy_cost_model.cc] *)

Module SimulatedQuincyCostModel.

(** A [double] is an IEEE 754 binary64 number. *)
Definition double_prec : Z := 53.
Definition double_emax : Z := 1024.

(** The conversion of an unsigned integer to [double], the division of
    two [double]s and the comparisons [a >= b] and [a > b], all of which
    are false on a NaN. *)
Definition double_of_uint (n : Z) : spec_float :=
  binary_normalize double_prec double_emax n 0 false.
Definition double_div (a b : spec_float) : spec_float :=
  SFdiv double_prec double_emax a b.
Definition double_ge (a b : spec_float) : bool := SFleb b a.
Definition double_gt (a b : spec_float) : bool := SFltb b a.

(** [double proportion = num; proportion /= total_num_blocks;] *)
Definition proportion_of (num total_num_blocks : Z) : spec_float :=
  double_div (double_of_uint num) (double_of_uint total_num_blocks).

Section WithFileSystem.

(** The simulated distributed file system, an object of the class
    [SimulatedDFS], with the member functions that the cost model calls.
    [ResourceSet_t] is a set of resource ids. *)
Variable SimulatedDFS : Type.
Variable SimulatedDFS_GetNumBlocks : SimulatedDFS -> Z -> Z.
Variable SimulatedDFS_GetMachines : SimulatedDFS -> Z -> gset Z.
Variable SimulatedDFS_SampleFiles : SimulatedDFS -> Z -> Z -> gset Z.
Variable SimulatedDFS_AddMachine : Z -> SimulatedDFS -> SimulatedDFS.
Variable SimulatedDFS_RemoveMachine : Z -> SimulatedDFS -> SimulatedDFS.

(** The widths of two integer types whose declarations are in headers
    that the unit includes: [SimulatedDFS::NumBlocks_t] and the mapped
    type of [ResourceFrequencyMap_t]. *)
Variable NumBlocks_bits : Z.
Variable Frequency_bits : Z.

Definition NumBlocks_t (x : Z) : Z := wrap NumBlocks_bits x.

Record t := {
  proportion_machine_preferred_ : spec_float;
  proportion_rack_preferred_ : spec_float;
  core_transfer_cost_ : Z;                        (* Cost_t, an int64_t *)
  tor_transfer_cost_ : Z;
  percent_block_tolerance_ : Z;
  machines_per_rack_ : Z;
  filesystem_ : SimulatedDFS;
  rack_to_machine_map_ : list (list Z);
  machine_to_rack_map_ : gmap Z Z;
  file_map_ : gmap Z (gset Z);
  (* each task owns the [ResourceCostMap_t] that its entry points to *)
  preferred_machine_map_ : gmap Z (gmap Z Z);
  preferred_rack_map_ : gmap Z (gmap Z Z);
  cluster_aggregator_cost_ : gmap Z Z;
}.

(** The constructor. *)
Definition SimulatedQuincyCostModel (dfs : SimulatedDFS)
    (delta_preferred_machine delta_preferred_rack : spec_float)
    (core_transfer_cost tor_transfer_cost : Z)
    (percent_block_tolerance machines_per_rack : Z) : t := {|
  proportion_machine_preferred_ := delta_preferred_machine;
  proportion_rack_preferred_ := delta_preferred_rack;
  core_transfer_cost_ := core_transfer_cost;
  tor_transfer_cost_ := tor_transfer_cost;
  percent_block_tolerance_ := percent_block_tolerance;
  machines_per_rack_ := machines_per_rack;
  filesystem_ := dfs;
  (* initialise to a single, empty rack *)
  rack_to_machine_map_ := [[]];
  machine_to_rack_map_ := ∅;
  file_map_ := ∅;
  preferred_machine_map_ := ∅;
  preferred_rack_map_ := ∅;
  cluster_aggregator_cost_ := ∅;
|}.

(** The members that the member functions assign. *)
Record members := {
  m_filesystem : SimulatedDFS;
  m_machine_to_rack_map : gmap Z Z;
  m_file_map : gmap Z (gset Z);
  m_preferred_machine_map : gmap Z (gmap Z Z);
  m_preferred_rack_map : gmap Z (gmap Z Z);
  m_cluster_aggregator_cost : gmap Z Z;
}.

Definition members_of (s : t) : members := {|
  m_filesystem := filesystem_ s;
  m_machine_to_rack_map := machine_to_rack_map_ s;
  m_file_map := file_map_ s;
  m_preferred_machine_map := preferred_machine_map_ s;
  m_preferred_rack_map := preferred_rack_map_ s;
  m_cluster_aggregator_cost := cluster_aggregator_cost_ s;
|}.

Definition assign (s : t) (m : members) : t := {|
  proportion_machine_preferred_ := proportion_machine_preferred_ s;
  proportion_rack_preferred_ := proportion_rack_preferred_ s;
  core_transfer_cost_ := core_transfer_cost_ s;
  tor_transfer_cost_ := tor_transfer_cost_ s;
  percent_block_tolerance_ := percent_block_tolerance_ s;
  machines_per_rack_ := machines_per_rack_ s;
  filesystem_ := m_filesystem m;
  rack_to_machine_map_ := rack_to_machine_map_ s;
  machine_to_rack_map_ := m_machine_to_rack_map m;
  file_map_ := m_file_map m;
  preferred_machine_map_ := m_preferred_machine_map m;
  preferred_rack_map_ := m_preferred_rack_map m;
  cluster_aggregator_cost_ := m_cluster_aggregator_cost m;
|}.

Definition TaskToClusterAggCost (task_id : Z) (s : t) : Z * t :=
  let '(cost, costs) := index_or_insert 0 task_id (cluster_aggregator_cost_ s) in
  (cost, assign s {|
     m_filesystem := filesystem_ s;
     m_machine_to_rack_map := machine_to_rack_map_ s;
     m_file_map := file_map_ s;
     m_preferred_machine_map := preferred_machine_map_ s;
     m_preferred_rack_map := preferred_rack_map_ s;
     m_cluster_aggregator_cost := costs |}).

(** [preferred_machine_map_[task_id]] is a pointer, null for a task that
    has no entry; dereferencing it is the abort.  [operator[]] on the map
    that it points to inserts a cost of 0 for a resource that has none. *)
Definition TaskToResourceNodeCost (task_id resource_id : Z) (s : t)
  : option (Z * t) :=
  cost_map ← preferred_machine_map_ s !! task_id;
  let '(cost, cost_map) := index_or_insert 0 resource_id cost_map in
  Some (cost, assign s {|
     m_filesystem := filesystem_ s;
     m_machine_to_rack_map := machine_to_rack_map_ s;
     m_file_map := file_map_ s;
     m_preferred_machine_map := <[task_id := cost_map]> (preferred_machine_map_ s);
     m_preferred_rack_map := preferred_rack_map_ s;
     m_cluster_aggregator_cost := cluster_aggregator_cost_ s |}).

Definition TaskToEquivClassAggregator (task_id tec : Z) (s : t) : Z * t :=
  let '(racks, rack_map) := index_or_insert ∅ task_id (preferred_rack_map_ s) in
  let '(cost, racks) := index_or_insert 0 tec racks in
  (cost, assign s {|
     m_filesystem := filesystem_ s;
     m_machine_to_rack_map := machine_to_rack_map_ s;
     m_file_map := file_map_ s;
     m_preferred_machine_map := preferred_machine_map_ s;
     m_preferred_rack_map := <[task_id := racks]> rack_map;
     m_cluster_aggregator_cost := cluster_aggregator_cost_ s |}).

(** The equivalence classes for a task are those corresponding to its
    preferred rack. *)
Definition GetTaskEquivClasses (task_id : Z) (s : t) : list Z * t :=
  let '(preferred_racks, rack_map) :=
    index_or_insert ∅ task_id (preferred_rack_map_ s) in
  ((map_to_list preferred_racks).*1, assign s {|
     m_filesystem := filesystem_ s;
     m_machine_to_rack_map := machine_to_rack_map_ s;
     m_file_map := file_map_ s;
     m_preferred_machine_map := preferred_machine_map_ s;
     m_preferred_rack_map := rack_map;
     m_cluster_aggregator_cost := cluster_aggregator_cost_ s |}).

Definition GetTaskPreferenceArcs (task_id : Z) (s : t) : option (list Z) :=
  preferred_machines ← preferred_machine_map_ s !! task_id;
  Some (map_to_list preferred_machines).*1.

(** The body refers to [res_id], which the unit does not declare; it is
    an argument here. *)
Definition AddMachine (res_id : Z) (s : t) : t :=
  assign s {|
     m_filesystem := SimulatedDFS_AddMachine res_id (filesystem_ s);
     m_machine_to_rack_map := machine_to_rack_map_ s;
     m_file_map := file_map_ s;
     m_preferred_machine_map := preferred_machine_map_ s;
     m_preferred_rack_map := preferred_rack_map_ s;
     m_cluster_aggregator_cost := cluster_aggregator_cost_ s |}.

Definition RemoveMachine (res_id : Z) (s : t) : t :=
  assign s {|
     m_filesystem := SimulatedDFS_RemoveMachine res_id (filesystem_ s);
     m_machine_to_rack_map := machine_to_rack_map_ s;
     m_file_map := file_map_ s;
     (* delete any preference arcs to this machine *)
     m_preferred_machine_map := delete res_id <$> preferred_machine_map_ s;
     m_preferred_rack_map := preferred_rack_map_ s;
     m_cluster_aggregator_cost := cluster_aggregator_cost_ s |}.

(** The body refers to [num_blocks], which the unit does not declare; it
    is an argument here. *)
Definition BuildTaskFileSet (num_blocks : Z) (task_id : Z) (s : t) : t :=
  let file_set :=
    SimulatedDFS_SampleFiles (filesystem_ s) num_blocks (percent_block_tolerance_ s) in
  assign s {|
     m_filesystem := filesystem_ s;
     m_machine_to_rack_map := machine_to_rack_map_ s;
     m_file_map := <[task_id := file_set]> (file_map_ s);
     m_preferred_machine_map := preferred_machine_map_ s;
     m_preferred_rack_map := preferred_rack_map_ s;
     m_cluster_aggregator_cost := cluster_aggregator_cost_ s |}.

(** *** [ComputeCostsAndPreferredSet] *)

(** The first loop: the frequencies of the machines and of the racks and
    the number of blocks, over the files of the task. *)
Record frequencies := {
  machine_frequency : gmap Z Z;
  rack_frequency : gmap Z Z;
  total_num_blocks : Z;
  machine_to_rack : gmap Z Z;
}.

(** The body of [for (ResourceID_t machine : machines)]. *)
Definition count_machine (num_blocks : Z)
    (acc : gmap Z Z * gset Z * gmap Z Z) (machine : Z)
  : gmap Z Z * gset Z * gmap Z Z :=
  let '(machine_frequency, racks, machine_to_rack_map) := acc in
  let frequency := uint32 (FindWithDefault machine_frequency machine 0) in
  let machine_frequency :=
    <[machine := wrap Frequency_bits
                   (wrap (Z.max 32 NumBlocks_bits) (frequency + num_blocks))]>
      machine_frequency in
  let '(rack, machine_to_rack_map) :=
    index_or_insert 0 machine machine_to_rack_map in
  (machine_frequency, {[rack]} ∪ racks, machine_to_rack_map).

(** The body of [for (EquivClass_t rack : racks)]. *)
Definition count_rack (num_blocks : Z) (rack_frequency : gmap Z Z) (rack : Z)
  : gmap Z Z :=
  let frequency := uint64 (FindWithDefault rack_frequency rack 0) in
  <[rack := uint64 (frequency + num_blocks)]> rack_frequency.

(** The body of [for (SimulatedDFS::FileID_t file_id : file_set)]. *)
Definition count_file (filesystem : SimulatedDFS) (acc : frequencies) (file_id : Z)
  : frequencies :=
  let num_blocks := NumBlocks_t (SimulatedDFS_GetNumBlocks filesystem file_id) in
  let total_num_blocks := NumBlocks_t (total_num_blocks acc + num_blocks) in
  let machines := SimulatedDFS_GetMachines filesystem file_id in
  let '(machine_frequency, racks, machine_to_rack_map) :=
    foldl (count_machine num_blocks)
          (machine_frequency acc, ∅, machine_to_rack acc) (elements machines) in
  let rack_frequency :=
    foldl (count_rack num_blocks) (rack_frequency acc) (elements racks) in
  {| machine_frequency := machine_frequency;
     rack_frequency := rack_frequency;
     total_num_blocks := total_num_blocks;
     machine_to_rack := machine_to_rack_map |}.

Definition count_files (filesystem : SimulatedDFS) (machine_to_rack_map : gmap Z Z)
    (file_set : gset Z) : frequencies :=
  foldl (count_file filesystem)
        {| machine_frequency := ∅;
           rack_frequency := ∅;
           total_num_blocks := 0;
           machine_to_rack := machine_to_rack_map |}
        (elements file_set).

(** The cost of a preferred machine: local blocks are charged at 0,
    blocks transferred between nodes in rack charged at
    [tor_transfer_cost_], blocks between racks charged at
    [core_transfer_cost_].  The arithmetic on [Cost_t] wraps. *)
Definition machine_cost (s : t) (total_num_blocks num_rack_blocks num_local_blocks : Z)
  : Z :=
  (* Totals so far are inclusive, calculate exclusive ones *)
  let num_rack_blocks := NumBlocks_t (num_rack_blocks - num_local_blocks) in
  let num_core_blocks :=
    NumBlocks_t (NumBlocks_t (total_num_blocks - num_rack_blocks) - num_local_blocks) in
  let cost := int64 (num_core_blocks * core_transfer_cost_ s) in
  int64 (cost + int64 (num_rack_blocks * tor_transfer_cost_ s)).

(** The body of [for (auto freq : machine_frequency)]: the accumulator is
    the map of the preferred machines, [rack_frequency] and
    [machine_to_rack_map_], the last two because [operator[]] is applied
    to them. *)
Definition prefer_machine (s : t) (total_num_blocks : Z)
    (acc : gmap Z Z * gmap Z Z * gmap Z Z) (freq : Z * Z)
  : gmap Z Z * gmap Z Z * gmap Z Z :=
  let '(preferred_machines, rack_frequency, machine_to_rack_map) := acc in
  let num_local_blocks := NumBlocks_t freq.2 in
  let proportion := proportion_of num_local_blocks total_num_blocks in
  if double_ge proportion (proportion_machine_preferred_ s) then
    (* add to preferred list and compute cost *)
    let machine := freq.1 in
    let '(rack, machine_to_rack_map) :=
      index_or_insert 0 machine machine_to_rack_map in
    let '(num_rack_blocks, rack_frequency) :=
      index_or_insert 0 rack rack_frequency in
    let num_rack_blocks := NumBlocks_t num_rack_blocks in
    let cost := machine_cost s total_num_blocks num_rack_blocks num_local_blocks in
    (<[machine := cost]> preferred_machines, rack_frequency, machine_to_rack_map)
  else acc.

Definition rack_cost (s : t) (total_num_blocks num_rack_blocks : Z) : Z :=
  let num_core_blocks := NumBlocks_t (total_num_blocks - num_rack_blocks) in
  let cost := int64 (num_core_blocks * core_transfer_cost_ s) in
  int64 (cost + int64 (num_rack_blocks * tor_transfer_cost_ s)).

(** The body of [for (auto freq : rack_frequency)]. *)
Definition prefer_rack (s : t) (total_num_blocks : Z)
    (preferred_racks : gmap Z Z) (freq : Z * Z) : gmap Z Z :=
  let num_rack_blocks := NumBlocks_t freq.2 in
  let proportion := proportion_of num_rack_blocks total_num_blocks in
  if double_gt proportion (proportion_rack_preferred_ s) then
    let rack := freq.1 in
    <[rack := rack_cost s total_num_blocks num_rack_blocks]> preferred_racks
  else preferred_racks.

Definition ComputeCostsAndPreferredSet (task_id : Z) (s : t) : t :=
  let '(file_set, file_map) := index_or_insert ∅ task_id (file_map_ s) in
  let f := count_files (filesystem_ s) (machine_to_rack_map_ s) file_set in
  let total_num_blocks := total_num_blocks f in
  let '(preferred_machines, rack_frequency, machine_to_rack_map) :=
    foldl (prefer_machine s total_num_blocks)
          (∅, rack_frequency f, machine_to_rack f)
          (map_to_list (machine_frequency f)) in
  let preferred_racks :=
    foldl (prefer_rack s total_num_blocks) ∅ (map_to_list rack_frequency) in
  let cost := int64 (total_num_blocks * core_transfer_cost_ s) in
  assign s {|
     m_filesystem := filesystem_ s;
     m_machine_to_rack_map := machine_to_rack_map;
     m_file_map := file_map;
     m_preferred_machine_map :=
       <[task_id := preferred_machines]> (preferred_machine_map_ s);
     m_preferred_rack_map := <[task_id := preferred_racks]> (preferred_rack_map_ s);
     m_cluster_aggregator_cost := <[task_id := cost]> (cluster_aggregator_cost_ s) |}.

Definition AddTask (num_blocks : Z) (task_id : Z) (s : t) : t :=
  ComputeCostsAndPreferredSet task_id (BuildTaskFileSet num_blocks task_id s).

Definition RemoveTask (task_id : Z) (s : t) : t :=
  assign s {|
     m_filesystem := filesystem_ s;
     m_machine_to_rack_map := machine_to_rack_map_ s;
     m_file_map := delete task_id (file_map_ s);
     m_preferred_machine_map := delete task_id (preferred_machine_map_ s);
     m_preferred_rack_map := delete task_id (preferred_rack_map_ s);
     m_cluster_aggregator_cost := delete task_id (cluster_aggregator_cost_ s) |}.

End WithFileSystem.

Arguments proportion_machine_preferred_ {SimulatedDFS} _.
Arguments proportion_rack_preferred_ {SimulatedDFS} _.
Arguments core_transfer_cost_ {SimulatedDFS} _.
Arguments tor_transfer_cost_ {SimulatedDFS} _.
Arguments percent_block_tolerance_ {SimulatedDFS} _.
Arguments machines_per_rack_ {SimulatedDFS} _.
Arguments filesystem_ {SimulatedDFS} _.
Arguments rack_to_machine_map_ {SimulatedDFS} _.
Arguments machine_to_rack_map_ {SimulatedDFS} _.
Arguments file_map_ {SimulatedDFS} _.
Arguments preferred_machine_map_ {SimulatedDFS} _.
Arguments preferred_rack_map_ {SimulatedDFS} _.
Arguments cluster_aggregator_cost_ {SimulatedDFS} _.
Arguments members_of {SimulatedDFS}.
Arguments assign {SimulatedDFS}.
Arguments TaskToClusterAggCost {SimulatedDFS}.
Arguments TaskToResourceNodeCost {SimulatedDFS}.
Arguments TaskToEquivClassAggregator {SimulatedDFS}.
Arguments GetTaskEquivClasses {SimulatedDFS}.
Arguments GetTaskPreferenceArcs {SimulatedDFS}.
Arguments AddMachine {SimulatedDFS}.
Arguments RemoveMachine {SimulatedDFS}.
Arguments BuildTaskFileSet {SimulatedDFS}.
Arguments count_file {SimulatedDFS}.
Arguments count_files {SimulatedDFS}.
Arguments machine_cost {SimulatedDFS}.
Arguments prefer_machine {SimulatedDFS}.
Arguments rack_cost {SimulatedDFS}.
Arguments prefer_rack {SimulatedDFS}.
Arguments ComputeCostsAndPreferredSet {SimulatedDFS}.
Arguments AddTask {SimulatedDFS}.
Arguments RemoveTask {SimulatedDFS}.
Arguments SimulatedQuincyCostModel {SimulatedDFS}.

End SimulatedQuincyCostModel.


(** ** The Quincy scheduler, [scheduling/quincy_scheduler.cc] *)

Module QuincyScheduler.

(** [JobDescriptor::JobState]: the state that the scheduler tests for and
    sets, and any other enumerator. *)
Inductive JobState :=
  | RUNNING
  | OTHER_STATE (enumerator : Z).

Global Instance JobState_eq_dec : EqDecision JobState.
Proof. solve_decision. Defined.

(** The fields of the descriptors that the scheduler reads or writes.
    [td_job_id] names the job of the task and is not reassigned. *)
Record JobDescriptor := { jd_state : JobState }.
Record TaskDescriptor := { td_uid : Z; td_job_id : string }.

(** The members of [EventDrivenScheduler] that the scheduler reads. *)
Record EventDrivenScheduler := {
  job_map_ : gmap Z JobDescriptor;
  resource_map_ : gmap Z FlowScheduler.ResourceStatus;
  task_map_ : gmap Z TaskDescriptor;
  task_bindings_ : gmap Z Z;
}.

(** [jd->set_state(state)] on the job with the given id. *)
Definition set_job_state (b : EventDrivenScheduler) (job_id : Z) (state : JobState)
  : EventDrivenScheduler := {|
  job_map_ := <[job_id := {| jd_state := state |}]> (job_map_ b);
  resource_map_ := resource_map_ b;
  task_map_ := task_map_ b;
  task_bindings_ := task_bindings_ b;
|}.

(** The scheduler: its base class and the calls made on its flow graph. *)
Record t := {
  base : EventDrivenScheduler;
  flow_graph_ : list FlowScheduler.FlowGraphCall;
}.

Section WithCollaborators.

(** [ResourceIDFromString] and [JobIDFromString] of misc/utils.h. *)
Variable ResourceIDFromString : string -> Z.
Variable JobIDFromString : string -> Z.

(** [BindTaskToResource] of the base class; [None] is a failed check
    inside. *)
Variable EventDrivenScheduler_BindTaskToResource :
  TaskDescriptor -> FlowScheduler.ResourceDescriptor -> EventDrivenScheduler ->
  option EventDrivenScheduler.

(** The loop of [ApplySchedulingDeltas] from the iterator [deltas] on.
    Only a [PLACE] is looked up, applied and actioned. *)
Fixpoint ApplySchedulingDeltas_from (deltas : list nat) (num_scheduled : Z)
    (store : gmap nat FlowScheduler.SchedulingDelta) (s : t)
  : option (Z * gmap nat FlowScheduler.SchedulingDelta * t) :=
  match deltas with
  | [] => Some (num_scheduled, store, s)
  | it :: deltas =>
      d ← store !! it;                     (* the object that [*it] points to *)
      let task_id := FlowScheduler.delta_task_id d in
      let res_id := ResourceIDFromString (FlowScheduler.delta_resource_id d) in
      if decide (FlowScheduler.delta_type d = FlowScheduler.PLACE) then
        td ← task_map_ (base s) !! task_id;                 (* CHECK_NOTNULL *)
        rs ← resource_map_ (base s) !! res_id;              (* CHECK_NOTNULL *)
        b ← EventDrivenScheduler_BindTaskToResource td
              (FlowScheduler.rs_descriptor rs) (base s);
        (* N.B.: This disables preemption and migration! *)
        let flow_graph :=
          flow_graph_ s ++ [FlowScheduler.TaskScheduled task_id res_id] in
        (* Tag the job to which this task belongs as running *)
        let job_id := JobIDFromString (td_job_id td) in
        jd ← job_map_ b !! job_id;              (* dereferenced unchecked *)
        let b :=
          if decide (jd_state jd ≠ RUNNING) then set_job_state b job_id RUNNING
          else b in
        ApplySchedulingDeltas_from deltas (uint64 (num_scheduled + 1))
          (<[it := FlowScheduler.set_actioned true d]> store)
          {| base := b; flow_graph_ := flow_graph |}
      else ApplySchedulingDeltas_from deltas num_scheduled store s
  end.

Definition ApplySchedulingDeltas (deltas : list nat)
    (store : gmap nat FlowScheduler.SchedulingDelta) (s : t)
  : option (Z * gmap nat FlowScheduler.SchedulingDelta * t) :=
  let num_scheduled := 0 in
  ApplySchedulingDeltas_from deltas num_scheduled store s.

End WithCollaborators.

End QuincyScheduler.
(** ** What the specification says, and the inputs of its scenarios *)

Module Spec.

(** *** The trace generator *)

(** [boost::hash_combine] on a [size_t] of 64 bits, for a value whose
    hash is the value itself:
    [seed ^= v + 0x9e3779b9 + (seed << 6) + (seed >> 2)]. *)
Definition boost_hash_combine_uint64 (seed v : Z) : Z :=
  Z.lxor seed (uint64 (v + 0x9e3779b9 + Z.shiftl seed 6 + Z.shiftr seed 2)).

(** Trace generator: "on scheduling, [num_runs += 1] and
    [last_schedule_time = timestamp]". *)
Definition scheduled_at (timestamp : Z) (before after : GenerateTrace.TaskRuntime)
  : Prop :=
  GenerateTrace.tr_num_runs after = uint64 (GenerateTrace.tr_num_runs before + 1)
  ∧ GenerateTrace.tr_last_schedule_time after = timestamp
  ∧ GenerateTrace.tr_total_runtime after = GenerateTrace.tr_total_runtime before
  ∧ GenerateTrace.tr_runtime after = GenerateTrace.tr_runtime before
  ∧ GenerateTrace.tr_start_time after = GenerateTrace.tr_start_time before
  ∧ GenerateTrace.tr_task_id after = GenerateTrace.tr_task_id before.

(** "On completion/eviction/fail/kill,
    [total_runtime += (timestamp − last_schedule_time)]". *)
Definition run_ended_at (timestamp : Z) (before after : GenerateTrace.TaskRuntime)
  : Prop :=
  GenerateTrace.tr_total_runtime after
  = uint64 (GenerateTrace.tr_total_runtime before
            + uint64 (timestamp - GenerateTrace.tr_last_schedule_time before))
  ∧ GenerateTrace.tr_num_runs after = GenerateTrace.tr_num_runs before
  ∧ GenerateTrace.tr_last_schedule_time after
    = GenerateTrace.tr_last_schedule_time before
  ∧ GenerateTrace.tr_start_time after = GenerateTrace.tr_start_time before
  ∧ GenerateTrace.tr_task_id after = GenerateTrace.tr_task_id before.

(** The runtime record that the trace generator keeps for a task. *)
Definition runtime_of (task_id : Z) (g : GenerateTrace.t)
  : option GenerateTrace.TaskRuntime :=
  GenerateTrace.task_to_runtime_ g !! task_id.

Definition zeroed_task_runtime : GenerateTrace.TaskRuntime := {|
  GenerateTrace.tr_task_id := 0;
  GenerateTrace.tr_start_time := 0;
  GenerateTrace.tr_num_runs := 0;
  GenerateTrace.tr_last_schedule_time := 0;
  GenerateTrace.tr_total_runtime := 0;
  GenerateTrace.tr_runtime := 0;
|}.

(** What the memory of the local [task_runtime] of [TaskSubmitted] may
    hold on entry: a [total_runtime] of 7 left by an earlier call. *)
Definition stale_task_runtime : GenerateTrace.TaskRuntime := {|
  GenerateTrace.tr_task_id := 0;
  GenerateTrace.tr_start_time := 0;
  GenerateTrace.tr_num_runs := 0;
  GenerateTrace.tr_last_schedule_time := 0;
  GenerateTrace.tr_total_runtime := 7;
  GenerateTrace.tr_runtime := 0;
|}.

Definition job_named (name : string) : GenerateTrace.JobDescriptor :=
  {| GenerateTrace.jd_name := Some name |}.

Definition task_42 : GenerateTrace.TaskDescriptor :=
  {| GenerateTrace.td_uid := 42; GenerateTrace.td_index := 0 |}.

(** The trace generator after the submission, at 1000, of task 42 of a
    job named "wordcount", when the uninitialised locals hold zeroes; and
    the id that this job gets. *)
Definition job_of_task_42 : Z := uint64 (boost_hash_combine_uint64 42 0).

Definition trace_with_task_42 : GenerateTrace.t :=
  default GenerateTrace.GenerateTrace
    (GenerateTrace.TaskSubmitted true boost_hash_combine_uint64 (λ _, None)
       1000 0 zeroed_task_runtime (job_named "wordcount") task_42
       GenerateTrace.GenerateTrace).

(** A job is a simulated one when its name starts with the prefix. *)
Definition is_simulated_job (jd : GenerateTrace.JobDescriptor) : bool :=
  match GenerateTrace.jd_name jd with
  | Some name => find_at_0 GenerateTrace.simulator_job_prefix name
  | None => false
  end.

Definition is_simulated_machine (rd : GenerateTrace.ResourceDescriptor) : bool :=
  match GenerateTrace.rd_friendly_name rd with
  | Some name => find_at_0 GenerateTrace.simulator_machine_prefix name
  | None => false
  end.

(** *** The flow scheduler *)

(** The cost model that the specification names for a value of
    [flow_scheduling_cost_model]: "Trivial, Random, SJF, Quincy, Whare,
    Coco, Octopus, Void, SimulatedQuincy". *)
Definition named_cost_model (c : FlowScheduler.CostModelType)
  : FlowScheduler.CostModel :=
  match c with
  | FlowScheduler.COST_MODEL_TRIVIAL => FlowScheduler.TrivialCostModel
  | FlowScheduler.COST_MODEL_RANDOM => FlowScheduler.RandomCostModel
  | FlowScheduler.COST_MODEL_SJF => FlowScheduler.SJFCostModel
  | FlowScheduler.COST_MODEL_QUINCY => FlowScheduler.QuincyCostModel
  | FlowScheduler.COST_MODEL_WHARE => FlowScheduler.WhareMapCostModel
  | FlowScheduler.COST_MODEL_COCO => FlowScheduler.CocoCostModel
  | FlowScheduler.COST_MODEL_OCTOPUS => FlowScheduler.OctopusCostModel
  | FlowScheduler.COST_MODEL_VOID => FlowScheduler.VoidCostModel
  | FlowScheduler.COST_MODEL_SIMULATED_QUINCY =>
      FlowScheduler.SimulatedQuincyCostModel
  end.

(** The number of [PLACE] deltas among the elements of a vector. *)
Definition is_place (store : gmap nat FlowScheduler.SchedulingDelta) (it : nat)
  : bool :=
  match store !! it with
  | Some d => bool_decide (FlowScheduler.delta_type d = FlowScheduler.PLACE)
  | None => false
  end.

Definition num_place_deltas (deltas : list nat)
    (store : gmap nat FlowScheduler.SchedulingDelta) : Z :=
  Z.of_nat (length (List.filter (is_place store) deltas)).

(** "Jobs whose state ∉ {Completed, Failed, Aborted}". *)
Definition job_is_active (jd : FlowScheduler.JobDescriptor) : Prop :=
  FlowScheduler.jd_state jd ≠ FlowScheduler.COMPLETED
  ∧ FlowScheduler.jd_state jd ≠ FlowScheduler.FAILED
  ∧ FlowScheduler.jd_state jd ≠ FlowScheduler.ABORTED.

(** "[now − last_time_dependent_update ≥
    time_dependent_cost_update_frequency]", over [uint64_t]. *)
Definition update_period_elapsed (now last frequency : Z) : Prop :=
  uint64 frequency <= uint64 (now - last).

(** A base class whose handlers keep [task_bindings_]: a placement binds
    the task, an eviction unbinds it, a migration binds it to the new
    resource. *)
Definition resource_id_of_string (s : string) : Z := Z.of_nat (String.length s).

Definition bind (td : FlowScheduler.TaskDescriptor)
    (rd : FlowScheduler.ResourceDescriptor) (b : FlowScheduler.EventDrivenScheduler)
  : option FlowScheduler.EventDrivenScheduler :=
  Some {| FlowScheduler.job_map_ := FlowScheduler.job_map_ b;
          FlowScheduler.resource_map_ := FlowScheduler.resource_map_ b;
          FlowScheduler.task_map_ := FlowScheduler.task_map_ b;
          FlowScheduler.task_bindings_ :=
            <[FlowScheduler.td_uid td :=
                resource_id_of_string (FlowScheduler.rd_uuid rd)]>
              (FlowScheduler.task_bindings_ b) |}.

Definition unbind (td : FlowScheduler.TaskDescriptor)
    (rd : FlowScheduler.ResourceDescriptor) (b : FlowScheduler.EventDrivenScheduler)
  : option FlowScheduler.EventDrivenScheduler :=
  Some {| FlowScheduler.job_map_ := FlowScheduler.job_map_ b;
          FlowScheduler.resource_map_ := FlowScheduler.resource_map_ b;
          FlowScheduler.task_map_ := FlowScheduler.task_map_ b;
          FlowScheduler.task_bindings_ :=
            delete (FlowScheduler.td_uid td) (FlowScheduler.task_bindings_ b) |}.

(** A cluster of two resources, "r" and "rr" (ids 1 and 2), and three
    tasks, of which task 3 runs on resource 1; one job is running (state
    2 of the enumeration), one is completed. *)
Definition resource_named (uuid : string) : FlowScheduler.ResourceStatus :=
  {| FlowScheduler.rs_descriptor := {| FlowScheduler.rd_uuid := uuid |} |}.

Definition small_cluster : FlowScheduler.EventDrivenScheduler := {|
  FlowScheduler.job_map_ :=
    {[ 10 := {| FlowScheduler.jd_state := FlowScheduler.OTHER_STATE 2 |};
       11 := {| FlowScheduler.jd_state := FlowScheduler.COMPLETED |} ]};
  FlowScheduler.resource_map_ :=
    {[ 1 := resource_named "r"; 2 := resource_named "rr" ]};
  FlowScheduler.task_map_ :=
    {[ 1 := {| FlowScheduler.td_uid := 1 |};
       2 := {| FlowScheduler.td_uid := 2 |};
       3 := {| FlowScheduler.td_uid := 3 |} ]};
  FlowScheduler.task_bindings_ := {[ 3 := 1 ]};
|}.

Definition small_scheduler : FlowScheduler.t unit := {|
  FlowScheduler.base := small_cluster;
  FlowScheduler.cost_model_ := FlowScheduler.TrivialCostModel;
  FlowScheduler.flow_graph_ := [];
  FlowScheduler.last_updated_time_dependent_costs_ := 0;
  FlowScheduler.solver_dispatcher_ := ();
|}.

(** Four deltas: place task 1 on "r", a no-op for task 2, migrate task 3
    to "rr", place task 2 on "rr". *)
Definition four_deltas : gmap nat FlowScheduler.SchedulingDelta :=
  {[ 0%nat := {| FlowScheduler.delta_type := FlowScheduler.PLACE;
                 FlowScheduler.delta_task_id := 1;
                 FlowScheduler.delta_resource_id := "r";
                 FlowScheduler.delta_actioned := false |};
     1%nat := {| FlowScheduler.delta_type := FlowScheduler.NOOP;
                 FlowScheduler.delta_task_id := 2;
                 FlowScheduler.delta_resource_id := "r";
                 FlowScheduler.delta_actioned := false |};
     2%nat := {| FlowScheduler.delta_type := FlowScheduler.MIGRATE;
                 FlowScheduler.delta_task_id := 3;
                 FlowScheduler.delta_resource_id := "rr";
                 FlowScheduler.delta_actioned := false |};
     3%nat := {| FlowScheduler.delta_type := FlowScheduler.PLACE;
                 FlowScheduler.delta_task_id := 2;
                 FlowScheduler.delta_resource_id := "rr";
                 FlowScheduler.delta_actioned := false |} ]}.

(** *** The simulated Quincy cost model *)

(** The numbers of blocks that the specification speaks of, for the files
    of a task: all blocks, the blocks that have a replica on machine [m]
    ([local_blocks]), the blocks that have a replica in rack [r]
    ([rack_blocks]). *)
Section Blocks.

Variable num_blocks_of : Z -> Z.
Variable machines_of : Z -> gset Z.
Variable rack_of : Z -> Z.

Definition holds_machine (m : Z) (file_id : Z) : bool :=
  bool_decide (m ∈ machines_of file_id).

Definition holds_rack (r : Z) (file_id : Z) : bool :=
  existsb (λ m, bool_decide (rack_of m = r)) (elements (machines_of file_id)).

Definition blocks_where (P : Z -> bool) (files : list Z) : Z :=
  foldr (λ file_id sum, (if P file_id then num_blocks_of file_id else 0) + sum)
        0 files.

Definition total_blocks (files : list Z) : Z := blocks_where (λ _, true) files.
Definition local_blocks (m : Z) (files : list Z) : Z :=
  blocks_where (holds_machine m) files.
Definition rack_blocks (r : Z) (files : list Z) : Z :=
  blocks_where (holds_rack r) files.

End Blocks.

(** The number of blocks of a file, as a [NumBlocks_t], and the rack of a
    machine, rack 0 for a machine that [machine_to_rack_map_] does not
    know. *)
Definition file_blocks {SimulatedDFS : Type}
    (GetNumBlocks : SimulatedDFS -> Z -> Z) (NumBlocks_bits : Z)
    (filesystem : SimulatedDFS) (file_id : Z) : Z :=
  wrap NumBlocks_bits (GetNumBlocks filesystem file_id).

Definition machine_rack (machine_to_rack_map : gmap Z Z) (machine : Z) : Z :=
  FindWithDefault machine_to_rack_map machine 0.

(** The files of a task: what [BuildTaskFileSet] samples, in the order
    in which [ComputeCostsAndPreferredSet] iterates over them. *)
Definition sampled_files {SimulatedDFS : Type}
    (SampleFiles : SimulatedDFS -> Z -> Z -> gset Z) (num_blocks : Z)
    (s : SimulatedQuincyCostModel.t SimulatedDFS) : list Z :=
  elements (SampleFiles (SimulatedQuincyCostModel.filesystem_ s) num_blocks
              (SimulatedQuincyCostModel.percent_block_tolerance_ s)).

(** A number of blocks that every counter of the cost model can hold. *)
Definition blocks_fit (NumBlocks_bits Frequency_bits : Z) (x : Z) : Prop :=
  0 <= x < 2 ^ 32 ∧ x < 2 ^ NumBlocks_bits ∧ x < 2 ^ Frequency_bits.

(** The cost of a preferred machine as the specification gives it,
    "[(total − rack_blocks(r) − local_blocks(m)) × core_transfer_cost +
    (rack_blocks(r) − local_blocks(m)) × tor_transfer_cost]", and the cost
    that charges nothing for the local blocks, the transfer within the
    rack for the other blocks of the rack and the transfer between racks
    for the blocks outside of the rack. *)
Definition stated_machine_cost (total rack local core_cost tor_cost : Z) : Z :=
  (total - rack - local) * core_cost + (rack - local) * tor_cost.

Definition locality_machine_cost (total rack local core_cost tor_cost : Z) : Z :=
  (total - rack) * core_cost + (rack - local) * tor_cost.

(** "[(total − rack_blocks(r)) × core_transfer_cost + rack_blocks(r) ×
    tor_transfer_cost]" and "[total_blocks × core_transfer_cost]". *)
Definition stated_rack_cost (total rack core_cost tor_cost : Z) : Z :=
  (total - rack) * core_cost + rack * tor_cost.

Definition stated_cluster_cost (total core_cost : Z) : Z := total * core_cost.

(** The [double]s 0.5 and 1. *)
Definition double_half : spec_float := S754_finite false (2 ^ 52) (-53).
Definition double_one : spec_float := S754_finite false (2 ^ 52) (-52).

(** The scenario of the specification: one rack (rack 0) of four machines
    (1 to 4); the file system holds one file (file 1) of 10 blocks, all
    on machine 1, and samples it for every task.  [NumBlocks_t] and the
    frequencies have 32 bits; a block costs 2 across racks and 1 within a
    rack. *)
Definition one_file_dfs_GetNumBlocks (dfs : unit) (file_id : Z) : Z :=
  if file_id =? 1 then 10 else 0.
Definition one_file_dfs_GetMachines (dfs : unit) (file_id : Z) : gset Z :=
  if file_id =? 1 then {[ 1 ]} else ∅.
Definition one_file_dfs_SampleFiles (dfs : unit) (num_blocks tolerance : Z)
  : gset Z := {[ 1 ]}.

Definition one_rack_cost_model : SimulatedQuincyCostModel.t unit := {|
  SimulatedQuincyCostModel.proportion_machine_preferred_ := double_half;
  SimulatedQuincyCostModel.proportion_rack_preferred_ := double_half;
  SimulatedQuincyCostModel.core_transfer_cost_ := 2;
  SimulatedQuincyCostModel.tor_transfer_cost_ := 1;
  SimulatedQuincyCostModel.percent_block_tolerance_ := 10;
  SimulatedQuincyCostModel.machines_per_rack_ := 4;
  SimulatedQuincyCostModel.filesystem_ := ();
  SimulatedQuincyCostModel.rack_to_machine_map_ := [[1; 2; 3; 4]];
  SimulatedQuincyCostModel.machine_to_rack_map_ :=
    {[ 1 := 0; 2 := 0; 3 := 0; 4 := 0 ]};
  SimulatedQuincyCostModel.file_map_ := ∅;
  SimulatedQuincyCostModel.preferred_machine_map_ := ∅;
  SimulatedQuincyCostModel.preferred_rack_map_ := ∅;
  SimulatedQuincyCostModel.cluster_aggregator_cost_ := ∅;
|}.

(** The cost model of the scenario after [AddTask] for task 42. *)
Definition one_rack_with_task_42 : SimulatedQuincyCostModel.t unit :=
  SimulatedQuincyCostModel.AddTask one_file_dfs_GetNumBlocks
    one_file_dfs_GetMachines one_file_dfs_SampleFiles 32 32 10 42
    one_rack_cost_model.

End Spec.

(** ** Sequences of calls on the trace generator *)

Module TraceCalls.

(** A call of one of the nine member functions, with its arguments: the
    timestamp that the time manager returns in the call and, for
    [TaskSubmitted], what its two uninitialised locals hold. *)
Inductive call :=
  | CallAddMachine (timestamp : Z) (rd : GenerateTrace.ResourceDescriptor)
  | CallRemoveMachine (timestamp : Z) (rd : GenerateTrace.ResourceDescriptor)
  | CallSchedulerRun (timestamp : Z) (stats : GenerateTrace.SchedulerStats)
      (stats_string : string)
  | CallTaskSubmitted (timestamp : Z) (job_id_stack : Z)
      (task_runtime_stack : GenerateTrace.TaskRuntime)
      (jd : GenerateTrace.JobDescriptor) (td : GenerateTrace.TaskDescriptor)
  | CallTaskScheduled (timestamp : Z) (task_id res_id : Z)
  | CallTaskCompleted (timestamp : Z) (task_id : Z)
  | CallTaskEvicted (timestamp : Z) (task_id : Z)
  | CallTaskFailed (timestamp : Z) (task_id : Z)
  | CallTaskKilled (timestamp : Z) (task_id : Z).

(** The timestamp and the event code of the row that a call on a task
    writes to [task_events_], and the ones of the row that a call on a
    machine writes to [machine_events_]. *)
Definition task_event_of (c : call) : option (Z * Z) :=
  match c with
  | CallTaskSubmitted timestamp _ _ _ _ => Some (timestamp, 0)
  | CallTaskScheduled timestamp _ _ => Some (timestamp, 1)
  | CallTaskEvicted timestamp _ => Some (timestamp, 2)
  | CallTaskFailed timestamp _ => Some (timestamp, 3)
  | CallTaskCompleted timestamp _ => Some (timestamp, 4)
  | CallTaskKilled timestamp _ => Some (timestamp, 5)
  | _ => None
  end.

Definition machine_event_of (c : call) : option (Z * Z) :=
  match c with
  | CallAddMachine timestamp _ => Some (timestamp, 0)
  | CallRemoveMachine timestamp _ => Some (timestamp, 1)
  | _ => None
  end.

(** The row that a call of the scheduler writes to [scheduler_events_]. *)
Definition scheduler_event_of (c : call)
  : option GenerateTrace.scheduler_event_row :=
  match c with
  | CallSchedulerRun timestamp stats stats_string =>
      Some (timestamp, GenerateTrace.scheduler_runtime stats,
            GenerateTrace.algorithm_runtime stats,
            GenerateTrace.total_runtime stats, stats_string)
  | _ => None
  end.

(** The task that a call submits. *)
Definition submitted_task (c : call) : option Z :=
  match c with
  | CallTaskSubmitted _ _ _ _ td => Some (GenerateTrace.td_uid td)
  | _ => None
  end.

(** The task that a call is about, for the calls that look the task up. *)
Definition looked_up_task (c : call) : option Z :=
  match c with
  | CallTaskScheduled _ task_id _ | CallTaskCompleted _ task_id
  | CallTaskEvicted _ task_id | CallTaskFailed _ task_id
  | CallTaskKilled _ task_id => Some task_id
  | _ => None
  end.

Section WithEnvironment.

Variable FLAGS_generate_trace : bool.
Variable hash_combine_string : Z -> string -> Z.
Variable hash_combine_uint64 : Z -> Z -> Z.
Variable lexical_cast_uint64 : string -> option Z.

Definition do_call (c : call) (g : GenerateTrace.t) : option GenerateTrace.t :=
  match c with
  | CallAddMachine timestamp rd =>
      GenerateTrace.AddMachine FLAGS_generate_trace hash_combine_string
        lexical_cast_uint64 timestamp rd g
  | CallRemoveMachine timestamp rd =>
      GenerateTrace.RemoveMachine FLAGS_generate_trace hash_combine_string
        lexical_cast_uint64 timestamp rd g
  | CallSchedulerRun timestamp stats stats_string =>
      GenerateTrace.SchedulerRun FLAGS_generate_trace timestamp stats stats_string g
  | CallTaskSubmitted timestamp job_id_stack task_runtime_stack jd td =>
      GenerateTrace.TaskSubmitted FLAGS_generate_trace hash_combine_uint64
        lexical_cast_uint64 timestamp job_id_stack task_runtime_stack jd td g
  | CallTaskScheduled timestamp task_id res_id =>
      GenerateTrace.TaskScheduled FLAGS_generate_trace timestamp task_id res_id g
  | CallTaskCompleted timestamp task_id =>
      GenerateTrace.TaskCompleted FLAGS_generate_trace timestamp task_id g
  | CallTaskEvicted timestamp task_id =>
      GenerateTrace.TaskEvicted FLAGS_generate_trace timestamp task_id g
  | CallTaskFailed timestamp task_id =>
      GenerateTrace.TaskFailed FLAGS_generate_trace timestamp task_id g
  | CallTaskKilled timestamp task_id =>
      GenerateTrace.TaskKilled FLAGS_generate_trace timestamp task_id g
  end.

(** The calls of a list, one after the other, as long as none ends the
    process. *)
Fixpoint do_calls (calls : list call) (g : GenerateTrace.t)
  : option GenerateTrace.t :=
  match calls with
  | [] => Some g
  | c :: calls => g ← do_call c g; do_calls calls g
  end.

End WithEnvironment.

(** The number of tasks that [task_to_job_] maps to a job. *)
Definition tasks_of_job (job_id : Z) (task_to_job : gmap Z Z) : Z :=
  Z.of_nat (size (filter (λ entry, entry.2 = job_id) task_to_job)).

(** The invariants of the generator: the two maps from tasks have the
    same keys; the count of a job is the number of the tasks that are
    mapped to it; nothing has been written to the two streams of the
    destructor. *)
Definition same_tasks (g : GenerateTrace.t) : Prop :=
  ∀ task_id, is_Some (GenerateTrace.task_to_job_ g !! task_id)
             ↔ is_Some (GenerateTrace.task_to_runtime_ g !! task_id).

Definition counts_tasks (g : GenerateTrace.t) : Prop :=
  ∀ job_id,
    GenerateTrace.job_num_tasks_ g !! job_id
    = if decide (tasks_of_job job_id (GenerateTrace.task_to_job_ g) = 0) then None
      else Some (uint64 (tasks_of_job job_id (GenerateTrace.task_to_job_ g))).

Definition destructor_streams_empty (g : GenerateTrace.t) : Prop :=
  GenerateTrace.task_runtime_events_ g = [] ∧ GenerateTrace.jobs_num_tasks_ g = [].

(** The row of [task_runtime_events_] for a task of a job. *)
Definition task_runtime_row_of (job_id task_id : Z)
    (task_runtime : GenerateTrace.TaskRuntime) : GenerateTrace.task_runtime_row :=
  (job_id, task_id, job_id,
   GenerateTrace.tr_start_time task_runtime,
   GenerateTrace.tr_total_runtime task_runtime,
   GenerateTrace.tr_runtime task_runtime, GenerateTrace.tr_num_runs task_runtime).

(** The timestamp and the event code of a row of [task_events_] and of a
    row of [machine_events_]. *)
Definition task_row_event (row : GenerateTrace.task_event_row) : Z * Z :=
  let '(timestamp, _, _, task_event) := row in (timestamp, task_event).

Definition machine_row_event (row : GenerateTrace.machine_event_row) : Z * Z :=
  let '(timestamp, _, machine_event) := row in (timestamp, machine_event).

(** A simulated machine and a simulated job: the prefix, then a suffix. *)
Definition simulated_machine (uuid suffix : string)
  : GenerateTrace.ResourceDescriptor :=
  {| GenerateTrace.rd_uuid := uuid;
     GenerateTrace.rd_friendly_name :=
       Some (String.append GenerateTrace.simulator_machine_prefix suffix) |}.

Definition simulated_job (suffix : string) : GenerateTrace.JobDescriptor :=
  {| GenerateTrace.jd_name := Some (String.append GenerateTrace.simulator_job_prefix suffix) |}.

(** A conversion that knows the numbers 7 and 12. *)
Definition small_lexical_cast (s : string) : option Z :=
  if String.eqb s "7" then Some 7
  else if String.eqb s "12" then Some 12 else None.

(** Two machines and a short history: a machine is added, a task is
    submitted, scheduled, evicted, scheduled again and completed. *)
Definition machine_a : GenerateTrace.ResourceDescriptor :=
  {| GenerateTrace.rd_uuid := "6ba7b810-9dad-11d1-80b4-00c04fd430c8";
     GenerateTrace.rd_friendly_name := Some "machine_a" |}.

Definition short_history : list call :=
  [ CallAddMachine 900 machine_a;
    CallTaskSubmitted 1000 0 Spec.zeroed_task_runtime
      (Spec.job_named "wordcount") Spec.task_42;
    CallTaskScheduled 1500 42 1;
    CallTaskEvicted 2000 42;
    CallTaskScheduled 2500 42 2;
    CallTaskCompleted 3500 42 ].

Definition hash_of_length (seed : Z) (s : string) : Z :=
  seed + Z.of_nat (String.length s).

Definition after_short_history : GenerateTrace.t :=
  default GenerateTrace.GenerateTrace
    (do_calls true hash_of_length Spec.boost_hash_combine_uint64 (λ _, None)
       short_history GenerateTrace.GenerateTrace).

(** The record of task 42 after its submission, and later calls: the
    task is submitted again by another job, another task is submitted
    and run, and the scheduler runs. *)
Definition record_of_task_42 : GenerateTrace.TaskRuntime := {|
  GenerateTrace.tr_task_id := 42;
  GenerateTrace.tr_start_time := 1000;
  GenerateTrace.tr_num_runs := 0;
  GenerateTrace.tr_last_schedule_time := 0;
  GenerateTrace.tr_total_runtime := 0;
  GenerateTrace.tr_runtime := 0;
|}.

Definition task_43 : GenerateTrace.TaskDescriptor :=
  {| GenerateTrace.td_uid := 43; GenerateTrace.td_index := 1 |}.

Definition later_calls : list call :=
  [ CallTaskSubmitted 4000 1 Spec.zeroed_task_runtime
      (Spec.job_named "sort") Spec.task_42;
    CallTaskSubmitted 4100 1 Spec.zeroed_task_runtime
      (Spec.job_named "sort") task_43;
    CallSchedulerRun 4200
      {| GenerateTrace.scheduler_runtime := 30;
         GenerateTrace.algorithm_runtime := 20;
         GenerateTrace.total_runtime := 50 |} "stats";
    CallTaskScheduled 4300 43 1;
    CallTaskKilled 4400 43;
    CallRemoveMachine 4500 machine_a ].

Definition after_later_calls : GenerateTrace.t :=
  default GenerateTrace.GenerateTrace
    (do_calls true hash_of_length Spec.boost_hash_combine_uint64 (λ _, None)
       later_calls Spec.trace_with_task_42).

End TraceCalls.

(** ** Properties of the deltas and of the maps of the scheduler *)

Module DeltaProps.
Import FlowScheduler.

(** A handler of the base class that, when it returns, has kept
    [task_map_] and [resource_map_]. *)
Definition preserves_maps
    (handler : TaskDescriptor -> ResourceDescriptor -> EventDrivenScheduler ->
               option EventDrivenScheduler) : Prop :=
  ∀ td rd b b', handler td rd b = Some b' ->
                task_map_ b' = task_map_ b ∧ resource_map_ b' = resource_map_ b.

(** The two maps are keyed by the ids of their descriptors. *)
Definition well_keyed (ResourceIDFromString : string -> Z)
    (b : EventDrivenScheduler) : Prop :=
  map_Forall (λ task_id td, td_uid td = task_id) (task_map_ b)
  ∧ map_Forall (λ res_id rs,
                  ResourceIDFromString (rd_uuid (rs_descriptor rs)) = res_id)
      (resource_map_ b).

(** The element of the vector points to a delta that is not a [NOOP]. *)
Definition is_change (store : gmap nat SchedulingDelta) (it : nat) : bool :=
  match store !! it with
  | Some d => bool_decide (delta_type d ≠ NOOP)
  | None => false
  end.

(** The call on the flow graph that tells it about a delta: the task and
    the resource of the delta, and for a migration some old resource. *)
Definition tells (ResourceIDFromString : string -> Z)
    (store : gmap nat SchedulingDelta) (it : nat) (c : FlowGraphCall) : Prop :=
  ∃ d, store !! it = Some d
       ∧ match delta_type d with
         | NOOP => False
         | PLACE =>
             c = TaskScheduled (delta_task_id d)
                   (ResourceIDFromString (delta_resource_id d))
         | PREEMPT =>
             c = TaskEvicted (delta_task_id d)
                   (ResourceIDFromString (delta_resource_id d))
         | MIGRATE =>
             ∃ old_res_id,
               c = TaskMigrated (delta_task_id d) old_res_id
                     (ResourceIDFromString (delta_resource_id d))
         end.

(** The delta names a task that [task_map_] does not have or a resource
    that [resource_map_] does not have. *)
Definition names_unknown (ResourceIDFromString : string -> Z)
    (b : EventDrivenScheduler) (d : SchedulingDelta) : Prop :=
  task_map_ b !! delta_task_id d = None
  ∨ resource_map_ b !! ResourceIDFromString (delta_resource_id d) = None.

(** A binding of the solver that passes the sanity checks of
    [RunSchedulingIteration]: both nodes exist, the source is a task
    node, the destination is a PU, and the maps have the task and the
    resource of the two nodes. *)
Definition valid_binding {SolverDispatcher : Type}
    (FlowGraph_Node : list FlowGraphCall -> Z -> option FlowGraphNode)
    (s : FlowScheduler.t SolverDispatcher) (it : Z * Z) : Prop :=
  ∃ src dst,
    FlowGraph_Node (flow_graph_ s) it.1 = Some src
    ∧ FlowGraph_Node (flow_graph_ s) it.2 = Some dst
    ∧ (type_ src = SCHEDULED_TASK ∨ type_ src = UNSCHEDULED_TASK
       ∨ type_ src = ROOT_TASK)
    ∧ type_ dst = PU
    ∧ is_Some (task_map_ (base s) !! task_id_ src)
    ∧ is_Some (resource_map_ (base s) !! resource_id_ dst).

(** The call on the flow graph that updates the time-dependent costs. *)
Definition is_cost_update (c : FlowGraphCall) : bool :=
  match c with
  | UpdateTimeDependentCosts _ => true
  | _ => false
  end.

(** The number of [PLACE] deltas of a list of deltas. *)
Definition num_place (deltas : list SchedulingDelta) : Z :=
  Z.of_nat (length (List.filter (λ d, bool_decide (delta_type d = PLACE)) deltas)).

(** The cost models for which the statistics of the resource topology
    are computed. *)
Definition uses_resource_stats (cost_model : CostModel) : bool :=
  match cost_model with
  | WhareMapCostModel | CocoCostModel | OctopusCostModel => true
  | _ => false
  end.

(** The small scheduler after the four deltas have been applied. *)
Definition after_four_deltas
  : Z * gmap nat SchedulingDelta * FlowScheduler.t unit :=
  default (0, ∅, Spec.small_scheduler)
    (ApplySchedulingDeltas unit Spec.resource_id_of_string
       Spec.bind Spec.unbind Spec.bind [0; 1; 2; 3]%nat Spec.four_deltas
       Spec.small_scheduler).

(** The four deltas and a [NOOP] for task 9, which the small cluster
    does not have. *)
Definition deltas_with_unknown_task : gmap nat SchedulingDelta :=
  <[4%nat := {| delta_type := NOOP;
                delta_task_id := 9;
                delta_resource_id := "r";
                delta_actioned := false |}]> Spec.four_deltas.

(** A flow graph whose node 100 is the PU of resource 1 and whose other
    nodes are unscheduled tasks, and a dispatcher that binds node 1 to
    node 100 and derives a [PLACE] and a [NOOP] from a binding. *)
Definition graph_with_one_pu (flow_graph : list FlowGraphCall) (id : Z)
  : option FlowGraphNode :=
  if id =? 100
  then Some {| type_ := PU; task_id_ := 0; resource_id_ := 1 |}
  else Some {| type_ := UNSCHEDULED_TASK; task_id_ := id; resource_id_ := 0 |}.

Definition run_binds_1_to_100 (flow_graph : list FlowGraphCall) (dispatcher : unit)
  : list (Z * Z) * unit :=
  ([(1, 100)], ()).

Definition place_and_noop (td : TaskDescriptor) (rd : ResourceDescriptor)
    (task_bindings : gmap Z Z) : list SchedulingDelta :=
  [ {| delta_type := PLACE; delta_task_id := td_uid td;
       delta_resource_id := rd_uuid rd; delta_actioned := false |};
    {| delta_type := NOOP; delta_task_id := td_uid td;
       delta_resource_id := rd_uuid rd; delta_actioned := false |} ].

Definition after_one_iteration
  : Z * list SchedulingDelta * FlowScheduler.t unit :=
  default (0, [], Spec.small_scheduler)
    (RunSchedulingIteration unit 0 100 Spec.resource_id_of_string
       Spec.bind Spec.unbind Spec.bind graph_with_one_pu (λ _, 0)
       run_binds_1_to_100 place_and_noop 150 Spec.small_scheduler).

(** A base class whose handler of placements also completes job 10, and
    two iterations of the small scheduler on it, at 150 and at 250, with
    an update frequency of 100. *)
Definition bind_and_complete_job_10 (td : TaskDescriptor)
    (rd : ResourceDescriptor) (b : EventDrivenScheduler)
  : option EventDrivenScheduler :=
  Some {| job_map_ := <[10 := {| jd_state := COMPLETED |}]> (job_map_ b);
          resource_map_ := resource_map_ b;
          task_map_ := task_map_ b;
          task_bindings_ :=
            <[td_uid td := Spec.resource_id_of_string (rd_uuid rd)]>
              (task_bindings_ b) |}.

Definition after_first_iteration
  : Z * list SchedulingDelta * FlowScheduler.t unit :=
  default (0, [], Spec.small_scheduler)
    (RunSchedulingIteration unit 0 100 Spec.resource_id_of_string
       bind_and_complete_job_10 Spec.unbind Spec.bind graph_with_one_pu (λ _, 0)
       run_binds_1_to_100 place_and_noop 150 Spec.small_scheduler).

Definition after_second_iteration
  : Z * list SchedulingDelta * FlowScheduler.t unit :=
  default (0, [], Spec.small_scheduler)
    (RunSchedulingIteration unit 0 100 Spec.resource_id_of_string
       bind_and_complete_job_10 Spec.unbind Spec.bind graph_with_one_pu (λ _, 0)
       run_binds_1_to_100 place_and_noop 250 after_first_iteration.2).

(** The scheduler that the constructor makes for the CoCo cost model on
    a new flow graph of one node. *)
Definition coco_scheduler : FlowScheduler.t unit :=
  default Spec.small_scheduler
    (FlowScheduler unit (CostModelType_value COST_MODEL_COCO)
       (λ _, 1) (λ _, ()) Spec.small_cluster).

End DeltaProps.

(** ** The deltas that the Quincy scheduler applies *)

Module QuincyProps.

(** The call on the flow graph for an element of the vector that points
    to a [PLACE]. *)
Definition placement_call (ResourceIDFromString : string -> Z)
    (store : gmap nat FlowScheduler.SchedulingDelta) (it : nat)
  : option FlowScheduler.FlowGraphCall :=
  d ← store !! it;
  if decide (FlowScheduler.delta_type d = FlowScheduler.PLACE)
  then Some (FlowScheduler.TaskScheduled (FlowScheduler.delta_task_id d)
               (ResourceIDFromString (FlowScheduler.delta_resource_id d)))
  else None.

(** A base class that binds a task and keeps the maps; the small cluster
    with the job "j" (id 1) of its three tasks, which is not running. *)
Definition bind (td : QuincyScheduler.TaskDescriptor)
    (rd : FlowScheduler.ResourceDescriptor) (b : QuincyScheduler.EventDrivenScheduler)
  : option QuincyScheduler.EventDrivenScheduler :=
  Some {| QuincyScheduler.job_map_ := QuincyScheduler.job_map_ b;
          QuincyScheduler.resource_map_ := QuincyScheduler.resource_map_ b;
          QuincyScheduler.task_map_ := QuincyScheduler.task_map_ b;
          QuincyScheduler.task_bindings_ :=
            <[QuincyScheduler.td_uid td :=
                Spec.resource_id_of_string (FlowScheduler.rd_uuid rd)]>
              (QuincyScheduler.task_bindings_ b) |}.

Definition task_of_job_j (uid : Z) : QuincyScheduler.TaskDescriptor :=
  {| QuincyScheduler.td_uid := uid; QuincyScheduler.td_job_id := "j" |}.

Definition small_scheduler : QuincyScheduler.t := {|
  QuincyScheduler.base := {|
    QuincyScheduler.job_map_ :=
      {[ 1 := {| QuincyScheduler.jd_state := QuincyScheduler.OTHER_STATE 0 |} ]};
    QuincyScheduler.resource_map_ :=
      {[ 1 := Spec.resource_named "r"; 2 := Spec.resource_named "rr" ]};
    QuincyScheduler.task_map_ :=
      {[ 1 := task_of_job_j 1; 2 := task_of_job_j 2; 3 := task_of_job_j 3 ]};
    QuincyScheduler.task_bindings_ := {[ 3 := 1 ]};
  |};
  QuincyScheduler.flow_graph_ := [];
|}.

Definition after_four_deltas
  : Z * gmap nat FlowScheduler.SchedulingDelta * QuincyScheduler.t :=
  default (0, ∅, small_scheduler)
    (QuincyScheduler.ApplySchedulingDeltas Spec.resource_id_of_string
       Spec.resource_id_of_string bind [0; 1; 2; 3]%nat Spec.four_deltas
       small_scheduler).

End QuincyProps.

(** ** Inputs for the simulated Quincy cost model *)

Module CostProps.

(** A file system that samples no file, and the cost model of the
    scenario on it after [AddTask] for task 42. *)
Definition no_file_dfs_SampleFiles (dfs : unit) (num_blocks tolerance : Z)
  : gset Z := ∅.

Definition one_rack_with_idle_task_42 : SimulatedQuincyCostModel.t unit :=
  SimulatedQuincyCostModel.AddTask Spec.one_file_dfs_GetNumBlocks
    Spec.one_file_dfs_GetMachines no_file_dfs_SampleFiles 32 32 10 42
    Spec.one_rack_cost_model.

(** The cost model of the scenario after [AddTask] for the tasks 42 and
    43, and the one that the constructor makes for the file system of
    the scenario, after [AddTask] for task 42. *)
Definition one_rack_with_tasks_42_43 : SimulatedQuincyCostModel.t unit :=
  SimulatedQuincyCostModel.AddTask Spec.one_file_dfs_GetNumBlocks
    Spec.one_file_dfs_GetMachines Spec.one_file_dfs_SampleFiles 32 32 10 43
    Spec.one_rack_with_task_42.

Definition new_cost_model : SimulatedQuincyCostModel.t unit :=
  SimulatedQuincyCostModel.SimulatedQuincyCostModel ()
    Spec.double_half Spec.double_half 2 1 10 4.

Definition new_with_task_42 : SimulatedQuincyCostModel.t unit :=
  SimulatedQuincyCostModel.AddTask Spec.one_file_dfs_GetNumBlocks
    Spec.one_file_dfs_GetMachines Spec.one_file_dfs_SampleFiles 32 32 10 42
    new_cost_model.

End CostProps.

(** * Properties *)

(** ** Machine integers *)

Lemma wrap_range bits x : 0 <= bits -> 0 <= wrap bits x < 2 ^ bits.
Proof. intros Hb. unfold wrap. apply Z.mod_pos_bound. by apply Z.pow_pos_nonneg. Qed.

Lemma wrap_small bits x : 0 <= x < 2 ^ bits -> wrap bits x = x.
Proof. intros Hx. unfold wrap. by apply Z.mod_small. Qed.

Lemma uint64_small x : 0 <= x < 2 ^ 64 -> uint64 x = x.
Proof. apply wrap_small. Qed.

Lemma uint64_range x : 0 <= uint64 x < 2 ^ 64.
Proof. by apply wrap_range. Qed.

Lemma int64_small x : - 2 ^ 63 <= x < 2 ^ 63 -> int64 x = x.
Proof.
  intros Hx. unfold int64, wrap_signed.
  change (2 ^ (64 - 1)) with (2 ^ 63). change (2 ^ 64) with (2 * 2 ^ 63).
  rewrite Z.mod_small; lia.
Qed.

(** ** Containers *)

Section Containers.

Context `{Countable K} {V : Type}.

Lemma index_or_insert_fst (d : V) (k : K) (m : gmap K V) :
  (index_or_insert d k m).1 = FindWithDefault m k d.
Proof. unfold index_or_insert, FindWithDefault. by destruct (m !! k). Qed.

(** Reading a map with [operator[]] does not change what a later read
    with a default of [d] finds. *)
Lemma index_or_insert_snd (d : V) (k k' : K) (m : gmap K V) :
  FindWithDefault (index_or_insert d k m).2 k' d = FindWithDefault m k' d.
Proof.
  unfold index_or_insert, FindWithDefault.
  destruct (m !! k) eqn:Hk; [done|]. simpl.
  destruct (decide (k = k')) as [<-|Hne].
  - by rewrite lookup_insert_eq, Hk.
  - by rewrite lookup_insert_ne.
Qed.

Lemma index_or_insert_present (d v : V) (k : K) (m : gmap K V) :
  m !! k = Some v -> index_or_insert d k m = (v, m).
Proof. unfold index_or_insert. by intros ->. Qed.

(** The keys of a map, in the order of its iteration. *)
Lemma elem_of_keys (m : gmap K V) (k : K) :
  k ∈ (map_to_list m).*1 ↔ is_Some (m !! k).
Proof.
  rewrite list_elem_of_fmap. split.
  - intros ([k' v] & -> & Hin). apply elem_of_map_to_list in Hin. eauto.
  - intros [v Hv]. exists (k, v). split; [done|]. by apply elem_of_map_to_list.
Qed.

(** A loop over distinct keys that assigns to the entry of each key a
    function of what the entry was. *)
Lemma foldl_update_lookup (g : option V -> V) (step : gmap K V -> K -> gmap K V) :
  (∀ m k, step m k = <[k := g (m !! k)]> m) ->
  ∀ keys, NoDup keys -> ∀ m k',
    foldl step m keys !! k'
    = if decide (k' ∈ keys) then Some (g (m !! k')) else m !! k'.
Proof.
  intros Hstep keys. induction keys as [|k keys IH]; intros Hnd m k'.
  { cbn [foldl]. by rewrite decide_False by apply not_elem_of_nil. }
  apply NoDup_cons in Hnd as [Hk Hnd]. cbn [foldl]. rewrite IH, Hstep by done.
  destruct (decide (k' = k)) as [->|Hne].
  - rewrite decide_False by done. rewrite lookup_insert_eq.
    by rewrite decide_True by apply list_elem_of_here.
  - rewrite lookup_insert_ne by done.
    destruct (decide (k' ∈ keys)) as [Hin|Hnin].
    + by rewrite decide_True by by apply list_elem_of_further.
    + rewrite decide_False; [done|]. by intros [?|?]%elem_of_cons.
Qed.

(** A loop over the entries of a map that inserts, for some of them, a
    value at their key. *)
Lemma foldl_select_lookup {W : Type} (f : K -> V -> option W)
    (step : gmap K W -> K * V -> gmap K W) :
  (∀ acc kv, step acc kv
             = match f kv.1 kv.2 with Some w => <[kv.1 := w]> acc | None => acc end) ->
  ∀ (m : gmap K V) (k : K),
    foldl step ∅ (map_to_list m) !! k = m !! k ≫= f k.
Proof.
  intros Hstep m k.
  assert (Hgen : ∀ (l : list (K * V)) (acc : gmap K W), NoDup l.*1 ->
            foldl step acc l !! k
            = match (list_to_map l : gmap K V) !! k with
              | Some v => match f k v with Some w => Some w | None => acc !! k end
              | None => acc !! k
              end).
  { induction l as [|[k0 v0] l IH]; intros acc Hnd; [done|].
    simpl in Hnd. apply NoDup_cons in Hnd as [Hk0 Hnd]. simpl.
    rewrite IH, Hstep by done. simpl.
    destruct (decide (k0 = k)) as [->|Hne].
    - rewrite lookup_insert_eq.
      rewrite (not_elem_of_list_to_map_1 l k) by done.
      destruct (f k v0); [by rewrite lookup_insert_eq|done].
    - rewrite lookup_insert_ne by done.
      destruct (list_to_map l !! k) as [v|]; [destruct (f k v); [done|]|];
        destruct (f k0 v0); by rewrite ?lookup_insert_ne. }
  rewrite Hgen by apply NoDup_fst_map_to_list.
  rewrite list_to_map_to_list, lookup_empty.
  destruct (m !! k) as [v|]; simpl; [by destruct (f k v)|done].
Qed.

End Containers.

Lemma is_Some_if {A : Type} (b : bool) (a : A) :
  is_Some (if b then Some a else None) ↔ b = true.
Proof. destruct b; [by split; eauto|]. split; [by intros ?%is_Some_None|done]. Qed.

Lemma singleton_of_NoDup {A : Type} (l : list A) (a : A) :
  NoDup l -> (∀ x, x ∈ l ↔ x = a) -> l = [a].
Proof.
  intros Hnd Hl. destruct l as [|x l].
  { exfalso. eapply not_elem_of_nil. by apply Hl. }
  assert (x = a) as -> by (apply Hl; left).
  apply NoDup_cons in Hnd as [Hx Hnd]. destruct l as [|y l]; [done|].
  assert (y = a) as -> by (apply Hl; right; left).
  exfalso. apply Hx. left.
Qed.

(** ** The trace generator *)

Module GenerateTraceFacts.
Import GenerateTrace Spec.

Section Facts.

Variable hash_combine_string : Z -> string -> Z.
Variable hash_combine_uint64 : Z -> Z -> Z.
Variable lexical_cast_uint64 : string -> option Z.

(** The events on a task that the generator knows. *)
Lemma TaskScheduled_known (g : t) timestamp task_id res_id job_id tr :
  task_to_job_ g !! task_id = Some job_id ->
  task_to_runtime_ g !! task_id = Some tr ->
  ∃ g' tr',
    TaskScheduled true timestamp task_id res_id g = Some g'
    ∧ runtime_of task_id g' = Some tr'
    ∧ scheduled_at timestamp tr tr'
    ∧ task_to_job_ g' = task_to_job_ g
    ∧ task_events_ g' = task_events_ g ++ [(timestamp, job_id, tr_task_id tr, 1)].
Proof.
  intros Hjob Htr. unfold TaskScheduled. rewrite Hjob, Htr. simpl.
  eexists _, _. split; [reflexivity|]. unfold runtime_of. simpl.
  rewrite lookup_insert_eq. repeat split.
Qed.

Lemma terminal_event_known (g : t) task_event timestamp task_id job_id tr :
  task_to_job_ g !! task_id = Some job_id ->
  task_to_runtime_ g !! task_id = Some tr ->
  ∃ g' tr',
    terminal_event true task_event timestamp task_id g = Some g'
    ∧ runtime_of task_id g' = Some tr'
    ∧ run_ended_at timestamp tr tr'
    ∧ tr_runtime tr' = tr_runtime tr
    ∧ task_to_job_ g' = task_to_job_ g
    ∧ task_events_ g'
      = task_events_ g ++ [(timestamp, job_id, tr_task_id tr, task_event)].
Proof.
  intros Hjob Htr. unfold terminal_event. rewrite Hjob, Htr. simpl.
  eexists _, _. split; [reflexivity|]. unfold runtime_of. simpl.
  rewrite lookup_insert_eq. repeat split.
Qed.

Lemma TaskCompleted_known (g : t) timestamp task_id job_id tr :
  task_to_job_ g !! task_id = Some job_id ->
  task_to_runtime_ g !! task_id = Some tr ->
  ∃ g' tr',
    TaskCompleted true timestamp task_id g = Some g'
    ∧ runtime_of task_id g' = Some tr'
    ∧ run_ended_at timestamp tr tr'
    ∧ tr_runtime tr' = uint64 (timestamp - tr_last_schedule_time tr)
    ∧ task_to_job_ g' = task_to_job_ g
    ∧ task_events_ g' = task_events_ g ++ [(timestamp, job_id, tr_task_id tr, 4)].
Proof.
  intros Hjob Htr. unfold TaskCompleted. rewrite Hjob, Htr. simpl.
  eexists _, _. split; [reflexivity|]. unfold runtime_of. simpl.
  rewrite lookup_insert_eq. repeat split.
Qed.

(** A first submission to a new generator records the job of the task and
    a runtime record whose two counters of runtime are the ones of the
    uninitialised local. *)
Lemma TaskSubmitted_first timestamp job_id_stack task_runtime_stack jd td g1 :
  TaskSubmitted true hash_combine_uint64 lexical_cast_uint64 timestamp
    job_id_stack task_runtime_stack jd td GenerateTrace = Some g1 ->
  ∃ job_id trace_task_id,
    task_to_job_ g1 = {[ td_uid td := job_id ]}
    ∧ job_num_tasks_ g1 = {[ job_id := 1 ]}
    ∧ task_runtime_events_ g1 = []
    ∧ task_events_ g1 = [(timestamp, job_id, trace_task_id, 0)]
    ∧ task_to_runtime_ g1
      = {[ td_uid td :=
             {| tr_task_id := trace_task_id;
                tr_start_time := timestamp;
                tr_num_runs := 0;
                tr_last_schedule_time := 0;
                tr_total_runtime := tr_total_runtime task_runtime_stack;
                tr_runtime := tr_runtime task_runtime_stack |} ]}.
Proof.
  unfold TaskSubmitted. intros H.
  destruct (match jd_name jd with Some _ => _ | None => _ end)
    as [[job_id trace_task_id]|] eqn:Hids; [|discriminate].
  simpl in H. unfold InsertIfNotPresent in H. simpl in H.
  rewrite !lookup_empty in H. simpl in H. injection H as <-.
  exists job_id, trace_task_id. simpl. repeat split.
Qed.

(** A job that is not a simulated one gets the hash of the uninitialised
    local [job_id]; the name of the job is not read. *)
Lemma TaskSubmitted_not_simulated timestamp job_id_stack task_runtime_stack jd td :
  is_simulated_job jd = false ->
  ∃ g1,
    TaskSubmitted true hash_combine_uint64 lexical_cast_uint64 timestamp
      job_id_stack task_runtime_stack jd td GenerateTrace = Some g1
    ∧ task_to_job_ g1 !! td_uid td
      = Some (uint64 (hash_combine_uint64 42 job_id_stack)).
Proof.
  unfold is_simulated_job, TaskSubmitted. intros Hsim.
  destruct (jd_name jd) as [name|]; [rewrite Hsim|]; simpl;
    unfold InsertIfNotPresent; rewrite !lookup_empty; simpl;
    (eexists; split; [reflexivity|]); simpl; by rewrite lookup_insert_eq.
Qed.

(** The rows that the destructor writes for a single task. *)
Lemma destructor_single (g : t) task_id job_id tr :
  task_to_job_ g !! task_id = Some job_id ->
  task_to_runtime_ g = {[ task_id := tr ]} ->
  ∃ g',
    destructor true g = Some g'
    ∧ task_runtime_events_ g'
      = task_runtime_events_ g
        ++ [(job_id, task_id, job_id, tr_start_time tr, tr_total_runtime tr,
             tr_runtime tr, tr_num_runs tr)].
Proof.
  intros Hjob Htr. unfold destructor, task_runtime_rows.
  rewrite Htr, map_to_list_singleton. simpl. rewrite Hjob. simpl.
  eexists. split; reflexivity.
Qed.

(** C3.  With the trace enabled and for a task that the generator knows:
    [TaskScheduled] adds 1 to [num_runs] and sets [last_schedule_time] to
    the timestamp of the event; [TaskCompleted], [TaskEvicted],
    [TaskFailed] and [TaskKilled] add [timestamp - last_schedule_time] to
    [total_runtime] (all in [uint64_t] arithmetic); [TaskCompleted] also
    sets [runtime] to [timestamp - last_schedule_time], and the other
    three leave [runtime] as it is.  But [TaskSubmitted] assigns four of
    the six fields of the record that it inserts and leaves
    [total_runtime] and [runtime] as the memory of its local holds them:
    for a task submitted to a new generator at 1000, scheduled at 1500
    and completed at 3500, the destructor writes the row (job, task,
    job, 1000, [stale + 2000], 2000, 1), where [stale] is what the
    uninitialised [total_runtime] held.  The row is the expected one,
    with a total of 2000, only when [stale + 2000] is 2000 in
    [uint64_t]. *)
Theorem C3_task_runtime_accounting
    (g : t) (timestamp task_id res_id job_id : Z) (tr : TaskRuntime)
    (job_id_stack : Z) (task_runtime_stack : TaskRuntime)
    (jd : JobDescriptor) (td : TaskDescriptor) (g1 : t) :
  task_to_job_ g !! task_id = Some job_id ->
  task_to_runtime_ g !! task_id = Some tr ->
  TaskSubmitted true hash_combine_uint64 lexical_cast_uint64 1000
    job_id_stack task_runtime_stack jd td GenerateTrace = Some g1 ->
  (∃ g' tr', TaskScheduled true timestamp task_id res_id g = Some g'
             ∧ runtime_of task_id g' = Some tr'
             ∧ scheduled_at timestamp tr tr')
  ∧ (∃ g' tr', TaskCompleted true timestamp task_id g = Some g'
               ∧ runtime_of task_id g' = Some tr'
               ∧ run_ended_at timestamp tr tr'
               ∧ tr_runtime tr' = uint64 (timestamp - tr_last_schedule_time tr))
  ∧ (∃ g' tr', TaskEvicted true timestamp task_id g = Some g'
               ∧ runtime_of task_id g' = Some tr'
               ∧ run_ended_at timestamp tr tr'
               ∧ tr_runtime tr' = tr_runtime tr)
  ∧ (∃ g' tr', TaskFailed true timestamp task_id g = Some g'
               ∧ runtime_of task_id g' = Some tr'
               ∧ run_ended_at timestamp tr tr'
               ∧ tr_runtime tr' = tr_runtime tr)
  ∧ (∃ g' tr', TaskKilled true timestamp task_id g = Some g'
               ∧ runtime_of task_id g' = Some tr'
               ∧ run_ended_at timestamp tr tr'
               ∧ tr_runtime tr' = tr_runtime tr)
  ∧ (∃ job g2 g3 g4,
       task_to_job_ g1 !! td_uid td = Some job
       ∧ TaskScheduled true 1500 (td_uid td) res_id g1 = Some g2
       ∧ TaskCompleted true 3500 (td_uid td) g2 = Some g3
       ∧ destructor true g3 = Some g4
       ∧ task_runtime_events_ g4
         = [(job, td_uid td, job, 1000,
             uint64 (tr_total_runtime task_runtime_stack + 2000), 2000, 1)]
       ∧ (task_runtime_events_ g4
          = [(job, td_uid td, job, 1000, 2000, 2000, 1)]
          ↔ uint64 (tr_total_runtime task_runtime_stack + 2000) = 2000)).
Proof.
  intros Hjob Htr Hsub.
  split.
  { destruct (TaskScheduled_known g timestamp task_id res_id _ _ Hjob Htr)
      as (g' & tr' & ? & ? & ? & _). eauto. }
  split.
  { destruct (TaskCompleted_known g timestamp task_id _ _ Hjob Htr)
      as (g' & tr' & ? & ? & ? & ? & _). eauto 6. }
  split; [|split; [|split]].
  1-3: edestruct (terminal_event_known g) as (g' & tr' & ? & ? & ? & ? & _);
       [exact Hjob|exact Htr|]; eauto 6.
  destruct (TaskSubmitted_first _ _ _ _ _ _ Hsub)
    as (job & idx & Hj1 & _ & Hrows1 & _ & Hr1).
  assert (Hjob1 : task_to_job_ g1 !! td_uid td = Some job)
    by (rewrite Hj1; apply lookup_singleton_eq).
  assert (Htr1 : task_to_runtime_ g1 !! td_uid td = Some
            {| tr_task_id := idx; tr_start_time := 1000; tr_num_runs := 0;
               tr_last_schedule_time := 0;
               tr_total_runtime := tr_total_runtime task_runtime_stack;
               tr_runtime := tr_runtime task_runtime_stack |})
    by (rewrite Hr1; apply lookup_singleton_eq).
  exists job.
  unfold TaskScheduled. rewrite Hjob1, Htr1. simpl.
  eexists. eexists. eexists. split; [reflexivity|]. split; [reflexivity|].
  unfold TaskCompleted. simpl. rewrite Hjob1, lookup_insert_eq. simpl.
  split; [reflexivity|].
  unfold destructor, task_runtime_rows. simpl.
  rewrite Hr1, !insert_singleton_eq, map_to_list_singleton. simpl.
  rewrite Hjob1. simpl. split; [reflexivity|].
  rewrite Hrows1. simpl.
  change (uint64 (3500 - 1500)) with 2000. change (uint64 (0 + 1)) with 1.
  split; [reflexivity|]. split; [by intros [= ->]|by intros ->].
Qed.

(** C9.  A machine that is not a simulated one gets the hash of its UUID
    combined with the seed 42, a function of the UUID alone.  A job that
    is not a simulated one does not: [TaskSubmitted] combines the seed
    with its local [job_id], which it has not initialised, and never
    reads the name of the job.  Two submissions of the same job and task
    to a new generator therefore record different job ids as soon as the
    two values that the local holds hash to different ids. *)
Theorem C9_job_id_hashes_uninitialised_local
    (rd : ResourceDescriptor) (jd : JobDescriptor) (td : TaskDescriptor)
    (timestamp job_id_stack1 job_id_stack2 : Z) (task_runtime_stack : TaskRuntime) :
  is_simulated_machine rd = false ->
  is_simulated_job jd = false ->
  uint64 (hash_combine_uint64 42 job_id_stack1)
  ≠ uint64 (hash_combine_uint64 42 job_id_stack2) ->
  GetMachineId hash_combine_string lexical_cast_uint64 rd
  = Some (uint64 (hash_combine_string 42 (rd_uuid rd)))
  ∧ ∃ g1 g2,
      TaskSubmitted true hash_combine_uint64 lexical_cast_uint64 timestamp
        job_id_stack1 task_runtime_stack jd td GenerateTrace = Some g1
      ∧ TaskSubmitted true hash_combine_uint64 lexical_cast_uint64 timestamp
          job_id_stack2 task_runtime_stack jd td GenerateTrace = Some g2
      ∧ task_to_job_ g1 !! td_uid td
        = Some (uint64 (hash_combine_uint64 42 job_id_stack1))
      ∧ task_to_job_ g2 !! td_uid td
        = Some (uint64 (hash_combine_uint64 42 job_id_stack2))
      ∧ task_to_job_ g1 !! td_uid td ≠ task_to_job_ g2 !! td_uid td.
Proof.
  intros Hmachine Hjob Hdiff. split.
  - unfold is_simulated_machine in Hmachine. unfold GetMachineId.
    destruct (rd_friendly_name rd); [rewrite Hmachine|]; reflexivity.
  - destruct (TaskSubmitted_not_simulated timestamp job_id_stack1
                task_runtime_stack jd td Hjob) as (g1 & Hg1 & Hid1).
    destruct (TaskSubmitted_not_simulated timestamp job_id_stack2
                task_runtime_stack jd td Hjob) as (g2 & Hg2 & Hid2).
    exists g1, g2. repeat split; try assumption.
    rewrite Hid1, Hid2. congruence.
Qed.

(** C10.  With [FLAGS_generate_trace] false, each of the nine operations
    returns the generator that it was given: the three maps and the
    output streams are the ones before the call. *)
Theorem C10_disabled_trace_is_inert
    (g : t) (timestamp : Z) (rd : ResourceDescriptor)
    (scheduler_stats : SchedulerStats) (stats_string : string)
    (job_id_stack : Z) (task_runtime_stack : TaskRuntime)
    (jd : JobDescriptor) (td : TaskDescriptor) (task_id res_id : Z) :
  AddMachine false hash_combine_string lexical_cast_uint64 timestamp rd g = Some g
  ∧ RemoveMachine false hash_combine_string lexical_cast_uint64 timestamp rd g
    = Some g
  ∧ SchedulerRun false timestamp scheduler_stats stats_string g = Some g
  ∧ TaskSubmitted false hash_combine_uint64 lexical_cast_uint64 timestamp
      job_id_stack task_runtime_stack jd td g = Some g
  ∧ TaskScheduled false timestamp task_id res_id g = Some g
  ∧ TaskCompleted false timestamp task_id g = Some g
  ∧ TaskEvicted false timestamp task_id g = Some g
  ∧ TaskFailed false timestamp task_id g = Some g
  ∧ TaskKilled false timestamp task_id g = Some g.
Proof. repeat split. Qed.

End Facts.

Lemma C3_task_runtime_accounting_witness :
  (∃ g' tr', TaskScheduled true 1500 42 5 trace_with_task_42 = Some g'
             ∧ runtime_of 42 g' = Some tr'
             ∧ tr_num_runs tr' = 1 ∧ tr_last_schedule_time tr' = 1500)
  ∧ (∃ job g1 g2 g3 g4,
       TaskSubmitted true boost_hash_combine_uint64 (λ _, None) 1000
         0 stale_task_runtime (job_named "wordcount") task_42 GenerateTrace
       = Some g1
       ∧ TaskScheduled true 1500 42 5 g1 = Some g2
       ∧ TaskCompleted true 3500 42 g2 = Some g3
       ∧ destructor true g3 = Some g4
       ∧ task_runtime_events_ g4 = [(job, 42, job, 1000, 2007, 2000, 1)]
       ∧ task_runtime_events_ g4 ≠ [(job, 42, job, 1000, 2000, 2000, 1)]).
Proof.
  destruct (TaskSubmitted true boost_hash_combine_uint64 (λ _, None) 1000
              0 stale_task_runtime (job_named "wordcount") task_42 GenerateTrace)
    as [g1|] eqn:Hsub; [|vm_compute in Hsub; discriminate].
  destruct (C3_task_runtime_accounting boost_hash_combine_uint64 (λ _, None)
              trace_with_task_42 1500 42 5 job_of_task_42
              {| tr_task_id := 42; tr_start_time := 1000; tr_num_runs := 0;
                 tr_last_schedule_time := 0; tr_total_runtime := 0;
                 tr_runtime := 0 |}
              0 stale_task_runtime (job_named "wordcount") task_42 g1)
    as (Hs & _ & _ & _ & _ & Hrow).
  - vm_compute. reflexivity.
  - vm_compute. reflexivity.
  - exact Hsub.
  - split.
    + destruct Hs as (g' & tr' & Hg & Hr & Hn & Hl & _).
      exists g', tr'. repeat split; assumption.
    + destruct Hrow as (job & g2 & g3 & g4 & _ & H2 & H3 & H4 & H5 & H6).
      exists job, g1, g2, g3, g4. repeat split; try assumption.
      intros Hexpected. apply H6 in Hexpected. vm_compute in Hexpected.
      discriminate.
Defined.

Lemma C9_job_id_hashes_uninitialised_local_witness :
  ∃ g1 g2,
    TaskSubmitted true boost_hash_combine_uint64 (λ _, None) 1000
      0 zeroed_task_runtime (job_named "wordcount") task_42 GenerateTrace
    = Some g1
    ∧ TaskSubmitted true boost_hash_combine_uint64 (λ _, None) 1000
        1 zeroed_task_runtime (job_named "wordcount") task_42 GenerateTrace
      = Some g2
    ∧ task_to_job_ g1 !! 42 ≠ task_to_job_ g2 !! 42.
Proof.
  destruct (C9_job_id_hashes_uninitialised_local
              (λ seed s, seed + Z.of_nat (String.length s))
              boost_hash_combine_uint64 (λ _, None)
              {| rd_uuid := "6ba7b810-9dad-11d1-80b4-00c04fd430c8";
                 rd_friendly_name := Some "machine_a" |}
              (job_named "wordcount") task_42 1000 0 1 zeroed_task_runtime)
    as (_ & g1 & g2 & H1 & H2 & _ & _ & Hne).
  - reflexivity.
  - reflexivity.
  - vm_compute. discriminate.
  - exists g1, g2. repeat split; assumption.
Defined.

End GenerateTraceFacts.

(** ** The trace generator over sequences of calls *)

Module TraceCallsFacts.
Import GenerateTrace TraceCalls.

Section Facts.

Variable hash_combine_string : Z -> string -> Z.
Variable hash_combine_uint64 : Z -> Z -> Z.
Variable lexical_cast_uint64 : string -> option Z.

Local Abbreviation do_call' flag :=
  (do_call flag hash_combine_string hash_combine_uint64 lexical_cast_uint64).
Local Abbreviation do_calls' flag :=
  (do_calls flag hash_combine_string hash_combine_uint64 lexical_cast_uint64).

(** What a call on a machine or of the scheduler does: it appends a row
    and keeps the maps. *)
Lemma AddMachine_inv timestamp rd g g' :
  AddMachine true hash_combine_string lexical_cast_uint64 timestamp rd g = Some g' ->
  ∃ machine_id, g' = fprintf_machine_events g (timestamp, machine_id, 0).
Proof.
  unfold AddMachine. destruct (GetMachineId _ _ rd) as [machine_id|]; [|done].
  simpl. intros [= <-]. by exists machine_id.
Qed.

Lemma RemoveMachine_inv timestamp rd g g' :
  RemoveMachine true hash_combine_string lexical_cast_uint64 timestamp rd g = Some g' ->
  ∃ machine_id, g' = fprintf_machine_events g (timestamp, machine_id, 1).
Proof.
  unfold RemoveMachine. destruct (GetMachineId _ _ rd) as [machine_id|]; [|done].
  simpl. intros [= <-]. by exists machine_id.
Qed.

(** What a submission does to the maps and to the rows. *)
Lemma TaskSubmitted_inv timestamp job_id_stack task_runtime_stack jd td g g' :
  TaskSubmitted true hash_combine_uint64 lexical_cast_uint64 timestamp
    job_id_stack task_runtime_stack jd td g = Some g' ->
  ∃ job_id trace_task_id,
    machine_events_ g' = machine_events_ g
    ∧ scheduler_events_ g' = scheduler_events_ g
    ∧ task_events_ g' = task_events_ g ++ [(timestamp, job_id, trace_task_id, 0)]
    ∧ task_runtime_events_ g' = task_runtime_events_ g
    ∧ jobs_num_tasks_ g' = jobs_num_tasks_ g
    ∧ task_to_job_ g'
      = match task_to_job_ g !! td_uid td with
        | Some _ => task_to_job_ g
        | None => <[td_uid td := job_id]> (task_to_job_ g)
        end
    ∧ job_num_tasks_ g'
      = match task_to_job_ g !! td_uid td with
        | Some _ => job_num_tasks_ g
        | None =>
            <[job_id := match job_num_tasks_ g !! job_id with
                        | Some num_tasks => uint64 (num_tasks + 1)
                        | None => 1
                        end]> (job_num_tasks_ g)
        end
    ∧ task_to_runtime_ g'
      = match task_to_runtime_ g !! td_uid td with
        | Some _ => task_to_runtime_ g
        | None =>
            <[td_uid td := {| tr_task_id := trace_task_id;
                              tr_start_time := timestamp;
                              tr_num_runs := 0;
                              tr_last_schedule_time := 0;
                              tr_total_runtime := tr_total_runtime task_runtime_stack;
                              tr_runtime := tr_runtime task_runtime_stack |}]>
              (task_to_runtime_ g)
        end.
Proof.
  unfold TaskSubmitted. intros H.
  destruct (match jd_name jd with Some _ => _ | None => _ end)
    as [[job_id trace_task_id]|] eqn:Hids; [|discriminate].
  simpl in H. unfold InsertIfNotPresent in H.
  exists job_id, trace_task_id.
  destruct (task_to_job_ g !! td_uid td) eqn:Hjob;
    destruct (task_to_runtime_ g !! td_uid td) eqn:Hrt;
    destruct (job_num_tasks_ g !! job_id) eqn:Hnum;
    simpl in H; injection H as <-; simpl; rewrite ?Hnum; done.
Qed.

(** What a call that looks its task up does. *)
Lemma looked_up_inv c task_id g g' :
  looked_up_task c = Some task_id ->
  do_call' true c g = Some g' ->
  ∃ job_id tr tr' timestamp task_event,
    task_to_job_ g !! task_id = Some job_id
    ∧ task_to_runtime_ g !! task_id = Some tr
    ∧ task_event_of c = Some (timestamp, task_event)
    ∧ g' = set_task_to_runtime
             (fprintf_task_events g (timestamp, job_id, tr_task_id tr, task_event))
             (<[task_id := tr']> (task_to_runtime_ g))
    ∧ tr_task_id tr' = tr_task_id tr
    ∧ tr_start_time tr' = tr_start_time tr.
Proof.
  destruct c; try discriminate; intros [= ->]; simpl;
    unfold TaskScheduled, TaskCompleted, TaskEvicted, TaskFailed, TaskKilled,
      terminal_event;
    destruct (task_to_job_ g !! task_id) as [job_id|]; try discriminate;
    destruct (task_to_runtime_ g !! task_id) as [tr|]; try discriminate;
    simpl; intros [= <-]; exists job_id, tr; eexists; do 2 eexists;
    repeat split; reflexivity.
Qed.

(** The cases of a successful call. *)
Ltac call_cases c H :=
  destruct c as [timestamp rd|timestamp rd|timestamp stats stats_string
                |timestamp job_id_stack task_runtime_stack jd td
                |timestamp task_id res_id|timestamp task_id|timestamp task_id
                |timestamp task_id|timestamp task_id];
  [ apply AddMachine_inv in H as [machine_id ->]
  | apply RemoveMachine_inv in H as [machine_id ->]
  | injection H as <-
  | apply TaskSubmitted_inv in H
      as (job_id & trace_task_id & Hme & Hse & Hte & Htre & Hjnt & Htj & Hnum & Hrt)
  | apply (looked_up_inv _ task_id) in H
      as (job_id & tr & tr' & ts & ev & Hjob & Htr & Hev & -> & Hid & Hstart);
    [|reflexivity] ..].

Lemma same_tasks_step c g g' :
  do_call' true c g = Some g' -> same_tasks g -> same_tasks g'.
Proof.
  intros H Hinv k. specialize (Hinv k) as Hk. call_cases c H; simpl; try done.
  2-6: destruct (decide (k = task_id)) as [->|Hne];
    [rewrite lookup_insert_eq, Hjob; split; eauto
    |by rewrite lookup_insert_ne].
  rewrite Htj, Hrt.
  destruct (task_to_job_ g !! td_uid td) eqn:Hjob;
    destruct (task_to_runtime_ g !! td_uid td) eqn:Hrun; try done.
  - destruct (proj1 (Hinv (td_uid td))); [by rewrite Hjob|congruence].
  - destruct (proj2 (Hinv (td_uid td))); [by rewrite Hrun|congruence].
  - destruct (decide (k = td_uid td)) as [->|Hne].
    + by rewrite !lookup_insert_eq.
    + by rewrite !lookup_insert_ne.
Qed.

Lemma tasks_of_job_insert job_id task_id j (m : gmap Z Z) :
  m !! task_id = None ->
  tasks_of_job job_id (<[task_id := j]> m)
  = tasks_of_job job_id m + (if decide (j = job_id) then 1 else 0).
Proof.
  intros Hnone. unfold tasks_of_job. destruct (decide (j = job_id)) as [->|Hne].
  - rewrite map_filter_insert_True by done.
    rewrite map_size_insert_None; [lia|].
    by apply map_lookup_filter_None_2; left.
  - rewrite map_filter_insert_False by done.
    rewrite delete_id by done. lia.
Qed.

Lemma tasks_of_job_nonneg job_id m : 0 <= tasks_of_job job_id m.
Proof. unfold tasks_of_job. lia. Qed.

Lemma uint64_succ n : uint64 (uint64 n + 1) = uint64 (n + 1).
Proof. unfold uint64, wrap. by rewrite Zplus_mod_idemp_l. Qed.

Lemma counts_tasks_step c g g' :
  do_call' true c g = Some g' -> counts_tasks g -> counts_tasks g'.
Proof.
  intros H Hinv j. specialize (Hinv j) as Hj. call_cases c H; simpl; try done.
  rewrite Htj, Hnum. destruct (task_to_job_ g !! td_uid td) eqn:Hjob; [done|].
  rewrite tasks_of_job_insert by done.
  pose proof (tasks_of_job_nonneg j (task_to_job_ g)) as Hnonneg.
  destruct (decide (job_id = j)) as [->|Hne].
  - rewrite lookup_insert_eq, Hj.
    destruct (decide (tasks_of_job j (task_to_job_ g) = 0)) as [Hz|Hnz].
    + rewrite Hz. by rewrite decide_False by lia.
    + rewrite decide_False by lia. by rewrite uint64_succ.
  - rewrite lookup_insert_ne by done. by rewrite Z.add_0_r.
Qed.

Lemma do_calls_invariant (P : t -> Prop) calls g g' :
  (∀ c g g', do_call' true c g = Some g' -> P g -> P g') ->
  do_calls' true calls g = Some g' -> P g -> P g'.
Proof.
  intros Hstep. revert g. induction calls as [|c calls IH]; simpl; intros g H HP.
  - by injection H as <-.
  - destruct (do_call' true c g) as [g1|] eqn:Hc; [|done]. simpl in H.
    eapply IH; [exact H|]. by eapply Hstep.
Qed.

Lemma do_calls_app calls1 calls2 g :
  do_calls' true (calls1 ++ calls2) g
  = g1 ← do_calls' true calls1 g; do_calls' true calls2 g1.
Proof.
  revert g. induction calls1 as [|c calls1 IH]; simpl; intros g; [done|].
  destruct (do_call' true c g); simpl; [apply IH|done].
Qed.

Lemma destructor_streams_step c g g' :
  do_call' true c g = Some g' ->
  task_runtime_events_ g' = task_runtime_events_ g
  ∧ jobs_num_tasks_ g' = jobs_num_tasks_ g.
Proof. intros H. call_cases c H; simpl; done. Qed.

Lemma same_tasks_reachable calls g :
  do_calls' true calls GenerateTrace = Some g -> same_tasks g.
Proof.
  intros H. eapply (do_calls_invariant same_tasks); [|exact H|].
  - apply same_tasks_step.
  - intros k. simpl. by rewrite !lookup_empty.
Qed.

Lemma task_runtime_rows_spec g :
  same_tasks g ->
  ∃ rows,
    task_runtime_rows g = Some rows
    ∧ length rows = size (task_to_job_ g)
    ∧ ∀ task_id job_id,
        task_to_job_ g !! task_id = Some job_id ->
        ∃ tr, task_to_runtime_ g !! task_id = Some tr
              ∧ task_runtime_row_of job_id task_id tr ∈ rows.
Proof.
  intros Hsame. unfold task_runtime_rows.
  set (f := λ '(task_id, task_runtime),
              job_id ← task_to_job_ g !! task_id;
              Some (job_id, task_id, job_id,
                    tr_start_time task_runtime, tr_total_runtime task_runtime,
                    tr_runtime task_runtime, tr_num_runs task_runtime)).
  assert (Hall : Forall (λ x, is_Some (f x)) (map_to_list (task_to_runtime_ g))).
  { apply Forall_forall. intros [task_id tr] Hin.
    apply elem_of_map_to_list in Hin.
    destruct (proj2 (Hsame task_id)) as [job_id Hjob]; [by eexists|].
    unfold f. rewrite Hjob. by eexists. }
  apply mapM_is_Some in Hall as [rows Hrows]. exists rows.
  split; [exact Hrows|]. split.
  - apply length_mapM in Hrows.
    transitivity (length (map_to_list (task_to_runtime_ g)));
      [symmetry; exact Hrows|].
    rewrite length_map_to_list.
    rewrite <- !(size_dom (D := gset Z)). f_equal. apply set_eq. intros k.
    rewrite !elem_of_dom. symmetry. apply Hsame.
  - intros task_id job_id Hjob.
    destruct (proj1 (Hsame task_id)) as [tr Htr]; [by eexists|].
    exists tr. split; [exact Htr|].
    apply mapM_Some in Hrows.
    apply elem_of_map_to_list, list_elem_of_lookup_1 in Htr as [i Hi].
    destruct (Forall2_lookup_l _ _ _ _ _ Hrows Hi) as (row & Hrow & Hf).
    unfold f in Hf. rewrite Hjob in Hf. injection Hf as <-.
    by eapply list_elem_of_lookup_2.
Qed.

(** X1.  After any calls on a new generator that did not end the
    process, the destructor does not dereference a null pointer: every
    task with a runtime record has a job.  It writes one row of
    [task_runtime_events_] for each submitted task, the row (job, task,
    job, start time, total runtime, runtime, number of runs) of its
    record, and the rows of [job_num_tasks_]; no call had written to
    these two streams before. *)
Theorem X1_destructor_writes_every_task (calls : list call) (g : t) :
  do_calls' true calls GenerateTrace = Some g ->
  ∃ g',
    destructor true g = Some g'
    ∧ length (task_runtime_events_ g') = size (task_to_job_ g)
    ∧ (∀ task_id job_id,
         task_to_job_ g !! task_id = Some job_id ->
         ∃ tr, task_to_runtime_ g !! task_id = Some tr
               ∧ task_runtime_row_of job_id task_id tr ∈ task_runtime_events_ g')
    ∧ jobs_num_tasks_ g' = map_to_list (job_num_tasks_ g).
Proof.
  intros H.
  destruct (task_runtime_rows_spec g (same_tasks_reachable _ _ H))
    as (rows & Hrows & Hlen & Hall).
  assert (Hempty : destructor_streams_empty g).
  { eapply (do_calls_invariant destructor_streams_empty); [|exact H|done].
    intros c g1 g2 Hc [H1 H2].
    destruct (destructor_streams_step _ _ _ Hc) as [E1 E2].
    split; congruence. }
  destruct Hempty as [Hruntime Hjobs].
  unfold destructor. rewrite Hrows. simpl. eexists. split; [reflexivity|].
  simpl. rewrite Hruntime, Hjobs. done.
Qed.

(** X2.  After any calls on a new generator, the count that
    [job_num_tasks_] holds for a job is the number of tasks that
    [task_to_job_] maps to the job, as a [uint64_t]; a job without tasks
    has no count.  A task that is submitted again is not counted again. *)
Theorem X2_job_num_tasks_counts_tasks (calls : list call) (g : t) (job_id : Z) :
  do_calls' true calls GenerateTrace = Some g ->
  job_num_tasks_ g !! job_id
  = if decide (tasks_of_job job_id (task_to_job_ g) = 0) then None
    else Some (uint64 (tasks_of_job job_id (task_to_job_ g))).
Proof.
  intros H. revert job_id.
  eapply (do_calls_invariant counts_tasks); [|exact H|].
  - apply counts_tasks_step.
  - intros j. simpl. unfold tasks_of_job. rewrite map_filter_empty.
    by rewrite lookup_empty.
Qed.

Lemma first_submission_step c g g' task job tr0 :
  do_call' true c g = Some g' ->
  task_to_job_ g !! task = Some job
  ∧ (∃ tr0', task_to_runtime_ g !! task = Some tr0'
            ∧ tr_task_id tr0' = tr_task_id tr0
            ∧ tr_start_time tr0' = tr_start_time tr0) ->
  task_to_job_ g' !! task = Some job
  ∧ (∃ tr0', task_to_runtime_ g' !! task = Some tr0'
            ∧ tr_task_id tr0' = tr_task_id tr0
            ∧ tr_start_time tr0' = tr_start_time tr0).
Proof.
  intros H (Hj & tr1 & Hr & Hid1 & Hstart1).
  call_cases c H; simpl; eauto.
  2-6: split; [done|]; destruct (decide (task = task_id)) as [->|Hne];
    [rewrite lookup_insert_eq; eexists; split; [done|]; split; congruence
    |rewrite lookup_insert_ne by done; eauto].
  rewrite Htj, Hrt.
  destruct (decide (task = td_uid td)) as [->|Hne].
  - rewrite Hj, Hr. eauto.
  - destruct (task_to_job_ g !! td_uid td), (task_to_runtime_ g !! td_uid td);
      rewrite ?lookup_insert_ne by done; eauto.
Qed.

(** X3.  The job that a task is recorded under, the task id of the trace
    and the start time of its record are the ones of the first
    submission: no later call changes them, a submission of the same
    task with another job or at another time included. *)
Theorem X3_first_submission_is_kept
    (calls : list call) (g g' : t) (task_id job_id : Z) (tr : TaskRuntime) :
  do_calls' true calls g = Some g' ->
  task_to_job_ g !! task_id = Some job_id ->
  task_to_runtime_ g !! task_id = Some tr ->
  task_to_job_ g' !! task_id = Some job_id
  ∧ ∃ tr', task_to_runtime_ g' !! task_id = Some tr'
           ∧ tr_task_id tr' = tr_task_id tr
           ∧ tr_start_time tr' = tr_start_time tr.
Proof.
  intros H Hjob0 Htr0.
  eapply (do_calls_invariant
            (λ g, task_to_job_ g !! task_id = Some job_id
                  ∧ ∃ tr', task_to_runtime_ g !! task_id = Some tr'
                           ∧ tr_task_id tr' = tr_task_id tr
                           ∧ tr_start_time tr' = tr_start_time tr));
    [|exact H|by eauto].
  intros c g1 g2. apply first_submission_step.
Qed.

(** The record of a task is changed only by the calls that look the
    task up. *)
Lemma other_task_step c g g' task job tr0 :
  do_call' true c g = Some g' ->
  looked_up_task c ≠ Some task ->
  task_to_job_ g !! task = Some job ∧ task_to_runtime_ g !! task = Some tr0 ->
  task_to_job_ g' !! task = Some job ∧ task_to_runtime_ g' !! task = Some tr0.
Proof.
  intros H Hother [Hj Hr].
  call_cases c H; simpl; eauto.
  2-6: split; [done|]; rewrite lookup_insert_ne; [done|];
    simpl in Hother; congruence.
  rewrite Htj, Hrt.
  destruct (decide (task = td_uid td)) as [->|Hne].
  - by rewrite Hj, Hr.
  - destruct (task_to_job_ g !! td_uid td), (task_to_runtime_ g !! td_uid td);
      rewrite ?lookup_insert_ne by done; eauto.
Qed.

(** X4.  The calls about other tasks, about machines and of the
    scheduler, and every submission, leave the job and the whole runtime
    record of a task that has been submitted as they are: the counters
    of a task move only in the calls that name the task. *)
Theorem X4_other_calls_keep_the_record
    (calls : list call) (g g' : t) (task_id job_id : Z) (tr : TaskRuntime) :
  do_calls' true calls g = Some g' ->
  Forall (λ c, looked_up_task c ≠ Some task_id) calls ->
  task_to_job_ g !! task_id = Some job_id ->
  task_to_runtime_ g !! task_id = Some tr ->
  task_to_job_ g' !! task_id = Some job_id
  ∧ task_to_runtime_ g' !! task_id = Some tr.
Proof.
  intros H Hall Hjob Htr. revert g H Hjob Htr.
  induction Hall as [|c calls Hc Hall IH]; simpl; intros g H Hjob Htr.
  - by injection H as <-.
  - destruct (do_call' true c g) as [g1|] eqn:Hg1; [|done]. simpl in H.
    destruct (other_task_step _ _ _ _ _ _ Hg1 Hc (conj Hjob Htr)) as [Hj1 Hr1].
    by apply (IH g1).
Qed.

(** The rows that a call appends. *)
Lemma do_call_rows c g g' :
  do_call' true c g = Some g' ->
  ∃ task_rows machine_rows,
    task_events_ g' = task_events_ g ++ task_rows
    ∧ task_row_event <$> task_rows = option_list (task_event_of c)
    ∧ machine_events_ g' = machine_events_ g ++ machine_rows
    ∧ machine_row_event <$> machine_rows = option_list (machine_event_of c)
    ∧ scheduler_events_ g'
      = scheduler_events_ g ++ option_list (scheduler_event_of c).
Proof.
  intros H. call_cases c H; simpl.
  1-2: by eexists [], [_]; rewrite !app_nil_r.
  - by eexists [], []; rewrite !app_nil_r.
  - rewrite Hme, Hse, Hte. by eexists [_], []; rewrite !app_nil_r.
  - simpl in Hev; injection Hev as <- <-;
      by eexists [_], []; rewrite !app_nil_r.
  - simpl in Hev; injection Hev as <- <-;
      by eexists [_], []; rewrite !app_nil_r.
  - simpl in Hev; injection Hev as <- <-;
      by eexists [_], []; rewrite !app_nil_r.
  - simpl in Hev; injection Hev as <- <-;
      by eexists [_], []; rewrite !app_nil_r.
  - simpl in Hev; injection Hev as <- <-;
      by eexists [_], []; rewrite !app_nil_r.
Qed.

(** X5.  With the trace enabled, the calls append their rows in the
    order of the calls: each call about a task appends one row to
    [task_events_] with the timestamp of the call and the code of the
    event (0 submit, 1 schedule, 2 evict, 3 fail, 4 finish, 5 kill), each
    call about a machine one row to [machine_events_] (0 add, 1 remove),
    each run of the scheduler its row to [scheduler_events_].  Rows
    that were written are never changed, and no call writes to the two
    streams of the destructor. *)
Theorem X5_rows_follow_the_calls (calls : list call) (g g' : t) :
  do_calls' true calls g = Some g' ->
  ∃ task_rows machine_rows,
    task_events_ g' = task_events_ g ++ task_rows
    ∧ task_row_event <$> task_rows = omap task_event_of calls
    ∧ machine_events_ g' = machine_events_ g ++ machine_rows
    ∧ machine_row_event <$> machine_rows = omap machine_event_of calls
    ∧ scheduler_events_ g' = scheduler_events_ g ++ omap scheduler_event_of calls
    ∧ task_runtime_events_ g' = task_runtime_events_ g
    ∧ jobs_num_tasks_ g' = jobs_num_tasks_ g.
Proof.
  revert g. induction calls as [|c calls IH]; simpl; intros g H.
  - injection H as <-. by exists [], []; rewrite !app_nil_r.
  - destruct (do_call' true c g) as [g1|] eqn:Hg1; [|done]. simpl in H.
    destruct (IH g1 H) as (rows & mrows & Ht & Htc & Hm & Hmc & Hs & Hr & Hj).
    destruct (do_call_rows _ _ _ Hg1) as (rows1 & mrows1 & Ht1 & Htc1 & Hm1 & Hmc1 & Hs1).
    destruct (destructor_streams_step _ _ _ Hg1) as [Hr1 Hj1].
    exists (rows1 ++ rows), (mrows1 ++ mrows).
    rewrite Ht, Ht1, Hm, Hm1, Hs, Hs1, Hr, Hr1, Hj, Hj1, !fmap_app, Htc, Htc1, Hmc, Hmc1.
    rewrite <- !(assoc_L (++)).
    repeat split; try done; simpl;
      first [by destruct (task_event_of c) | by destruct (machine_event_of c)
            | by destruct (scheduler_event_of c)].
Qed.

(** The tasks with a job are the ones that were submitted. *)
Lemma submitted_step c g g' task :
  do_call' true c g = Some g' ->
  is_Some (task_to_job_ g' !! task)
  ↔ is_Some (task_to_job_ g !! task) ∨ submitted_task c = Some task.
Proof.
  intros H. call_cases c H; simpl; try (split; [by left|by intros [?|?]]).
  rewrite Htj. destruct (decide (task = td_uid td)) as [->|Hne].
  - destruct (task_to_job_ g !! td_uid td) eqn:Hjob.
    + rewrite Hjob. split; [by left|by eauto].
    + rewrite lookup_insert_eq. split; [by right|by eauto].
  - assert (task_to_job_ g' !! task = task_to_job_ g !! task) as Heq.
    { rewrite Htj. destruct (task_to_job_ g !! td_uid td); [done|].
      by rewrite lookup_insert_ne. }
    rewrite <- Htj, Heq. split; [by left|intros [?|?]; [done|congruence]].
Qed.

Lemma submitted_calls calls g g' task :
  do_calls' true calls g = Some g' ->
  is_Some (task_to_job_ g' !! task)
  ↔ is_Some (task_to_job_ g !! task) ∨ task ∈ omap submitted_task calls.
Proof.
  revert g. induction calls as [|c calls IH]; simpl; intros g H.
  - injection H as <-. split; [by left|]. intros [?|Hin]; [done|].
    by apply elem_of_nil in Hin.
  - destruct (do_call' true c g) as [g1|] eqn:Hg1; [|done]. simpl in H.
    rewrite (IH g1 H), (submitted_step _ _ _ task Hg1).
    destruct (submitted_task c) as [task'|]; simpl.
    + rewrite elem_of_cons. split.
      * intros [[?|[= ->]]|?]; eauto.
      * intros [?|[->|?]]; eauto.
    + split; [intros [[?|?]|?]; eauto; done|intros [?|?]; eauto].
Qed.

(** X6.  After any calls on a new generator, a call that schedules,
    completes, evicts, fails or kills a task ends the process
    ([CHECK_NOTNULL]) exactly when no earlier call submitted the task;
    on a submitted task it always returns. *)
Theorem X6_event_needs_submission
    (calls : list call) (g : t) (c : call) (task_id : Z) :
  do_calls' true calls GenerateTrace = Some g ->
  looked_up_task c = Some task_id ->
  is_Some (do_call' true c g) ↔ task_id ∈ omap submitted_task calls.
Proof.
  intros H Hc.
  pose proof (same_tasks_reachable _ _ H task_id) as Hsame.
  pose proof (submitted_calls _ _ _ task_id H) as Hsub.
  simpl in Hsub. rewrite lookup_empty in Hsub.
  assert (is_Some (do_call' true c g) ↔ is_Some (task_to_job_ g !! task_id)) as ->.
  { split.
    - intros [g' Hg']. apply (looked_up_inv _ task_id) in Hg'; [|done].
      destruct Hg' as (job_id & _ & _ & _ & _ & -> & _). by eexists.
    - intros Hjob. destruct (proj1 Hsame Hjob) as [tr Htr].
      destruct Hjob as [job_id Hjob].
      destruct c; try discriminate; injection Hc as ->; simpl;
        unfold TaskScheduled, TaskCompleted, TaskEvicted, TaskFailed, TaskKilled,
          terminal_event; rewrite Hjob, Htr; simpl; by eexists. }
  rewrite Hsub. split; [intros [[? [=]]|?]; done|by right].
Qed.

(** Sums of differences in [uint64_t]. *)
Lemma uint64_add_sub total a b :
  uint64 (uint64 (total + uint64 a) + uint64 b) = uint64 (total + a + b).
Proof.
  unfold uint64, wrap.
  rewrite Zplus_mod_idemp_l, Zplus_mod_idemp_r.
  replace (total + a mod 2 ^ 64 + b) with (total + b + a mod 2 ^ 64) by lia.
  rewrite Zplus_mod_idemp_r. f_equal. lia.
Qed.

(** X7.  The events that end a run do not clear [last_schedule_time].
    When a task is scheduled at [t1], evicted, failed or killed at [t2]
    and then completed at [t3] without having been scheduled again,
    the time from [t1] to [t2] is added to [total_runtime] twice:
    [total_runtime] grows by [(t2 - t1) + (t3 - t1)] and [runtime] is
    [t3 - t1], both in [uint64_t] arithmetic; the run is counted once. *)
Theorem X7_second_end_counts_from_the_same_start
    (g : t) (task_id res_id job_id t1 t2 t3 : Z) (tr : TaskRuntime) (c : call) :
  task_to_job_ g !! task_id = Some job_id ->
  task_to_runtime_ g !! task_id = Some tr ->
  c = CallTaskEvicted t2 task_id ∨ c = CallTaskFailed t2 task_id
  ∨ c = CallTaskKilled t2 task_id ->
  ∃ g' tr',
    do_calls' true
      [CallTaskScheduled t1 task_id res_id; c; CallTaskCompleted t3 task_id] g
    = Some g'
    ∧ task_to_runtime_ g' !! task_id = Some tr'
    ∧ tr_total_runtime tr' = uint64 (tr_total_runtime tr + (t2 - t1) + (t3 - t1))
    ∧ tr_runtime tr' = uint64 (t3 - t1)
    ∧ tr_num_runs tr' = uint64 (tr_num_runs tr + 1)
    ∧ tr_last_schedule_time tr' = t1.
Proof.
  intros Hjob Htr Hc. simpl. unfold TaskScheduled. rewrite Hjob, Htr. simpl.
  destruct Hc as [-> | [-> | ->]]; simpl;
    unfold TaskEvicted, TaskFailed, TaskKilled, terminal_event, TaskCompleted;
    simpl; rewrite Hjob, !lookup_insert_eq; simpl;
    rewrite Hjob, !lookup_insert_eq; simpl;
    (eexists _, _; split; [reflexivity|]); simpl;
    rewrite lookup_insert_eq; (split; [reflexivity|]); simpl;
    by rewrite uint64_add_sub.
Qed.

(** The prefix of a name and what follows it. *)
Lemma find_at_0_append (p s : string) : find_at_0 p (String.append p s) = true.
Proof.
  unfold find_at_0. induction p as [|a p IH]; simpl.
  - by destruct s.
  - by destruct (Ascii.ascii_dec a a).
Qed.

Lemma substring_whole (s : string) : String.substring 0 (String.length s) s = s.
Proof. induction s as [|b s IH]; simpl; [done|by rewrite IH]. Qed.

Lemma substr_from_append (p s : string) :
  substr_from (String.length p) (String.append p s) = s.
Proof.
  unfold substr_from. induction p as [|a p IH]; simpl.
  - rewrite Nat.sub_0_r. apply substring_whole.
  - exact IH.
Qed.

(** X8.  The id of a machine whose friendly name is
    [firmament_simulation_machine_] followed by a suffix is the number
    that the suffix converts to: its UUID is not hashed.  [AddMachine]
    and [RemoveMachine] write their rows with this id, and end the
    process when the suffix is not a number. *)
Theorem X8_simulated_machine_id
    (uuid suffix : string) (timestamp : Z) (g : t) :
  GetMachineId hash_combine_string lexical_cast_uint64
    (simulated_machine uuid suffix)
  = lexical_cast_uint64 suffix
  ∧ AddMachine true hash_combine_string lexical_cast_uint64 timestamp
      (simulated_machine uuid suffix) g
    = (machine_id ← lexical_cast_uint64 suffix;
       Some (fprintf_machine_events g (timestamp, machine_id, 0)))
  ∧ RemoveMachine true hash_combine_string lexical_cast_uint64 timestamp
      (simulated_machine uuid suffix) g
    = (machine_id ← lexical_cast_uint64 suffix;
       Some (fprintf_machine_events g (timestamp, machine_id, 1))).
Proof.
  assert (GetMachineId hash_combine_string lexical_cast_uint64
            (simulated_machine uuid suffix) = lexical_cast_uint64 suffix) as Hid.
  { unfold GetMachineId, simulated_machine.
    cbn [rd_friendly_name rd_uuid].
    by rewrite find_at_0_append, substr_from_append. }
  unfold AddMachine, RemoveMachine. by rewrite Hid.
Qed.

(** X9.  A first submission of a task of a job whose name is
    [firmament_simulation_job_] followed by a number records that number
    as the job of the task and the index of the task as its id in the
    trace, whatever the uninitialised local [job_id] holds; the job
    counts one more task.  When the suffix is not a number the process
    ends. *)
Theorem X9_simulated_job_submission
    (suffix : string) (timestamp job_id_stack : Z)
    (task_runtime_stack : TaskRuntime) (td : TaskDescriptor) (g : t) :
  task_to_job_ g !! td_uid td = None ->
  match lexical_cast_uint64 suffix with
  | None =>
      TaskSubmitted true hash_combine_uint64 lexical_cast_uint64 timestamp
        job_id_stack task_runtime_stack (simulated_job suffix) td g = None
  | Some job_id =>
      ∃ g',
        TaskSubmitted true hash_combine_uint64 lexical_cast_uint64 timestamp
          job_id_stack task_runtime_stack (simulated_job suffix) td g = Some g'
        ∧ task_to_job_ g' = <[td_uid td := job_id]> (task_to_job_ g)
        ∧ task_events_ g'
          = task_events_ g ++ [(timestamp, job_id, td_index td, 0)]
        ∧ job_num_tasks_ g' !! job_id
          = Some (match job_num_tasks_ g !! job_id with
                  | Some num_tasks => uint64 (num_tasks + 1)
                  | None => 1
                  end)
  end.
Proof.
  intros Hnew. unfold TaskSubmitted, simulated_job. cbn [jd_name].
  rewrite find_at_0_append, substr_from_append.
  destruct (lexical_cast_uint64 suffix) as [job_id|]; [|done]. simpl.
  unfold InsertIfNotPresent. rewrite Hnew.
  eexists. split; [reflexivity|]. simpl. repeat split.
  destruct (job_num_tasks_ g !! job_id) eqn:Hnum; rewrite ?Hnum;
    simpl; by rewrite lookup_insert_eq.
Qed.

End Facts.

Lemma X1_destructor_writes_every_task_witness :
  do_calls true hash_of_length Spec.boost_hash_combine_uint64 (λ _, None)
    short_history GenerateTrace
  = Some after_short_history
  ∧ ∃ g',
      destructor true after_short_history = Some g'
      ∧ length (task_runtime_events_ g') = size (task_to_job_ after_short_history)
      ∧ (∀ task_id job_id,
           task_to_job_ after_short_history !! task_id = Some job_id ->
           ∃ tr, task_to_runtime_ after_short_history !! task_id = Some tr
                 ∧ task_runtime_row_of job_id task_id tr
                   ∈ task_runtime_events_ g')
      ∧ jobs_num_tasks_ g' = map_to_list (job_num_tasks_ after_short_history).
Proof.
  split; [vm_compute; reflexivity|].
  apply (X1_destructor_writes_every_task hash_of_length
           Spec.boost_hash_combine_uint64 (λ _, None) short_history).
  vm_compute; reflexivity.
Defined.

Lemma X2_job_num_tasks_counts_tasks_witness :
  do_calls true hash_of_length Spec.boost_hash_combine_uint64 (λ _, None)
    short_history GenerateTrace
  = Some after_short_history
  ∧ job_num_tasks_ after_short_history !! Spec.job_of_task_42
    = if decide (tasks_of_job Spec.job_of_task_42
                   (task_to_job_ after_short_history) = 0)
      then None
      else Some (uint64 (tasks_of_job Spec.job_of_task_42
                           (task_to_job_ after_short_history))).
Proof.
  split; [vm_compute; reflexivity|].
  apply (X2_job_num_tasks_counts_tasks hash_of_length
           Spec.boost_hash_combine_uint64 (λ _, None) short_history).
  vm_compute; reflexivity.
Defined.

Lemma X3_first_submission_is_kept_witness :
  do_calls true hash_of_length Spec.boost_hash_combine_uint64 (λ _, None)
    later_calls Spec.trace_with_task_42
  = Some after_later_calls
  ∧ task_to_job_ after_later_calls !! 42 = Some Spec.job_of_task_42
  ∧ ∃ tr', task_to_runtime_ after_later_calls !! 42 = Some tr'
           ∧ tr_task_id tr' = 42 ∧ tr_start_time tr' = 1000.
Proof.
  split; [vm_compute; reflexivity|].
  apply (X3_first_submission_is_kept hash_of_length
           Spec.boost_hash_combine_uint64 (λ _, None) later_calls
           Spec.trace_with_task_42 after_later_calls 42 Spec.job_of_task_42
           record_of_task_42); vm_compute; reflexivity.
Defined.

Lemma X4_other_calls_keep_the_record_witness :
  do_calls true hash_of_length Spec.boost_hash_combine_uint64 (λ _, None)
    later_calls Spec.trace_with_task_42
  = Some after_later_calls
  ∧ task_to_job_ after_later_calls !! 42 = Some Spec.job_of_task_42
  ∧ task_to_runtime_ after_later_calls !! 42 = Some record_of_task_42.
Proof.
  split; [vm_compute; reflexivity|].
  apply (X4_other_calls_keep_the_record hash_of_length
           Spec.boost_hash_combine_uint64 (λ _, None) later_calls
           Spec.trace_with_task_42 after_later_calls 42 Spec.job_of_task_42
           record_of_task_42); try (vm_compute; reflexivity).
  repeat constructor; simpl; discriminate.
Defined.

Lemma X5_rows_follow_the_calls_witness :
  do_calls true hash_of_length Spec.boost_hash_combine_uint64 (λ _, None)
    later_calls Spec.trace_with_task_42
  = Some after_later_calls
  ∧ ∃ task_rows machine_rows,
      task_events_ after_later_calls
      = task_events_ Spec.trace_with_task_42 ++ task_rows
      ∧ task_row_event <$> task_rows = [(4000, 0); (4100, 0); (4300, 1); (4400, 5)]
      ∧ machine_events_ after_later_calls
        = machine_events_ Spec.trace_with_task_42 ++ machine_rows
      ∧ machine_row_event <$> machine_rows = [(4500, 1)]
      ∧ scheduler_events_ after_later_calls = [(4200, 30, 20, 50, "stats")].
Proof.
  split; [vm_compute; reflexivity|].
  destruct (X5_rows_follow_the_calls hash_of_length
              Spec.boost_hash_combine_uint64 (λ _, None) later_calls
              Spec.trace_with_task_42 after_later_calls)
    as (task_rows & machine_rows & Ht & Htc & Hm & Hmc & Hs & _);
    [vm_compute; reflexivity|].
  exists task_rows, machine_rows. repeat split; assumption.
Defined.

Lemma X6_event_needs_submission_witness :
  do_calls true hash_of_length Spec.boost_hash_combine_uint64 (λ _, None)
    short_history GenerateTrace
  = Some after_short_history
  ∧ (is_Some (do_call true hash_of_length Spec.boost_hash_combine_uint64
                (λ _, None) (CallTaskFailed 3600 42) after_short_history)
     ↔ 42 ∈ omap submitted_task short_history).
Proof.
  split; [vm_compute; reflexivity|].
  apply (X6_event_needs_submission hash_of_length
           Spec.boost_hash_combine_uint64 (λ _, None) short_history
           after_short_history (CallTaskFailed 3600 42) 42);
    vm_compute; reflexivity.
Defined.

Lemma X7_second_end_counts_from_the_same_start_witness :
  ∃ g' tr',
    do_calls true hash_of_length Spec.boost_hash_combine_uint64 (λ _, None)
      [CallTaskScheduled 1500 42 1; CallTaskEvicted 2000 42;
       CallTaskCompleted 3500 42] Spec.trace_with_task_42
    = Some g'
    ∧ task_to_runtime_ g' !! 42 = Some tr'
    ∧ tr_total_runtime tr' = 2500
    ∧ tr_runtime tr' = 2000.
Proof.
  destruct (X7_second_end_counts_from_the_same_start hash_of_length
              Spec.boost_hash_combine_uint64 (λ _, None)
              Spec.trace_with_task_42 42 1 Spec.job_of_task_42 1500 2000 3500
              record_of_task_42 (CallTaskEvicted 2000 42))
    as (g' & tr' & Hg & Hr & Htotal & Hruntime & _).
  - vm_compute; reflexivity.
  - vm_compute; reflexivity.
  - left. reflexivity.
  - exists g', tr'. repeat split; assumption.
Defined.

Lemma X9_simulated_job_submission_witness :
  ∃ g',
    TaskSubmitted true Spec.boost_hash_combine_uint64 small_lexical_cast 1000
      99 Spec.zeroed_task_runtime (simulated_job "7") task_43
      Spec.trace_with_task_42
    = Some g'
    ∧ task_to_job_ g' !! 43 = Some 7
    ∧ task_events_ g'
      = task_events_ Spec.trace_with_task_42 ++ [(1000, 7, 1, 0)].
Proof.
  pose proof (X9_simulated_job_submission Spec.boost_hash_combine_uint64
                small_lexical_cast "7" 1000 99 Spec.zeroed_task_runtime task_43
                Spec.trace_with_task_42) as H.
  specialize (H ltac:(vm_compute; reflexivity)).
  change (small_lexical_cast "7") with (Some 7) in H.
  destruct H as (g' & Hg & Hjob & Hrows & _).
  exists g'. split; [exact Hg|]. split; [|exact Hrows].
  rewrite Hjob. reflexivity.
Defined.

End TraceCallsFacts.

(** ** The flow scheduler *)

Module FlowSchedulerFacts.
Import FlowScheduler Spec.

Lemma select_cost_model_spec :
  (∀ c : CostModelType,
     select_cost_model (CostModelType_value c)
     = match c with
       | COST_MODEL_VOID | COST_MODEL_SIMULATED_QUINCY => None
       | _ => Some (named_cost_model c)
       end)
  ∧ (∀ flag : Z, (flag < 0 ∨ 8 < flag) -> select_cost_model flag = None).
Proof.
  split; [by intros []|].
  intros flag Hflag. unfold select_cost_model. simpl.
  repeat case_match; try reflexivity; lia.
Qed.

(** C6.  The constructor selects the cost model that is named for the
    values 0 to 6 of the flag and ends the process for every other value,
    the values 7 (VOID) and 8 (SIMULATED QUINCY) among them: its [switch]
    has no [case] for the two ("TODO: Add cases for VOID and
    SIMULATE_QUINCY cost models"), although the help text of the flag
    lists them. *)
Theorem C6_cost_model_selection
    (SolverDispatcher : Type) (FlowGraph_NumNodes : list FlowGraphCall -> Z)
    (SolverDispatcher_new : list FlowGraphCall -> SolverDispatcher)
    (b : EventDrivenScheduler) :
  (∀ c : CostModelType,
     cost_model_ <$> FlowScheduler SolverDispatcher (CostModelType_value c)
                       FlowGraph_NumNodes SolverDispatcher_new b
     = match c with
       | COST_MODEL_VOID | COST_MODEL_SIMULATED_QUINCY => None
       | _ => Some (named_cost_model c)
       end)
  ∧ FlowScheduler SolverDispatcher 7 FlowGraph_NumNodes SolverDispatcher_new b
    = None
  ∧ FlowScheduler SolverDispatcher 8 FlowGraph_NumNodes SolverDispatcher_new b
    = None
  ∧ (∀ flag : Z, (flag < 0 ∨ 8 < flag) ->
       FlowScheduler SolverDispatcher flag FlowGraph_NumNodes
         SolverDispatcher_new b = None).
Proof.
  destruct select_cost_model_spec as [Hnamed Hother].
  split; [by intros []|]. split; [done|]. split; [done|].
  intros flag Hflag. unfold FlowScheduler. by rewrite Hother.
Qed.

Section Facts.

Variable SolverDispatcher : Type.
Variable FLAGS_time_dependent_cost_update_frequency : Z.
Variable ResourceIDFromString : string -> Z.
Variable EventDrivenScheduler_HandleTaskPlacement :
  TaskDescriptor -> ResourceDescriptor -> EventDrivenScheduler -> option EventDrivenScheduler.
Variable EventDrivenScheduler_HandleTaskEviction :
  TaskDescriptor -> ResourceDescriptor -> EventDrivenScheduler -> option EventDrivenScheduler.
Variable EventDrivenScheduler_HandleTaskMigration :
  TaskDescriptor -> ResourceDescriptor -> EventDrivenScheduler -> option EventDrivenScheduler.

#[local] Abbreviation t := (FlowScheduler.t SolverDispatcher).
#[local] Abbreviation HandleTaskMigration :=
  (FlowScheduler.HandleTaskMigration SolverDispatcher ResourceIDFromString
     EventDrivenScheduler_HandleTaskMigration).
#[local] Abbreviation ApplySchedulingDeltas_from :=
  (FlowScheduler.ApplySchedulingDeltas_from SolverDispatcher ResourceIDFromString
     EventDrivenScheduler_HandleTaskPlacement
     EventDrivenScheduler_HandleTaskEviction
     EventDrivenScheduler_HandleTaskMigration).
#[local] Abbreviation ApplySchedulingDeltas :=
  (FlowScheduler.ApplySchedulingDeltas SolverDispatcher ResourceIDFromString
     EventDrivenScheduler_HandleTaskPlacement
     EventDrivenScheduler_HandleTaskEviction
     EventDrivenScheduler_HandleTaskMigration).
#[local] Abbreviation revisit_time_dependent_costs :=
  (FlowScheduler.revisit_time_dependent_costs SolverDispatcher
     FLAGS_time_dependent_cost_update_frequency).
#[local] Abbreviation time_dependent_costs_due :=
  (FlowScheduler.time_dependent_costs_due SolverDispatcher
     FLAGS_time_dependent_cost_update_frequency).

(** C1.  [HandleTaskMigration] reads the resource that the task is bound
    to from [task_bindings_] as it is on entry; whatever the handler of
    the base class then makes of the bindings, the flow graph's
    [TaskMigrated] is called with that resource as the old one.  Only the
    handler of the base class can make the call fail. *)
Theorem C1_migration_passes_old_binding
    (td : TaskDescriptor) (rd : ResourceDescriptor) (s : t) (old_res_id : Z) :
  task_bindings_ (base s) !! td_uid td = Some old_res_id ->
  match EventDrivenScheduler_HandleTaskMigration td rd (base s) with
  | Some b =>
      ∃ s', HandleTaskMigration td rd s = Some s'
            ∧ base s' = b
            ∧ flow_graph_ s'
              = flow_graph_ s
                ++ [TaskMigrated (td_uid td) old_res_id
                      (ResourceIDFromString (rd_uuid rd))]
  | None => HandleTaskMigration td rd s = None
  end.
Proof.
  intros Hold. unfold FlowScheduler.HandleTaskMigration. rewrite Hold. simpl.
  destruct (EventDrivenScheduler_HandleTaskMigration td rd (base s)); simpl;
    [eexists; repeat split|reflexivity].
Qed.

(** Without a binding on entry the check fails before the base class is
    called. *)
Lemma HandleTaskMigration_unbound (td : TaskDescriptor) (rd : ResourceDescriptor)
    (s : t) :
  task_bindings_ (base s) !! td_uid td = None ->
  HandleTaskMigration td rd s = None.
Proof. intros H. unfold FlowScheduler.HandleTaskMigration. by rewrite H. Qed.

(** *** [ApplySchedulingDeltas] *)

(** What the loop does to the store of deltas: an element is left as it
    is or gets its flag set. *)
Definition actioned_only (store store' : gmap nat SchedulingDelta) : Prop :=
  ∀ it, store' !! it = store !! it
        ∨ ∃ d, store !! it = Some d ∧ store' !! it = Some (set_actioned true d).

Lemma actioned_only_refl store : actioned_only store store.
Proof. intros it. by left. Qed.

Lemma actioned_only_insert store it d :
  store !! it = Some d ->
  actioned_only store (<[it := set_actioned true d]> store).
Proof.
  intros Hd it'. destruct (decide (it = it')) as [<-|Hne].
  - right. exists d. by rewrite lookup_insert_eq.
  - left. by rewrite lookup_insert_ne.
Qed.

Lemma actioned_only_trans store1 store2 store3 :
  actioned_only store1 store2 -> actioned_only store2 store3 ->
  actioned_only store1 store3.
Proof.
  intros H12 H23 it. destruct (H12 it) as [E12|(d & Hd & E12)],
    (H23 it) as [E23|(d' & Hd' & E23)].
  - left. congruence.
  - right. exists d'. split; congruence.
  - right. exists d. split; congruence.
  - right. exists d. split; [done|]. rewrite E23. f_equal.
    rewrite E12 in Hd'. by injection Hd' as <-.
Qed.

Lemma actioned_only_is_place store store' it :
  actioned_only store store' -> is_place store' it = is_place store it.
Proof.
  intros H. unfold is_place. destruct (H it) as [->|(d & -> & ->)]; done.
Qed.

Lemma actioned_only_num_place store store' deltas :
  actioned_only store store' ->
  num_place_deltas deltas store' = num_place_deltas deltas store.
Proof.
  intros H. unfold num_place_deltas. do 2 f_equal.
  induction deltas as [|it deltas IH]; [done|]. simpl.
  by rewrite IH, (actioned_only_is_place _ _ _ H).
Qed.

Lemma actioned_only_stays store store' it d :
  actioned_only store store' ->
  store !! it = Some (set_actioned true d) ->
  store' !! it = Some (set_actioned true d).
Proof.
  intros H Hd. destruct (H it) as [->|(d' & Hd' & ->)]; [done|].
  rewrite Hd in Hd'. by injection Hd' as <-.
Qed.

Lemma ApplySchedulingDeltas_from_spec (deltas : list nat) :
  ∀ (num_scheduled : Z) (store : gmap nat SchedulingDelta) (s : t) n store' s',
    0 <= num_scheduled ->
    num_scheduled + Z.of_nat (length deltas) < 2 ^ 64 ->
    ApplySchedulingDeltas_from deltas num_scheduled store s = Some (n, store', s') ->
    n = num_scheduled + num_place_deltas deltas store
    ∧ actioned_only store store'
    ∧ ∀ it d, it ∈ deltas -> store !! it = Some d -> delta_type d ≠ NOOP ->
              store' !! it = Some (set_actioned true d).
Proof.
  induction deltas as [|it deltas IH]; intros num store s n store' s' Hnum Hlen Hrun.
  { simpl in Hrun. injection Hrun as <- <- <-. unfold num_place_deltas. simpl.
    split; [lia|]. split; [apply actioned_only_refl|]. intros ? ? Hin.
    by apply elem_of_nil in Hin. }
  simpl in Hrun. simpl length in Hlen.
  destruct (store !! it) as [d|] eqn:Hd; [|discriminate]. simpl in Hrun.
  destruct (task_map_ (base s) !! delta_task_id d) as [td|]; [|discriminate].
  simpl in Hrun.
  destruct (resource_map_ (base s) !! _) as [rs|]; [|discriminate].
  simpl in Hrun.
  assert (Hplace : ∀ store0, num_place_deltas (it :: deltas) store0
            = (if is_place store0 it then 1 else 0) + num_place_deltas deltas store0).
  { intros store0. unfold num_place_deltas. simpl.
    destruct (is_place store0 it); simpl; lia. }
  assert (Hit : is_place store it = bool_decide (delta_type d = PLACE))
    by (unfold is_place; by rewrite Hd).
  pose proof (actioned_only_insert store it d Hd) as Hins.
  destruct (delta_type d) eqn:Htype.
  - (* NOOP *)
    apply IH in Hrun as (-> & Hact & Hall); [|lia..].
    rewrite Hplace, Hit. simpl. split; [lia|]. split; [done|].
    intros it' d' [->|Hin]%elem_of_cons Hd' Hne; [congruence|by apply Hall].
  - (* PLACE *)
    destruct (HandleTaskPlacement _ _ _ _ _ _) as [s1|]; [|discriminate].
    simpl in Hrun. rewrite uint64_small in Hrun by lia.
    apply IH in Hrun as (-> & Hact & Hall); [|lia..].
    rewrite (actioned_only_num_place _ _ _ Hins), Hplace, Hit. simpl.
    split; [lia|]. split; [by eapply actioned_only_trans|].
    intros it' d' [->|Hin]%elem_of_cons Hd' Hne.
    + rewrite Hd in Hd'. injection Hd' as <-.
      eapply actioned_only_stays; [done|]. by rewrite lookup_insert_eq.
    + destruct (decide (it = it')) as [<-|Hneq].
      * rewrite Hd in Hd'. injection Hd' as <-.
        eapply actioned_only_stays; [done|]. by rewrite lookup_insert_eq.
      * apply Hall; [done| |done]. by rewrite lookup_insert_ne.
  - (* PREEMPT *)
    destruct (HandleTaskEviction _ _ _ _ _ _) as [s1|]; [|discriminate].
    simpl in Hrun.
    apply IH in Hrun as (-> & Hact & Hall); [|lia..].
    rewrite (actioned_only_num_place _ _ _ Hins), Hplace, Hit. simpl.
    split; [lia|]. split; [by eapply actioned_only_trans|].
    intros it' d' [->|Hin]%elem_of_cons Hd' Hne.
    + rewrite Hd in Hd'. injection Hd' as <-.
      eapply actioned_only_stays; [done|]. by rewrite lookup_insert_eq.
    + destruct (decide (it = it')) as [<-|Hneq].
      * rewrite Hd in Hd'. injection Hd' as <-.
        eapply actioned_only_stays; [done|]. by rewrite lookup_insert_eq.
      * apply Hall; [done| |done]. by rewrite lookup_insert_ne.
  - (* MIGRATE *)
    destruct (FlowScheduler.HandleTaskMigration _ _ _ _ _ _) as [s1|];
      [|discriminate].
    simpl in Hrun.
    apply IH in Hrun as (-> & Hact & Hall); [|lia..].
    rewrite (actioned_only_num_place _ _ _ Hins), Hplace, Hit. simpl.
    split; [lia|]. split; [by eapply actioned_only_trans|].
    intros it' d' [->|Hin]%elem_of_cons Hd' Hne.
    + rewrite Hd in Hd'. injection Hd' as <-.
      eapply actioned_only_stays; [done|]. by rewrite lookup_insert_eq.
    + destruct (decide (it = it')) as [<-|Hneq].
      * rewrite Hd in Hd'. injection Hd' as <-.
        eapply actioned_only_stays; [done|]. by rewrite lookup_insert_eq.
      * apply Hall; [done| |done]. by rewrite lookup_insert_ne.
Qed.

(** The loop returns for a vector without [MIGRATE] whose deltas name
    tasks and resources of the maps, when the handlers of the base class
    for placements and evictions do not fail and keep the two maps. *)
Definition keeps_maps
    (handler : TaskDescriptor -> ResourceDescriptor -> EventDrivenScheduler ->
               option EventDrivenScheduler) : Prop :=
  ∀ td rd b, ∃ b', handler td rd b = Some b'
                   ∧ task_map_ b' = task_map_ b
                   ∧ resource_map_ b' = resource_map_ b.

Definition appliable (store : gmap nat SchedulingDelta) (b : EventDrivenScheduler)
    (it : nat) : Prop :=
  ∃ d, store !! it = Some d
       ∧ delta_type d ≠ MIGRATE
       ∧ is_Some (task_map_ b !! delta_task_id d)
       ∧ is_Some (resource_map_ b !! ResourceIDFromString (delta_resource_id d)).

Lemma appliable_step store b b' it it' d :
  store !! it = Some d ->
  task_map_ b' = task_map_ b -> resource_map_ b' = resource_map_ b ->
  appliable store b it' ->
  appliable (<[it := set_actioned true d]> store) b' it'.
Proof.
  intros Hd Htasks Hresources (d' & Hd' & Hprops). unfold appliable.
  rewrite Htasks, Hresources. destruct (decide (it = it')) as [<-|Hne].
  - exists (set_actioned true d). rewrite lookup_insert_eq. split; [done|].
    rewrite Hd in Hd'. by injection Hd' as <-.
  - exists d'. by rewrite lookup_insert_ne.
Qed.

Lemma ApplySchedulingDeltas_from_returns (deltas : list nat) :
  keeps_maps EventDrivenScheduler_HandleTaskPlacement ->
  keeps_maps EventDrivenScheduler_HandleTaskEviction ->
  ∀ (num_scheduled : Z) (store : gmap nat SchedulingDelta) (s : t),
    (∀ it, it ∈ deltas -> appliable store (base s) it) ->
    is_Some (ApplySchedulingDeltas_from deltas num_scheduled store s).
Proof.
  intros Hplace Hevict.
  induction deltas as [|it deltas IH]; intros num store s Hready; [by eexists|].
  destruct (Hready it) as (d & Hd & Hmig & [td Htd] & [rs Hrs]); [left|].
  cbn [FlowScheduler.ApplySchedulingDeltas_from]. rewrite Hd. simpl.
  rewrite Htd, Hrs. simpl.
  destruct (delta_type d) eqn:Htype; [| | |done].
  - apply IH. intros it' Hin. apply Hready. by right.
  - unfold HandleTaskPlacement.
    destruct (Hplace td (rs_descriptor rs) (base s)) as (b' & -> & Ht & Hr).
    simpl. apply IH. intros it' Hin.
    apply (appliable_step store (base s)); [done..|]. apply Hready. by right.
  - unfold HandleTaskEviction.
    destruct (Hevict td (rs_descriptor rs) (base s)) as (b' & -> & Ht & Hr).
    simpl. apply IH. intros it' Hin.
    apply (appliable_step store (base s)); [done..|]. apply Hready. by right.
Qed.

(** C4.  For a vector of deltas (a vector has fewer than 2^64 elements):
    when [ApplySchedulingDeltas] returns, it returns the number of [PLACE]
    deltas in the vector, and every delta of the vector that is a
    [PLACE], a [PREEMPT] or a [MIGRATE] is the delta it was with
    [actioned] set; no delta changes its type, its task or its resource.
    The call does return when no check ends the process: for one, when
    the deltas name tasks and resources of the maps, none is a
    [MIGRATE], and the handlers of the base class do not fail and keep
    the two maps. *)
Theorem C4_apply_counts_placements
    (deltas : list nat) (store : gmap nat SchedulingDelta) (s : t) :
  Z.of_nat (length deltas) < 2 ^ 64 ->
  (∀ n store' s',
     ApplySchedulingDeltas deltas store s = Some (n, store', s') ->
     n = num_place_deltas deltas store
     ∧ (∀ it d, it ∈ deltas -> store !! it = Some d ->
          delta_type d = PLACE ∨ delta_type d = PREEMPT ∨ delta_type d = MIGRATE ->
          ∃ d', store' !! it = Some d'
                ∧ delta_actioned d' = true
                ∧ delta_type d' = delta_type d
                ∧ delta_task_id d' = delta_task_id d
                ∧ delta_resource_id d' = delta_resource_id d))
  ∧ (keeps_maps EventDrivenScheduler_HandleTaskPlacement ->
     keeps_maps EventDrivenScheduler_HandleTaskEviction ->
     (∀ it, it ∈ deltas -> appliable store (base s) it) ->
     is_Some (ApplySchedulingDeltas deltas store s)).
Proof.
  intros Hlen. split.
  - intros n store' s' Hrun. unfold FlowScheduler.ApplySchedulingDeltas in Hrun.
    apply ApplySchedulingDeltas_from_spec in Hrun as (-> & _ & Hall); [|lia..].
    split; [lia|]. intros it d Hin Hd Htype.
    exists (set_actioned true d). rewrite (Hall it d Hin Hd); [done|].
    destruct Htype as [->|[->| ->]]; discriminate.
  - intros Hplace Hevict Hready.
    by apply ApplySchedulingDeltas_from_returns.
Qed.

(** *** The update of the time-dependent costs *)

Lemma non_finished_jobs_spec (job_map : gmap Z JobDescriptor) (job_id : Z) :
  job_id ∈ non_finished_jobs job_map
  ↔ ∃ jd, job_map !! job_id = Some jd ∧ job_is_active jd.
Proof.
  unfold non_finished_jobs, job_is_active. rewrite list_elem_of_fmap. split.
  - intros ([j jd] & -> & Hin). exists jd.
    apply list_elem_of_In, filter_In in Hin as [Hin Hactive].
    apply list_elem_of_In, elem_of_map_to_list in Hin. split; [done|].
    simpl in Hactive.
    apply andb_true_iff in Hactive as [[H1 H2]%andb_true_iff H3].
    by apply bool_decide_eq_true in H1, H2, H3.
  - intros (jd & Hjd & H1 & H2 & H3). exists (job_id, jd). split; [done|].
    apply list_elem_of_In, filter_In. split.
    + by apply list_elem_of_In, elem_of_map_to_list.
    + simpl. by rewrite !bool_decide_eq_true_2.
Qed.

Lemma non_finished_jobs_NoDup (job_map : gmap Z JobDescriptor) :
  NoDup (non_finished_jobs job_map).
Proof.
  unfold non_finished_jobs.
  pose proof (NoDup_fst_map_to_list job_map) as Hnd.
  induction (map_to_list job_map) as [|[j jd] l IH]; [constructor|].
  simpl in *. apply NoDup_cons in Hnd as [Hj Hnd].
  destruct (_ && _); simpl; [|by apply IH].
  apply NoDup_cons. split; [|by apply IH].
  intros Hin. apply Hj. apply list_elem_of_fmap in Hin as ([j' jd'] & -> & Hin).
  apply list_elem_of_In, filter_In in Hin as [Hin _].
  apply list_elem_of_fmap. exists (j', jd'). split; [done|].
  by apply list_elem_of_In.
Qed.

(** The update is called exactly when the guard holds, with the jobs
    that are not finished, and then the time of the update is recorded. *)
Lemma revisit_time_dependent_costs_calls (cur_time : Z) (s : t) :
  flow_graph_ (revisit_time_dependent_costs cur_time s)
  = (if time_dependent_costs_due cur_time s
     then flow_graph_ s
          ++ [UpdateTimeDependentCosts (non_finished_jobs (job_map_ (base s)))]
     else flow_graph_ s)
  ∧ last_updated_time_dependent_costs_ (revisit_time_dependent_costs cur_time s)
    = (if time_dependent_costs_due cur_time s then cur_time
       else last_updated_time_dependent_costs_ s).
Proof.
  unfold FlowScheduler.revisit_time_dependent_costs.
  by destruct (FlowScheduler.time_dependent_costs_due _ _ _ _).
Qed.

(** Once the clock has passed the update frequency, the guard is the
    test that the specification gives. *)
Lemma time_dependent_costs_due_elapsed (cur_time : Z) (s : t) :
  0 <= FLAGS_time_dependent_cost_update_frequency <= cur_time ->
  0 <= last_updated_time_dependent_costs_ s <= cur_time ->
  cur_time < 2 ^ 64 ->
  time_dependent_costs_due cur_time s = true
  ↔ update_period_elapsed cur_time (last_updated_time_dependent_costs_ s)
      FLAGS_time_dependent_cost_update_frequency.
Proof.
  intros Hfreq Hlast Hcur.
  unfold FlowScheduler.time_dependent_costs_due, update_period_elapsed.
  rewrite bool_decide_eq_true.
  rewrite (uint64_small FLAGS_time_dependent_cost_update_frequency) by lia.
  rewrite !uint64_small by lia. lia.
Qed.

(** C5.  The guard of the update is
    [last_updated_time_dependent_costs_ <= cur_time - frequency], with
    the subtraction in [uint64_t].  While the clock is below the update
    frequency the subtraction wraps: the update is called, with the jobs
    of [job_map_] whose state is none of [COMPLETED], [FAILED] and
    [ABORTED], although less than the update frequency has elapsed since
    the last update. *)
Theorem C5_update_called_before_period_elapsed (cur_time : Z) (s : t) :
  0 <= last_updated_time_dependent_costs_ s <= cur_time ->
  cur_time < FLAGS_time_dependent_cost_update_frequency < 2 ^ 63 ->
  flow_graph_ (revisit_time_dependent_costs cur_time s)
  = flow_graph_ s
    ++ [UpdateTimeDependentCosts (non_finished_jobs (job_map_ (base s)))]
  ∧ (∀ job_id, job_id ∈ non_finished_jobs (job_map_ (base s))
               ↔ ∃ jd, job_map_ (base s) !! job_id = Some jd ∧ job_is_active jd)
  ∧ ¬ update_period_elapsed cur_time (last_updated_time_dependent_costs_ s)
        FLAGS_time_dependent_cost_update_frequency.
Proof.
  intros Hlast Hfreq.
  assert (Hdue : time_dependent_costs_due cur_time s = true).
  { unfold FlowScheduler.time_dependent_costs_due. apply bool_decide_eq_true.
    rewrite (uint64_small FLAGS_time_dependent_cost_update_frequency)
      by (change (2 ^ 64) with (2 * 2 ^ 63); lia).
    unfold uint64, wrap.
    replace (cur_time - FLAGS_time_dependent_cost_update_frequency)
      with (cur_time - FLAGS_time_dependent_cost_update_frequency + 2 ^ 64
            + (-1) * 2 ^ 64) by lia.
    rewrite Z.mod_add by done.
    rewrite Z.mod_small; change (2 ^ 64) with (2 * 2 ^ 63); lia. }
  split; [|split].
  - destruct (revisit_time_dependent_costs_calls cur_time s) as [-> _].
    by rewrite Hdue.
  - apply non_finished_jobs_spec.
  - unfold update_period_elapsed.
    rewrite !uint64_small by (change (2 ^ 64) with (2 * 2 ^ 63); lia). lia.
Qed.

End Facts.

Lemma C1_migration_passes_old_binding_witness :
  ∃ s', FlowScheduler.HandleTaskMigration unit resource_id_of_string bind
          {| td_uid := 3 |} {| rd_uuid := "rr" |} small_scheduler = Some s'
        ∧ task_bindings_ (base s') !! 3 = Some 2
        ∧ flow_graph_ s' = [TaskMigrated 3 1 2].
Proof.
  pose proof (C1_migration_passes_old_binding unit resource_id_of_string bind
                {| td_uid := 3 |} {| rd_uuid := "rr" |} small_scheduler 1) as H.
  simpl in H. destruct H as (s' & Hrun & Hbase & Hgraph); [reflexivity|].
  exists s'. split; [exact Hrun|]. split; [|exact Hgraph].
  rewrite Hbase. reflexivity.
Defined.

Lemma C4_apply_counts_placements_witness :
  ∃ store' s',
    FlowScheduler.ApplySchedulingDeltas unit resource_id_of_string
      bind unbind bind [0; 1; 2; 3]%nat four_deltas small_scheduler
    = Some (2, store', s')
    ∧ delta_actioned <$> store' !! 0%nat = Some true
    ∧ delta_actioned <$> store' !! 2%nat = Some true
    ∧ delta_actioned <$> store' !! 3%nat = Some true.
Proof.
  destruct (FlowScheduler.ApplySchedulingDeltas unit resource_id_of_string
              bind unbind bind [0; 1; 2; 3]%nat four_deltas small_scheduler)
    as [[[n store'] s']|] eqn:Hrun; [|vm_compute in Hrun; discriminate].
  destruct (C4_apply_counts_placements unit resource_id_of_string
              bind unbind bind [0; 1; 2; 3]%nat four_deltas small_scheduler)
    as [Hreturned _].
  - vm_compute. reflexivity.
  - destruct (Hreturned n store' s' Hrun) as [Hn Hall].
    exists store', s'. split; [by rewrite Hn|].
    split; [|split].
    + edestruct (Hall 0%nat) as (d' & Hd' & Hact & _);
        [by repeat constructor|reflexivity|by left|].
      rewrite Hd'. simpl. by rewrite Hact.
    + edestruct (Hall 2%nat) as (d' & Hd' & Hact & _);
        [by repeat constructor|reflexivity|by right; right|].
      rewrite Hd'. simpl. by rewrite Hact.
    + edestruct (Hall 3%nat) as (d' & Hd' & Hact & _);
        [by repeat constructor|reflexivity|by left|].
      rewrite Hd'. simpl. by rewrite Hact.
Defined.

Lemma C5_update_called_before_period_elapsed_witness :
  flow_graph_
    (FlowScheduler.revisit_time_dependent_costs unit 10000000 5 small_scheduler)
  = [UpdateTimeDependentCosts [10]]
  ∧ ¬ update_period_elapsed 5 0 10000000.
Proof.
  destruct (C5_update_called_before_period_elapsed unit 10000000 5
              small_scheduler) as (Hcall & _ & Hnot).
  - simpl. lia.
  - lia.
  - split; [exact Hcall|exact Hnot].
Defined.

End FlowSchedulerFacts.

(** ** The flow scheduler: the calls on the flow graph, the store of deltas and the iteration *)

Module FlowSchedulerMoreFacts.
Import FlowScheduler Spec DeltaProps.

Section Facts.

Variable SolverDispatcher : Type.
Variable ResourceIDFromString : string -> Z.
Variable EventDrivenScheduler_HandleTaskPlacement :
  TaskDescriptor -> ResourceDescriptor -> EventDrivenScheduler -> option EventDrivenScheduler.
Variable EventDrivenScheduler_HandleTaskEviction :
  TaskDescriptor -> ResourceDescriptor -> EventDrivenScheduler -> option EventDrivenScheduler.
Variable EventDrivenScheduler_HandleTaskMigration :
  TaskDescriptor -> ResourceDescriptor -> EventDrivenScheduler -> option EventDrivenScheduler.

Variable FLAGS_flow_scheduling_cost_model : Z.
Variable FLAGS_time_dependent_cost_update_frequency : Z.
Variable FlowGraph_Node : list FlowGraphCall -> Z -> option FlowGraphNode.
Variable SolverDispatcher_seq_num : SolverDispatcher -> Z.
Variable SolverDispatcher_Run :
  list FlowGraphCall -> SolverDispatcher -> list (Z * Z) * SolverDispatcher.
Variable SolverDispatcher_NodeBindingToSchedulingDelta :
  TaskDescriptor -> ResourceDescriptor -> gmap Z Z -> list SchedulingDelta.

#[local] Abbreviation t := (FlowScheduler.t SolverDispatcher).
#[local] Abbreviation RunSchedulingIteration :=
  (FlowScheduler.RunSchedulingIteration SolverDispatcher
     FLAGS_flow_scheduling_cost_model FLAGS_time_dependent_cost_update_frequency
     ResourceIDFromString
     EventDrivenScheduler_HandleTaskPlacement
     EventDrivenScheduler_HandleTaskEviction
     EventDrivenScheduler_HandleTaskMigration
     FlowGraph_Node SolverDispatcher_seq_num SolverDispatcher_Run
     SolverDispatcher_NodeBindingToSchedulingDelta).
#[local] Abbreviation bindings_to_deltas :=
  (FlowScheduler.bindings_to_deltas SolverDispatcher FlowGraph_Node
     SolverDispatcher_NodeBindingToSchedulingDelta).
#[local] Abbreviation revisit_time_dependent_costs :=
  (FlowScheduler.revisit_time_dependent_costs SolverDispatcher
     FLAGS_time_dependent_cost_update_frequency).
#[local] Abbreviation time_dependent_costs_due :=
  (FlowScheduler.time_dependent_costs_due SolverDispatcher
     FLAGS_time_dependent_cost_update_frequency).
#[local] Abbreviation ApplySchedulingDeltas_from :=
  (FlowScheduler.ApplySchedulingDeltas_from SolverDispatcher ResourceIDFromString
     EventDrivenScheduler_HandleTaskPlacement
     EventDrivenScheduler_HandleTaskEviction
     EventDrivenScheduler_HandleTaskMigration).
#[local] Abbreviation ApplySchedulingDeltas :=
  (FlowScheduler.ApplySchedulingDeltas SolverDispatcher ResourceIDFromString
     EventDrivenScheduler_HandleTaskPlacement
     EventDrivenScheduler_HandleTaskEviction
     EventDrivenScheduler_HandleTaskMigration).

(** One turn of the loop of [ApplySchedulingDeltas] that does not end the
    process. *)
Lemma loop_step it deltas num_scheduled store (s : t) r :
  ApplySchedulingDeltas_from (it :: deltas) num_scheduled store s = Some r ->
  ∃ d td rs,
    store !! it = Some d
    ∧ task_map_ (base s) !! delta_task_id d = Some td
    ∧ resource_map_ (base s) !! ResourceIDFromString (delta_resource_id d) = Some rs
    ∧ match delta_type d with
      | NOOP => ApplySchedulingDeltas_from deltas num_scheduled store s = Some r
      | PLACE =>
          ∃ b', EventDrivenScheduler_HandleTaskPlacement td (rs_descriptor rs) (base s)
                = Some b'
                ∧ ApplySchedulingDeltas_from deltas (uint64 (num_scheduled + 1))
                    (<[it := set_actioned true d]> store)
                    (call_flow_graph (with_base s b')
                       (TaskScheduled (td_uid td)
                          (ResourceIDFromString (rd_uuid (rs_descriptor rs)))))
                  = Some r
      | PREEMPT =>
          ∃ b', EventDrivenScheduler_HandleTaskEviction td (rs_descriptor rs) (base s)
                = Some b'
                ∧ ApplySchedulingDeltas_from deltas num_scheduled
                    (<[it := set_actioned true d]> store)
                    (call_flow_graph (with_base s b')
                       (TaskEvicted (td_uid td)
                          (ResourceIDFromString (rd_uuid (rs_descriptor rs)))))
                  = Some r
      | MIGRATE =>
          ∃ b' old_res_id,
            task_bindings_ (base s) !! td_uid td = Some old_res_id
            ∧ EventDrivenScheduler_HandleTaskMigration td (rs_descriptor rs) (base s)
              = Some b'
            ∧ ApplySchedulingDeltas_from deltas num_scheduled
                (<[it := set_actioned true d]> store)
                (call_flow_graph (with_base s b')
                   (TaskMigrated (td_uid td) old_res_id
                      (ResourceIDFromString (rd_uuid (rs_descriptor rs)))))
              = Some r
      end.
Proof.
  intros Hrun. cbn [FlowScheduler.ApplySchedulingDeltas_from] in Hrun.
  destruct (store !! it) as [d|] eqn:Hd; [|discriminate]. simpl in Hrun.
  destruct (task_map_ (base s) !! delta_task_id d) as [td|] eqn:Htd;
    [|discriminate].
  simpl in Hrun.
  destruct (resource_map_ (base s) !! _) as [rs|] eqn:Hrs; [|discriminate].
  simpl in Hrun. exists d, td, rs. do 3 (split; [done|]).
  destruct (delta_type d); [done|..].
  - unfold HandleTaskPlacement in Hrun.
    destruct (EventDrivenScheduler_HandleTaskPlacement _ _ _) as [b'|];
      [|discriminate]. by exists b'.
  - unfold HandleTaskEviction in Hrun.
    destruct (EventDrivenScheduler_HandleTaskEviction _ _ _) as [b'|];
      [|discriminate]. by exists b'.
  - unfold HandleTaskMigration in Hrun.
    destruct (task_bindings_ (base s) !! td_uid td) as [old_res_id|];
      [|discriminate]. simpl in Hrun.
    destruct (EventDrivenScheduler_HandleTaskMigration _ _ _) as [b'|];
      [|discriminate]. by exists b', old_res_id.
Qed.

Lemma is_change_insert store it d it' :
  store !! it = Some d ->
  is_change (<[it := set_actioned true d]> store) it' = is_change store it'.
Proof.
  intros Hd. unfold is_change. destruct (decide (it = it')) as [<-|Hne].
  - by rewrite lookup_insert_eq, Hd.
  - by rewrite lookup_insert_ne.
Qed.

Lemma tells_insert store it d it' c :
  store !! it = Some d ->
  tells ResourceIDFromString (<[it := set_actioned true d]> store) it' c ->
  tells ResourceIDFromString store it' c.
Proof.
  intros Hd (d' & Hd' & Hc). unfold tells.
  destruct (decide (it = it')) as [<-|Hne].
  - rewrite lookup_insert_eq in Hd'. injection Hd' as <-. by exists d.
  - rewrite lookup_insert_ne in Hd' by done. by exists d'.
Qed.

Lemma well_keyed_step b b' :
  task_map_ b' = task_map_ b -> resource_map_ b' = resource_map_ b ->
  well_keyed ResourceIDFromString b -> well_keyed ResourceIDFromString b'.
Proof. unfold well_keyed. by intros -> ->. Qed.

Lemma filter_is_change_insert store it d deltas :
  store !! it = Some d ->
  List.filter (is_change (<[it := set_actioned true d]> store)) deltas
  = List.filter (is_change store) deltas.
Proof.
  intros Hd. induction deltas as [|it' deltas IH]; [done|]. simpl.
  by rewrite IH, is_change_insert.
Qed.

Lemma ApplySchedulingDeltas_from_calls (deltas : list nat) :
  preserves_maps EventDrivenScheduler_HandleTaskPlacement ->
  preserves_maps EventDrivenScheduler_HandleTaskEviction ->
  preserves_maps EventDrivenScheduler_HandleTaskMigration ->
  ∀ num_scheduled store (s : t) n store' s',
    well_keyed ResourceIDFromString (base s) ->
    ApplySchedulingDeltas_from deltas num_scheduled store s = Some (n, store', s') ->
    ∃ calls,
      flow_graph_ s' = flow_graph_ s ++ calls
      ∧ Forall2 (tells ResourceIDFromString store)
          (List.filter (is_change store) deltas) calls.
Proof.
  intros Hplace Hevict Hmigrate.
  induction deltas as [|it deltas IH]; intros num store s n store' s' Hkeys Hrun.
  { injection Hrun as <- <- <-. exists []. by rewrite app_nil_r. }
  apply loop_step in Hrun as (d & td & rs & Hd & Htd & Hrs & Hrun).
  destruct Hkeys as [Htasks Hresources].
  pose proof (Htasks _ _ Htd) as Huid. pose proof (Hresources _ _ Hrs) as Hres.
  simpl in Huid, Hres.
  assert (Hchange : is_change store it = bool_decide (delta_type d ≠ NOOP))
    by (unfold is_change; by rewrite Hd).
  cbn [List.filter]. rewrite Hchange.
  destruct (delta_type d) eqn:Htype.
  - apply IH in Hrun as (calls & Hgraph & Hcalls); [|done]. by exists calls.
  - destruct Hrun as (b' & Hb' & Hrun).
    destruct (Hplace _ _ _ _ Hb') as [Ht Hr].
    apply IH in Hrun as (calls & Hgraph & Hcalls);
      [|by apply (well_keyed_step (base s))].
    simpl in Hgraph. rewrite <- (assoc_L (++)) in Hgraph.
    eexists. split; [exact Hgraph|]. simpl. constructor.
    + exists d. rewrite Hd, Htype, Huid, Hres. done.
    + rewrite filter_is_change_insert in Hcalls by done.
      eapply Forall2_impl; [exact Hcalls|]. intros ? ?. by apply tells_insert.
  - destruct Hrun as (b' & Hb' & Hrun).
    destruct (Hevict _ _ _ _ Hb') as [Ht Hr].
    apply IH in Hrun as (calls & Hgraph & Hcalls);
      [|by apply (well_keyed_step (base s))].
    simpl in Hgraph. rewrite <- (assoc_L (++)) in Hgraph.
    eexists. split; [exact Hgraph|]. simpl. constructor.
    + exists d. rewrite Hd, Htype, Huid, Hres. done.
    + rewrite filter_is_change_insert in Hcalls by done.
      eapply Forall2_impl; [exact Hcalls|]. intros ? ?. by apply tells_insert.
  - destruct Hrun as (b' & old_res_id & Hold & Hb' & Hrun).
    destruct (Hmigrate _ _ _ _ Hb') as [Ht Hr].
    apply IH in Hrun as (calls & Hgraph & Hcalls);
      [|by apply (well_keyed_step (base s))].
    simpl in Hgraph. rewrite <- (assoc_L (++)) in Hgraph.
    eexists. split; [exact Hgraph|]. simpl. constructor.
    + exists d. rewrite Hd, Htype, Huid, Hres. split; [done|]. by eexists.
    + rewrite filter_is_change_insert in Hcalls by done.
      eapply Forall2_impl; [exact Hcalls|]. intros ? ?. by apply tells_insert.
Qed.

(** X10.  When the handlers of the base class keep the two maps and the
    maps are keyed by the ids of their descriptors, a call of
    [ApplySchedulingDeltas] that returns has told the flow graph about
    every delta of the vector that is not a [NOOP], in the order of the
    vector and about nothing else: [TaskScheduled] for a [PLACE],
    [TaskEvicted] for a [PREEMPT], [TaskMigrated] for a [MIGRATE], each
    with the task and the resource that the delta names. *)
Theorem X10_apply_tells_flow_graph
    (deltas : list nat) (store : gmap nat SchedulingDelta) (s : t)
    (n : Z) (store' : gmap nat SchedulingDelta) (s' : t) :
  preserves_maps EventDrivenScheduler_HandleTaskPlacement ->
  preserves_maps EventDrivenScheduler_HandleTaskEviction ->
  preserves_maps EventDrivenScheduler_HandleTaskMigration ->
  well_keyed ResourceIDFromString (base s) ->
  ApplySchedulingDeltas deltas store s = Some (n, store', s') ->
  ∃ calls,
    flow_graph_ s' = flow_graph_ s ++ calls
    ∧ Forall2 (tells ResourceIDFromString store)
        (List.filter (is_change store) deltas) calls.
Proof.
  intros Hplace Hevict Hmigrate Hkeys Hrun.
  by eapply ApplySchedulingDeltas_from_calls.
Qed.

(** The store of deltas after the loop. *)
Lemma ApplySchedulingDeltas_from_store (deltas : list nat) :
  ∀ num_scheduled store (s : t) n store' s',
    ApplySchedulingDeltas_from deltas num_scheduled store s = Some (n, store', s') ->
    ∀ it,
      store' !! it
      = (λ d, if bool_decide (it ∈ deltas) && is_change store it
              then set_actioned true d else d) <$> store !! it.
Proof.
  induction deltas as [|it0 deltas IH]; intros num store s n store' s' Hrun it.
  { injection Hrun as <- <- <-.
    rewrite bool_decide_eq_false_2 by apply not_elem_of_nil.
    by destruct (store !! it). }
  apply loop_step in Hrun as (d & td & rs & Hd & _ & _ & Hrun).
  assert (Hchange : is_change store it0 = bool_decide (delta_type d ≠ NOOP))
    by (unfold is_change; by rewrite Hd).
  assert (Hstep : ∀ num1 s1,
            delta_type d ≠ NOOP ->
            ApplySchedulingDeltas_from deltas num1
              (<[it0 := set_actioned true d]> store) s1 = Some (n, store', s') ->
            store' !! it
            = (λ d, if bool_decide (it ∈ it0 :: deltas) && is_change store it
                    then set_actioned true d else d) <$> store !! it).
  { intros num1 s1 Htype Hrun1. rewrite (IH _ _ _ _ _ _ Hrun1 it).
    rewrite is_change_insert by done.
    destruct (decide (it = it0)) as [->|Hne].
    - rewrite lookup_insert_eq, Hd, Hchange. simpl.
      rewrite (bool_decide_eq_true_2 (it0 ∈ it0 :: deltas)) by left.
      rewrite (bool_decide_eq_true_2 (delta_type d ≠ NOOP)) by done.
      simpl. destruct (bool_decide (it0 ∈ deltas)); reflexivity.
    - rewrite lookup_insert_ne by done.
      rewrite (bool_decide_ext (it ∈ it0 :: deltas) (it ∈ deltas)); [done|].
      rewrite elem_of_cons. split; [by intros [?|?]|by right]. }
  destruct (delta_type d) eqn:Htype.
  - rewrite (IH _ _ _ _ _ _ Hrun it).
    destruct (decide (it = it0)) as [->|Hne].
    + rewrite Hchange, Hd. simpl. by rewrite !andb_false_r.
    + rewrite (bool_decide_ext (it ∈ it0 :: deltas) (it ∈ deltas)); [done|].
      rewrite elem_of_cons. split; [by intros [?|?]|by right].
  - destruct Hrun as (b' & _ & Hrun). by eapply Hstep.
  - destruct Hrun as (b' & _ & Hrun). by eapply Hstep.
  - destruct Hrun as (b' & old_res_id & _ & _ & Hrun). by eapply Hstep.
Qed.

(** X11.  When [ApplySchedulingDeltas] returns, the store of deltas is
    the one before the call with [actioned] set on the deltas that the
    vector points to and that are not a [NOOP]: a [NOOP] delta, a delta
    that the vector does not point to and every other field of a delta
    are as they were, and no delta is created or removed. *)
Theorem X11_apply_sets_actioned_only
    (deltas : list nat) (store : gmap nat SchedulingDelta) (s : t)
    (n : Z) (store' : gmap nat SchedulingDelta) (s' : t) (it : nat) :
  ApplySchedulingDeltas deltas store s = Some (n, store', s') ->
  store' !! it
  = (λ d, if bool_decide (it ∈ deltas) && is_change store it
          then set_actioned true d else d) <$> store !! it.
Proof. intros Hrun. by eapply ApplySchedulingDeltas_from_store. Qed.

Lemma names_unknown_step b b' d :
  task_map_ b' = task_map_ b -> resource_map_ b' = resource_map_ b ->
  names_unknown ResourceIDFromString b d ->
  names_unknown ResourceIDFromString b' d.
Proof. unfold names_unknown. by intros -> ->. Qed.

Lemma ApplySchedulingDeltas_from_unknown (deltas : list nat) :
  preserves_maps EventDrivenScheduler_HandleTaskPlacement ->
  preserves_maps EventDrivenScheduler_HandleTaskEviction ->
  preserves_maps EventDrivenScheduler_HandleTaskMigration ->
  ∀ num_scheduled store (s : t) it d,
    it ∈ deltas -> store !! it = Some d ->
    names_unknown ResourceIDFromString (base s) d ->
    ApplySchedulingDeltas_from deltas num_scheduled store s = None.
Proof.
  intros Hplace Hevict Hmigrate.
  induction deltas as [|it0 deltas IH]; intros num store s it d Hin Hd Hunknown.
  { by apply elem_of_nil in Hin. }
  destruct (ApplySchedulingDeltas_from (it0 :: deltas) num store s)
    as [r|] eqn:Hrun; [exfalso|done].
  apply loop_step in Hrun as (d0 & td & rs & Hd0 & Htd & Hrs & Hrun).
  apply elem_of_cons in Hin as [->|Hin].
  { rewrite Hd in Hd0. injection Hd0 as <-.
    destruct Hunknown as [Hnone|Hnone]; congruence. }
  assert (Hnext : ∀ b' num1 c,
            task_map_ b' = task_map_ (base s) ->
            resource_map_ b' = resource_map_ (base s) ->
            ApplySchedulingDeltas_from deltas num1
              (<[it0 := set_actioned true d0]> store)
              (call_flow_graph (with_base s b') c) = Some r -> False).
  { intros b' num1 c Ht Hr Hrun1.
    destruct (decide (it0 = it)) as [->|Hne].
    - rewrite Hd in Hd0. injection Hd0 as <-.
      rewrite (IH num1 _ _ it (set_actioned true d)) in Hrun1;
        [done|done|by rewrite lookup_insert_eq|].
      by apply (names_unknown_step (base s)).
    - rewrite (IH num1 _ _ it d) in Hrun1;
        [done|done|by rewrite lookup_insert_ne|].
      by apply (names_unknown_step (base s)). }
  destruct (delta_type d0).
  - by rewrite (IH num store s it d) in Hrun.
  - destruct Hrun as (b' & Hb' & Hrun).
    destruct (Hplace _ _ _ _ Hb'). by eapply Hnext.
  - destruct Hrun as (b' & Hb' & Hrun).
    destruct (Hevict _ _ _ _ Hb'). by eapply Hnext.
  - destruct Hrun as (b' & old_res_id & _ & Hb' & Hrun).
    destruct (Hmigrate _ _ _ _ Hb'). by eapply Hnext.
Qed.

(** X12.  [ApplySchedulingDeltas] looks the task and the resource of a
    delta up, and checks both, before it tests the type of the delta.
    With handlers of the base class that keep the two maps, a vector
    with a delta that names a task or a resource that the maps do not
    have ends the process, also when that delta is a [NOOP]. *)
Theorem X12_apply_unknown_name_ends_process
    (deltas : list nat) (store : gmap nat SchedulingDelta) (s : t)
    (it : nat) (d : SchedulingDelta) :
  preserves_maps EventDrivenScheduler_HandleTaskPlacement ->
  preserves_maps EventDrivenScheduler_HandleTaskEviction ->
  preserves_maps EventDrivenScheduler_HandleTaskMigration ->
  it ∈ deltas ->
  store !! it = Some d ->
  names_unknown ResourceIDFromString (base s) d ->
  ApplySchedulingDeltas deltas store s = None.
Proof.
  intros Hplace Hevict Hmigrate Hin Hd Hunknown.
  by eapply ApplySchedulingDeltas_from_unknown.
Qed.

(** X25.  The loop of [RunSchedulingIteration] over the bindings of the
    solver ends the process unless every binding passes its sanity
    checks, and returns when all do: the two nodes exist, the source is
    a scheduled, an unscheduled or a root task node, the destination is
    a PU node, and [task_map_] and [resource_map_] have the task of the
    source and the resource of the destination. *)
Theorem X25_bindings_pass_the_sanity_checks
    (task_mappings : list (Z * Z)) (s : t) (deltas : list SchedulingDelta) :
  is_Some (bindings_to_deltas task_mappings s deltas)
  ↔ Forall (valid_binding FlowGraph_Node s) task_mappings.
Proof.
  revert deltas. induction task_mappings as [|it task_mappings IH]; intros deltas.
  { simpl. split; [constructor|by eexists]. }
  rewrite Forall_cons. cbn [FlowScheduler.bindings_to_deltas]. split.
  - intros [ds Hds].
    destruct (FlowGraph_Node (flow_graph_ s) it.1) as [src|] eqn:Hsrc;
      [|discriminate]. simpl in Hds.
    destruct (FlowGraph_Node (flow_graph_ s) it.2) as [dst|] eqn:Hdst;
      [|discriminate]. simpl in Hds.
    repeat case_guard; simpl in Hds; try discriminate.
    destruct (task_map_ (base s) !! task_id_ src) as [task|] eqn:Htask;
      [|discriminate]. simpl in Hds.
    destruct (resource_map_ (base s) !! resource_id_ dst) as [rs|] eqn:Hrs;
      [|discriminate]. simpl in Hds.
    split.
    + exists src, dst. eauto 10.
    + apply (IH (deltas ++ SolverDispatcher_NodeBindingToSchedulingDelta task
                             (rs_descriptor rs) (task_bindings_ (base s)))).
      by eexists.
  - intros [(src & dst & -> & -> & Hsrc_type & Hdst_type
             & [task Htask] & [rs Hrs]) Hrest].
    simpl. rewrite !option_guard_True by done. simpl.
    rewrite Htask. simpl. rewrite Hrs. simpl. by apply IH.
Qed.

(** X13.  The deltas that [RunSchedulingIteration] keeps after it has
    dropped the actioned ones are [NOOP] deltas that are not actioned:
    every [PLACE], [PREEMPT] and [MIGRATE] that the dispatcher derived
    has been applied when the iteration returns, so the warning "Not
    all deltas were processed" can only be about [NOOP] deltas. *)
Theorem X13_iteration_keeps_noop_deltas_only
    (cur_time : Z) (s : t) (n : Z) (remaining : list SchedulingDelta) (s' : t) :
  RunSchedulingIteration cur_time s = Some (n, remaining, s') ->
  Forall (λ d, delta_type d = NOOP ∧ delta_actioned d = false) remaining.
Proof.
  unfold FlowScheduler.RunSchedulingIteration. intros Hrun.
  destruct (SolverDispatcher_Run _ _) as [task_mappings dispatcher].
  destruct (bindings_to_deltas _ _ _) as [new_deltas|]; [|discriminate].
  simpl in Hrun.
  destruct (FlowScheduler.ApplySchedulingDeltas _ _ _ _ _ _ _ _)
    as [[[n1 store'] s1]|] eqn:Happly; [|discriminate].
  simpl in Hrun. injection Hrun as <- <- <-.
  apply Forall_forall. intros d Hin.
  apply list_elem_of_In, filter_In in Hin as [Hin Hact].
  apply list_elem_of_In, list_elem_of_omap in Hin as (it & Hit & Hd).
  rewrite (ApplySchedulingDeltas_from_store _ _ _ _ _ _ _ Happly it) in Hd.
  rewrite (bool_decide_eq_true_2 _ Hit) in Hd. unfold is_change in Hd.
  destruct (map_seq 0 new_deltas !! it) as [d0|]; [|discriminate].
  simpl in Hd. injection Hd as <-.
  destruct (delta_type d0) eqn:Htype; simpl in Hact; try discriminate.
  split; [done|]. by apply negb_true_iff.
Qed.

(** The loop of [ApplySchedulingDeltas] does not touch the time of the
    last update, and none of its calls on the flow graph updates the
    time-dependent costs. *)
Lemma ApplySchedulingDeltas_from_no_update (deltas : list nat) :
  ∀ num_scheduled store (s : t) n store' s',
    ApplySchedulingDeltas_from deltas num_scheduled store s = Some (n, store', s') ->
    last_updated_time_dependent_costs_ s' = last_updated_time_dependent_costs_ s
    ∧ ∃ calls,
        flow_graph_ s' = flow_graph_ s ++ calls
        ∧ List.filter is_cost_update calls = [].
Proof.
  induction deltas as [|it deltas IH]; intros num store s n store' s' Hrun.
  { injection Hrun as <- <- <-. split; [done|]. exists []. by rewrite app_nil_r. }
  apply loop_step in Hrun as (d & td & rs & _ & _ & _ & Hrun).
  assert (Hstep : ∀ num1 store1 b' c,
            is_cost_update c = false ->
            ApplySchedulingDeltas_from deltas num1 store1
              (call_flow_graph (with_base s b') c) = Some (n, store', s') ->
            last_updated_time_dependent_costs_ s'
            = last_updated_time_dependent_costs_ s
            ∧ ∃ calls,
                flow_graph_ s' = flow_graph_ s ++ calls
                ∧ List.filter is_cost_update calls = []).
  { intros num1 store1 b' c Hc Hrun1.
    apply IH in Hrun1 as (Hlast & calls & Hgraph & Hcalls).
    split; [exact Hlast|]. exists (c :: calls). split.
    - rewrite Hgraph. simpl. by rewrite <- (assoc_L (++)).
    - simpl. by rewrite Hc. }
  destruct (delta_type d).
  - by eapply IH.
  - destruct Hrun as (b' & _ & Hrun). eapply Hstep; [|exact Hrun]. done.
  - destruct Hrun as (b' & _ & Hrun). eapply Hstep; [|exact Hrun]. done.
  - destruct Hrun as (b' & old_res_id & _ & _ & Hrun).
    eapply Hstep; [|exact Hrun]. done.
Qed.

(** What an iteration does about the time-dependent costs: when the
    guard holds on entry, one call of [UpdateTimeDependentCosts], with
    the jobs that are not finished on entry, and the time of the update
    is recorded; otherwise no such call, and the time is kept. *)
Lemma RunSchedulingIteration_update (cur_time : Z) (s : t) n remaining s' :
  RunSchedulingIteration cur_time s = Some (n, remaining, s') ->
  last_updated_time_dependent_costs_ s'
  = (if time_dependent_costs_due cur_time s then cur_time
     else last_updated_time_dependent_costs_ s)
  ∧ ∃ calls,
      flow_graph_ s' = flow_graph_ s ++ calls
      ∧ List.filter is_cost_update calls
        = if time_dependent_costs_due cur_time s
          then [UpdateTimeDependentCosts (non_finished_jobs (job_map_ (base s)))]
          else [].
Proof.
  unfold FlowScheduler.RunSchedulingIteration. intros Hrun.
  set (s0 := if SolverDispatcher_seq_num (solver_dispatcher_ s) =? 0
             then UpdateCostModelResourceStats SolverDispatcher
                    FLAGS_flow_scheduling_cost_model s
             else s) in *.
  assert (Hs0 : base s0 = base s
                ∧ last_updated_time_dependent_costs_ s0
                  = last_updated_time_dependent_costs_ s
                ∧ ∃ calls0, flow_graph_ s0 = flow_graph_ s ++ calls0
                            ∧ List.filter is_cost_update calls0 = []).
  { unfold s0, UpdateCostModelResourceStats, resource_stats_calls.
    destruct (_ =? 0); [|by repeat split; exists []; rewrite app_nil_r].
    simpl. do 2 (split; [done|]).
    destruct (_ || _); [by eexists [_; _]|by exists []; rewrite app_nil_r]. }
  destruct Hs0 as (Hbase0 & Hlast0 & calls0 & Hgraph0 & Hcalls0).
  assert (Hdue0 : time_dependent_costs_due cur_time s0
                  = time_dependent_costs_due cur_time s)
    by (unfold FlowScheduler.time_dependent_costs_due; by rewrite Hlast0).
  set (s1 := revisit_time_dependent_costs cur_time s0) in *.
  assert (Hs1 : last_updated_time_dependent_costs_ s1
                = (if time_dependent_costs_due cur_time s then cur_time
                   else last_updated_time_dependent_costs_ s)
                ∧ ∃ calls1,
                    flow_graph_ s1 = flow_graph_ s ++ calls1
                    ∧ List.filter is_cost_update calls1
                      = if time_dependent_costs_due cur_time s
                        then [UpdateTimeDependentCosts
                                (non_finished_jobs (job_map_ (base s)))]
                        else []).
  { unfold s1, FlowScheduler.revisit_time_dependent_costs. rewrite Hdue0.
    destruct (time_dependent_costs_due cur_time s); simpl.
    - split; [done|]. eexists. rewrite Hgraph0, Hbase0, <- (assoc_L (++)).
      split; [reflexivity|]. by rewrite List.filter_app, Hcalls0.
    - split; [done|]. by exists calls0. }
  destruct Hs1 as (Hlast1 & calls1 & Hgraph1 & Hcalls1).
  destruct (SolverDispatcher_Run _ _) as [task_mappings dispatcher].
  destruct (bindings_to_deltas _ _ _) as [new_deltas|]; [|discriminate].
  simpl in Hrun.
  destruct (FlowScheduler.ApplySchedulingDeltas _ _ _ _ _ _ _ _)
    as [[[n1 store'] s2]|] eqn:Happly; [|discriminate].
  simpl in Hrun. injection Hrun as <- <- <-.
  apply ApplySchedulingDeltas_from_no_update in Happly
    as (Hlast2 & calls2 & Hgraph2 & Hcalls2).
  simpl in Hlast2, Hgraph2.
  unfold UpdateCostModelResourceStats, resource_stats_calls. simpl.
  split; [by rewrite Hlast2|].
  rewrite Hgraph2, Hgraph1.
  destruct (_ || _).
  - exists (calls1 ++ calls2
            ++ [ComputeTopologyStatistics_PrepareStats_GatherStats;
                ComputeTopologyStatistics_UpdateStats]).
    split; [by rewrite <- !(assoc_L (++))|].
    rewrite !List.filter_app, Hcalls1, Hcalls2. simpl. by rewrite app_nil_r.
  - exists (calls1 ++ calls2).
    split; [by rewrite <- !(assoc_L (++))|].
    rewrite List.filter_app, Hcalls1, Hcalls2. by rewrite app_nil_r.
Qed.

(** X14.  Two iterations of the scheduler, the first at [t1] and the
    next at [t2], once the clock has passed the update frequency (so
    that the subtraction of the guard does not wrap) and with a first
    iteration whose update is due.  The first iteration calls
    [UpdateTimeDependentCosts] once, with the jobs that are not finished
    when it starts, and records [t1]; the second calls it, once, exactly
    when [t2 >= t1 + frequency], with the jobs that are not finished
    when the second iteration starts (the handlers of the first may
    have finished jobs), and records [t2] then.  No other call of the
    two iterations updates the time-dependent costs. *)
Theorem X14_one_update_per_period
    (t1 t2 : Z) (s : t) (n1 : Z) (remaining1 : list SchedulingDelta) (s1 : t)
    (n2 : Z) (remaining2 : list SchedulingDelta) (s2 : t) :
  0 <= FLAGS_time_dependent_cost_update_frequency <= t1 ->
  t1 <= t2 < 2 ^ 64 ->
  0 <= last_updated_time_dependent_costs_ s
    <= t1 - FLAGS_time_dependent_cost_update_frequency ->
  RunSchedulingIteration t1 s = Some (n1, remaining1, s1) ->
  RunSchedulingIteration t2 s1 = Some (n2, remaining2, s2) ->
  ∃ calls1 calls2,
    flow_graph_ s1 = flow_graph_ s ++ calls1
    ∧ List.filter is_cost_update calls1
      = [UpdateTimeDependentCosts (non_finished_jobs (job_map_ (base s)))]
    ∧ last_updated_time_dependent_costs_ s1 = t1
    ∧ flow_graph_ s2 = flow_graph_ s1 ++ calls2
    ∧ List.filter is_cost_update calls2
      = (if decide (t1 + FLAGS_time_dependent_cost_update_frequency <= t2)
         then [UpdateTimeDependentCosts (non_finished_jobs (job_map_ (base s1)))]
         else [])
    ∧ last_updated_time_dependent_costs_ s2
      = (if decide (t1 + FLAGS_time_dependent_cost_update_frequency <= t2)
         then t2 else t1).
Proof.
  intros Hfreq Ht Hlast Hrun1 Hrun2.
  apply RunSchedulingIteration_update in Hrun1 as (Hlast1 & calls1 & Hg1 & Hc1).
  apply RunSchedulingIteration_update in Hrun2 as (Hlast2 & calls2 & Hg2 & Hc2).
  assert (Hdue1 : time_dependent_costs_due t1 s = true).
  { unfold FlowScheduler.time_dependent_costs_due. apply bool_decide_eq_true.
    rewrite (uint64_small FLAGS_time_dependent_cost_update_frequency) by lia.
    rewrite uint64_small by lia. lia. }
  rewrite Hdue1 in Hlast1, Hc1.
  assert (Hdue2 : time_dependent_costs_due t2 s1
                  = bool_decide (t1 + FLAGS_time_dependent_cost_update_frequency
                                 <= t2)).
  { unfold FlowScheduler.time_dependent_costs_due. rewrite Hlast1.
    rewrite (uint64_small FLAGS_time_dependent_cost_update_frequency) by lia.
    rewrite uint64_small by lia. apply bool_decide_ext. lia. }
  rewrite Hdue2, Hlast1 in Hlast2. rewrite Hdue2 in Hc2.
  exists calls1, calls2. do 4 (split; [done|]).
  by destruct (decide (t1 + FLAGS_time_dependent_cost_update_frequency <= t2));
    [rewrite bool_decide_eq_true_2 in Hlast2, Hc2 by done
    |rewrite bool_decide_eq_false_2 in Hlast2, Hc2 by done].
Qed.

End Facts.

Lemma select_cost_model_stats (flag : Z) (cost_model : CostModel) :
  select_cost_model flag = Some cost_model ->
  (flag =? CostModelType_value COST_MODEL_COCO)
  || (flag =? CostModelType_value COST_MODEL_OCTOPUS)
  || (flag =? CostModelType_value COST_MODEL_WHARE)
  = uses_resource_stats cost_model.
Proof.
  unfold select_cost_model. simpl. intros H.
  repeat match type of H with
         | context [flag =? ?k] =>
             destruct (Z.eqb_spec flag k) as [->|?];
             [injection H as <-; reflexivity|]
         end.
  discriminate.
Qed.

(** X15.  The scheduler that the constructor makes has the base class
    that it was given, has never updated the time-dependent costs, and
    has made its first calls on the flow graph: [AddResourceTopology]
    when the new graph has one node and [AddMachine] otherwise, then
    the two computations of the topology statistics exactly when the
    cost model that it selected is Whare-Map, CoCo or Octopus.  The
    dispatcher is made from the graph after these calls. *)
Theorem X15_constructor_first_calls
    (SolverDispatcher : Type) (FLAGS_flow_scheduling_cost_model : Z)
    (FlowGraph_NumNodes : list FlowGraphCall -> Z)
    (SolverDispatcher_new : list FlowGraphCall -> SolverDispatcher)
    (b : EventDrivenScheduler) (s : FlowScheduler.t SolverDispatcher) :
  FlowScheduler SolverDispatcher FLAGS_flow_scheduling_cost_model
    FlowGraph_NumNodes SolverDispatcher_new b = Some s ->
  base s = b
  ∧ last_updated_time_dependent_costs_ s = 0
  ∧ flow_graph_ s
    = (if FlowGraph_NumNodes [] =? 1 then AddResourceTopology else AddMachine)
      :: (if uses_resource_stats (cost_model_ s)
          then [ComputeTopologyStatistics_PrepareStats_GatherStats;
                ComputeTopologyStatistics_UpdateStats]
          else [])
  ∧ solver_dispatcher_ s = SolverDispatcher_new (flow_graph_ s).
Proof.
  unfold FlowScheduler. intros Hnew.
  destruct (select_cost_model _) as [cost_model|] eqn:Hmodel; [|discriminate].
  simpl in Hnew. injection Hnew as <-. simpl.
  do 2 (split; [done|]). split; [|done].
  unfold resource_topology_calls, resource_stats_calls.
  rewrite (select_cost_model_stats _ _ Hmodel).
  by destruct (FlowGraph_NumNodes [] =? 1), (uses_resource_stats cost_model).
Qed.

Lemma preserves_maps_bind : preserves_maps bind.
Proof. intros td rd b b' [= <-]. by split. Qed.

Lemma preserves_maps_unbind : preserves_maps unbind.
Proof. intros td rd b b' [= <-]. by split. Qed.

Lemma X10_apply_tells_flow_graph_witness :
  ∃ calls,
    flow_graph_ after_four_deltas.2 = calls
    ∧ Forall2 (tells resource_id_of_string four_deltas) [0; 2; 3]%nat calls.
Proof.
  apply (X10_apply_tells_flow_graph unit resource_id_of_string bind unbind bind
           [0; 1; 2; 3]%nat four_deltas small_scheduler
           after_four_deltas.1.1 after_four_deltas.1.2 after_four_deltas.2).
  - exact preserves_maps_bind.
  - exact preserves_maps_unbind.
  - exact preserves_maps_bind.
  - apply (bool_decide_unpack _). vm_compute. reflexivity.
  - vm_compute. reflexivity.
Defined.

Lemma X11_apply_sets_actioned_only_witness :
  after_four_deltas.1.2 !! 1%nat = four_deltas !! 1%nat
  ∧ after_four_deltas.1.2 !! 2%nat = set_actioned true <$> four_deltas !! 2%nat.
Proof.
  split.
  - rewrite (X11_apply_sets_actioned_only unit resource_id_of_string bind unbind
               bind [0; 1; 2; 3]%nat four_deltas small_scheduler
               after_four_deltas.1.1 after_four_deltas.1.2 after_four_deltas.2
               1%nat); vm_compute; reflexivity.
  - rewrite (X11_apply_sets_actioned_only unit resource_id_of_string bind unbind
               bind [0; 1; 2; 3]%nat four_deltas small_scheduler
               after_four_deltas.1.1 after_four_deltas.1.2 after_four_deltas.2
               2%nat); vm_compute; reflexivity.
Defined.

Lemma X12_apply_unknown_name_ends_process_witness :
  FlowScheduler.ApplySchedulingDeltas unit resource_id_of_string bind unbind bind
    [0; 4; 3]%nat deltas_with_unknown_task small_scheduler
  = None.
Proof.
  apply (X12_apply_unknown_name_ends_process unit resource_id_of_string
           bind unbind bind [0; 4; 3]%nat deltas_with_unknown_task
           small_scheduler 4%nat
           {| delta_type := NOOP; delta_task_id := 9;
              delta_resource_id := "r"; delta_actioned := false |}).
  - exact preserves_maps_bind.
  - exact preserves_maps_unbind.
  - exact preserves_maps_bind.
  - by repeat constructor.
  - vm_compute. reflexivity.
  - left. vm_compute. reflexivity.
Defined.

Lemma X13_iteration_keeps_noop_deltas_only_witness :
  after_one_iteration.1.1 = 1
  ∧ length after_one_iteration.1.2 = 1%nat
  ∧ Forall (λ d, delta_type d = NOOP ∧ delta_actioned d = false)
      after_one_iteration.1.2.
Proof.
  split; [vm_compute; reflexivity|]. split; [vm_compute; reflexivity|].
  apply (X13_iteration_keeps_noop_deltas_only unit resource_id_of_string
           bind unbind bind 0 100 graph_with_one_pu (λ _, 0) run_binds_1_to_100
           place_and_noop 150 small_scheduler
           after_one_iteration.1.1 after_one_iteration.1.2 after_one_iteration.2).
  vm_compute. reflexivity.
Defined.

Lemma preserves_maps_bind_and_complete_job_10 :
  preserves_maps bind_and_complete_job_10.
Proof. intros td rd b b' [= <-]. by split. Qed.

Lemma X14_one_update_per_period_witness :
  ∃ calls1 calls2,
    flow_graph_ after_first_iteration.2 = calls1
    ∧ List.filter is_cost_update calls1 = [UpdateTimeDependentCosts [10]]
    ∧ flow_graph_ after_second_iteration.2
      = flow_graph_ after_first_iteration.2 ++ calls2
    ∧ List.filter is_cost_update calls2 = [UpdateTimeDependentCosts []]
    ∧ last_updated_time_dependent_costs_ after_second_iteration.2 = 250.
Proof.
  destruct (X14_one_update_per_period unit resource_id_of_string
              bind_and_complete_job_10 unbind bind 0 100 graph_with_one_pu
              (λ _, 0) run_binds_1_to_100 place_and_noop 150 250 small_scheduler
              after_first_iteration.1.1 after_first_iteration.1.2
              after_first_iteration.2
              after_second_iteration.1.1 after_second_iteration.1.2
              after_second_iteration.2)
    as (calls1 & calls2 & Hg1 & Hc1 & _ & Hg2 & Hc2 & Hlast2).
  - lia.
  - lia.
  - simpl. lia.
  - vm_compute. reflexivity.
  - vm_compute. reflexivity.
  - exists calls1, calls2. repeat split; assumption.
Defined.

Lemma X15_constructor_first_calls_witness :
  cost_model_ coco_scheduler = CocoCostModel
  ∧ flow_graph_ coco_scheduler
    = [AddResourceTopology; ComputeTopologyStatistics_PrepareStats_GatherStats;
       ComputeTopologyStatistics_UpdateStats].
Proof.
  split; [reflexivity|].
  destruct (X15_constructor_first_calls unit
              (CostModelType_value COST_MODEL_COCO) (λ _, 1) (λ _, ())
              small_cluster coco_scheduler) as (_ & _ & Hgraph & _);
    [reflexivity|exact Hgraph].
Defined.

End FlowSchedulerMoreFacts.

(** ** The Quincy scheduler *)

Module QuincySchedulerFacts.
Import QuincyScheduler QuincyProps.

Section Facts.

Variable ResourceIDFromString : string -> Z.
Variable JobIDFromString : string -> Z.
Variable EventDrivenScheduler_BindTaskToResource :
  TaskDescriptor -> FlowScheduler.ResourceDescriptor -> EventDrivenScheduler ->
  option EventDrivenScheduler.

#[local] Abbreviation ApplySchedulingDeltas_from :=
  (QuincyScheduler.ApplySchedulingDeltas_from ResourceIDFromString JobIDFromString
     EventDrivenScheduler_BindTaskToResource).
#[local] Abbreviation ApplySchedulingDeltas :=
  (QuincyScheduler.ApplySchedulingDeltas ResourceIDFromString JobIDFromString
     EventDrivenScheduler_BindTaskToResource).

Lemma is_place_insert store it d it' :
  store !! it = Some d ->
  Spec.is_place (<[it := FlowScheduler.set_actioned true d]> store) it'
  = Spec.is_place store it'.
Proof.
  intros Hd. unfold Spec.is_place. destruct (decide (it = it')) as [<-|Hne].
  - by rewrite lookup_insert_eq, Hd.
  - by rewrite lookup_insert_ne.
Qed.

Lemma placement_call_insert store it d it' :
  store !! it = Some d ->
  placement_call ResourceIDFromString
    (<[it := FlowScheduler.set_actioned true d]> store) it'
  = placement_call ResourceIDFromString store it'.
Proof.
  intros Hd. unfold placement_call. destruct (decide (it = it')) as [<-|Hne].
  - by rewrite lookup_insert_eq, Hd.
  - by rewrite lookup_insert_ne.
Qed.

Lemma placement_calls_insert store it d (deltas : list nat) :
  store !! it = Some d ->
  omap (placement_call ResourceIDFromString
          (<[it := FlowScheduler.set_actioned true d]> store)) deltas
  = omap (placement_call ResourceIDFromString store) deltas.
Proof.
  intros Hd. induction deltas as [|it' deltas IH]; [done|].
  cbn [omap list_omap]. by rewrite IH, placement_call_insert.
Qed.

Lemma ApplySchedulingDeltas_from_places (deltas : list nat) :
  ∀ num_scheduled store s n store' s',
    ApplySchedulingDeltas_from deltas num_scheduled store s = Some (n, store', s') ->
    flow_graph_ s'
    = flow_graph_ s ++ omap (placement_call ResourceIDFromString store) deltas
    ∧ ∀ it,
        store' !! it
        = (λ d, if bool_decide (it ∈ deltas) && Spec.is_place store it
                then FlowScheduler.set_actioned true d else d) <$> store !! it.
Proof.
  induction deltas as [|it0 deltas IH]; intros num store s n store' s' Hrun.
  { injection Hrun as <- <- <-. rewrite app_nil_r. split; [done|]. intros it.
    rewrite bool_decide_eq_false_2 by apply not_elem_of_nil.
    by destruct (store !! it). }
  cbn [QuincyScheduler.ApplySchedulingDeltas_from] in Hrun.
  destruct (store !! it0) as [d|] eqn:Hd; [|discriminate]. simpl in Hrun.
  assert (Hplace : Spec.is_place store it0
                   = bool_decide (FlowScheduler.delta_type d = FlowScheduler.PLACE))
    by (unfold Spec.is_place; by rewrite Hd).
  cbn [omap list_omap]. unfold placement_call at 1. rewrite Hd. simpl.
  destruct (decide (FlowScheduler.delta_type d = FlowScheduler.PLACE))
    as [Htype|Htype].
  - destruct (task_map_ (base s) !! _) as [td|]; [|discriminate]. simpl in Hrun.
    destruct (resource_map_ (base s) !! _) as [rs|]; [|discriminate].
    simpl in Hrun.
    destruct (EventDrivenScheduler_BindTaskToResource _ _ _) as [b|];
      [|discriminate].
    simpl in Hrun.
    destruct (job_map_ b !! _) as [jd|]; [|discriminate]. simpl in Hrun.
    apply IH in Hrun as [Hgraph Hstore]. simpl in Hgraph. split.
    + rewrite Hgraph, <- (assoc_L (++)). simpl.
      by rewrite placement_calls_insert.
    + intros it. rewrite Hstore, is_place_insert by done.
      destruct (decide (it = it0)) as [->|Hne].
      * rewrite lookup_insert_eq, Hd, Hplace. simpl.
        rewrite (bool_decide_eq_true_2 (it0 ∈ it0 :: deltas)) by left.
        rewrite (bool_decide_eq_true_2
                   (FlowScheduler.delta_type d = FlowScheduler.PLACE)) by done.
        simpl.
        destruct (bool_decide (it0 ∈ deltas)); reflexivity.
      * rewrite lookup_insert_ne by done.
        rewrite (bool_decide_ext (it ∈ it0 :: deltas) (it ∈ deltas)); [done|].
        rewrite elem_of_cons. split; [by intros [?|?]|by right].
  - apply IH in Hrun as [Hgraph Hstore]. split; [done|].
    intros it. rewrite Hstore. destruct (decide (it = it0)) as [->|Hne].
    + rewrite Hplace, Hd. simpl.
      rewrite (bool_decide_eq_false_2
                 (FlowScheduler.delta_type d = FlowScheduler.PLACE)) by done.
      by rewrite !andb_false_r.
    + rewrite (bool_decide_ext (it ∈ it0 :: deltas) (it ∈ deltas)); [done|].
      rewrite elem_of_cons. split; [by intros [?|?]|by right].
Qed.

(** X16.  The Quincy scheduler applies placements only ("this disables
    preemption and migration").  When its [ApplySchedulingDeltas]
    returns, the flow graph has been told [TaskScheduled], with the task
    and the resource of the delta, for each [PLACE] of the vector in the
    order of the vector and nothing else, and [actioned] is set on these
    deltas only: a [PREEMPT] or a [MIGRATE] is neither applied nor
    actioned, and the rest of the store is as it was. *)
Theorem X16_quincy_applies_placements_only
    (deltas : list nat) (store : gmap nat FlowScheduler.SchedulingDelta) (s : t)
    (n : Z) (store' : gmap nat FlowScheduler.SchedulingDelta) (s' : t) :
  ApplySchedulingDeltas deltas store s = Some (n, store', s') ->
  flow_graph_ s'
  = flow_graph_ s ++ omap (placement_call ResourceIDFromString store) deltas
  ∧ ∀ it,
      store' !! it
      = (λ d, if bool_decide (it ∈ deltas) && Spec.is_place store it
              then FlowScheduler.set_actioned true d else d) <$> store !! it.
Proof. intros Hrun. by eapply ApplySchedulingDeltas_from_places. Qed.

End Facts.

Lemma X16_quincy_applies_placements_only_witness :
  flow_graph_ after_four_deltas.2
  = [FlowScheduler.TaskScheduled 1 1; FlowScheduler.TaskScheduled 2 2]
  ∧ after_four_deltas.1.2 !! 2%nat = Spec.four_deltas !! 2%nat.
Proof.
  destruct (X16_quincy_applies_placements_only Spec.resource_id_of_string
              Spec.resource_id_of_string bind [0; 1; 2; 3]%nat Spec.four_deltas
              small_scheduler after_four_deltas.1.1 after_four_deltas.1.2
              after_four_deltas.2) as [Hgraph Hstore].
  - vm_compute. reflexivity.
  - split; [exact Hgraph|]. rewrite Hstore. vm_compute. reflexivity.
Defined.

End QuincySchedulerFacts.

(** ** The simulated Quincy cost model *)

Module SimulatedQuincyFacts.
Import SimulatedQuincyCostModel Spec.

(** *** Sums of blocks *)

Section BlockSums.

Variable num_blocks_of : Z -> Z.
Variable machines_of : Z -> gset Z.
Variable rack_of : Z -> Z.
Hypothesis num_blocks_nonneg : ∀ file_id, 0 <= num_blocks_of file_id.

#[local] Abbreviation blocks_where := (Spec.blocks_where num_blocks_of).
#[local] Abbreviation total_blocks := (Spec.total_blocks num_blocks_of).
#[local] Abbreviation local_blocks := (Spec.local_blocks num_blocks_of machines_of).
#[local] Abbreviation rack_blocks :=
  (Spec.rack_blocks num_blocks_of machines_of rack_of).

Lemma blocks_where_app P files1 files2 :
  blocks_where P (files1 ++ files2)
  = blocks_where P files1 + blocks_where P files2.
Proof.
  unfold Spec.blocks_where. induction files1 as [|f files1 IH]; simpl; [lia|].
  rewrite IH. lia.
Qed.

Lemma blocks_where_snoc P files file_id :
  blocks_where P (files ++ [file_id])
  = blocks_where P files + (if P file_id then num_blocks_of file_id else 0).
Proof. rewrite blocks_where_app. unfold Spec.blocks_where. simpl. lia. Qed.

Lemma blocks_where_nonneg P files : 0 <= blocks_where P files.
Proof.
  unfold Spec.blocks_where. induction files as [|f files IH]; simpl; [lia|].
  specialize (num_blocks_nonneg f). destruct (P f); lia.
Qed.

Lemma blocks_where_mono (P Q : Z -> bool) files :
  (∀ file_id, P file_id = true -> Q file_id = true) ->
  blocks_where P files <= blocks_where Q files.
Proof.
  intros HPQ. unfold Spec.blocks_where.
  induction files as [|f files IH]; simpl; [lia|].
  specialize (num_blocks_nonneg f). specialize (HPQ f).
  destruct (P f), (Q f); try lia; by specialize (HPQ eq_refl).
Qed.

Lemma blocks_where_none P files :
  existsb P files = false -> blocks_where P files = 0.
Proof.
  unfold Spec.blocks_where. induction files as [|f files IH]; simpl; [done|].
  intros [-> Hfiles]%orb_false_iff. rewrite IH by done. lia.
Qed.

Lemma holds_machine_rack m file_id :
  holds_machine machines_of m file_id = true ->
  holds_rack machines_of rack_of (rack_of m) file_id = true.
Proof.
  unfold holds_machine, holds_rack. intros Hm%bool_decide_eq_true.
  apply existsb_exists. exists m. split.
  - by apply list_elem_of_In, elem_of_elements.
  - by apply bool_decide_eq_true.
Qed.

Lemma holds_rack_spec r file_id :
  holds_rack machines_of rack_of r file_id = true
  ↔ ∃ m, m ∈ machines_of file_id ∧ rack_of m = r.
Proof.
  unfold holds_rack. rewrite existsb_exists. split.
  - intros (m & Hin%list_elem_of_In%elem_of_elements & Hr%bool_decide_eq_true).
    eauto.
  - intros (m & Hin & Hr). exists m. split.
    + by apply list_elem_of_In, elem_of_elements.
    + by apply bool_decide_eq_true.
Qed.

Lemma local_le_rack m files :
  local_blocks m files <= rack_blocks (rack_of m) files.
Proof. apply blocks_where_mono. intros f. apply holds_machine_rack. Qed.

Lemma rack_le_total r files : rack_blocks r files <= total_blocks files.
Proof. by apply blocks_where_mono. Qed.

Lemma local_le_total m files : local_blocks m files <= total_blocks files.
Proof. by apply blocks_where_mono. Qed.

Lemma total_blocks_prefix_le files rest :
  total_blocks files <= total_blocks (files ++ rest).
Proof.
  unfold Spec.total_blocks. rewrite blocks_where_app.
  pose proof (blocks_where_nonneg (λ _, true) rest). lia.
Qed.

End BlockSums.

(** *** The first loop of [ComputeCostsAndPreferredSet] *)

Section Frequencies.

Variable SimulatedDFS : Type.
Variable SimulatedDFS_GetNumBlocks : SimulatedDFS -> Z -> Z.
Variable SimulatedDFS_GetMachines : SimulatedDFS -> Z -> gset Z.
Variable NumBlocks_bits Frequency_bits : Z.
Variable filesystem : SimulatedDFS.
Variable machine_to_rack_map : gmap Z Z.

(** The blocks of a file, the machines that hold it and the rack of a
    machine, as the loop reads them. *)
#[local] Abbreviation num_blocks_of :=
  (file_blocks SimulatedDFS_GetNumBlocks NumBlocks_bits filesystem).
#[local] Abbreviation machines_of := (SimulatedDFS_GetMachines filesystem).
#[local] Abbreviation rack_of := (machine_rack machine_to_rack_map).
#[local] Abbreviation total_blocks := (Spec.total_blocks num_blocks_of).
#[local] Abbreviation local_blocks := (Spec.local_blocks num_blocks_of machines_of).
#[local] Abbreviation rack_blocks :=
  (Spec.rack_blocks num_blocks_of machines_of rack_of).
#[local] Abbreviation fit := (blocks_fit NumBlocks_bits Frequency_bits).
#[local] Abbreviation count_file :=
  (SimulatedQuincyCostModel.count_file SimulatedDFS_GetNumBlocks
     SimulatedDFS_GetMachines NumBlocks_bits Frequency_bits).

Lemma fit_bits x : fit x -> 0 <= NumBlocks_bits ∧ 0 <= Frequency_bits.
Proof.
  intros (Hx & Hn & Hf). split.
  - destruct (Z.neg_nonneg_cases NumBlocks_bits) as [Hneg|]; [|done].
    rewrite Z.pow_neg_r in Hn by done. lia.
  - destruct (Z.neg_nonneg_cases Frequency_bits) as [Hneg|]; [|done].
    rewrite Z.pow_neg_r in Hf by done. lia.
Qed.

Lemma fit_le x y : 0 <= x <= y -> fit y -> fit x.
Proof. unfold blocks_fit. lia. Qed.

Lemma num_blocks_of_nonneg file_id : 0 <= NumBlocks_bits -> 0 <= num_blocks_of file_id.
Proof. intros Hb. by apply wrap_range. Qed.

(** What the counters hold after an addition that fits. *)
Lemma machine_counter_fits (o : option Z) x nb :
  default 0 o = x -> 0 <= x -> 0 <= nb -> fit (x + nb) ->
  wrap Frequency_bits
    (wrap (Z.max 32 NumBlocks_bits) (uint32 (default 0 o) + nb)) = x + nb.
Proof.
  intros <- Hx Hnb ([_ H32] & Hn & Hf). unfold uint32.
  assert (default 0 o + nb < 2 ^ Z.max 32 NumBlocks_bits).
  { eapply Z.lt_le_trans; [apply H32|]. apply Z.pow_le_mono_r; lia. }
  rewrite (wrap_small 32) by lia.
  rewrite (wrap_small (Z.max 32 NumBlocks_bits)) by lia.
  apply wrap_small. lia.
Qed.

Lemma rack_counter_fits (o : option Z) x nb :
  default 0 o = x -> 0 <= x -> 0 <= nb -> fit (x + nb) ->
  uint64 (uint64 (default 0 o) + nb) = x + nb.
Proof.
  intros <- Hx Hnb ([_ H32] & _).
  assert (2 ^ 32 < 2 ^ 64) by reflexivity.
  unfold uint64. rewrite (wrap_small 64 (default 0 o)) by lia.
  apply wrap_small. lia.
Qed.

(** The loop over the machines of a file. *)
Lemma count_machines_fold (nb : Z) (machines : list Z) :
  ∀ machine_frequency racks m2r,
    (∀ m, FindWithDefault m2r m 0 = rack_of m) ->
    ∃ m2r',
      foldl (count_machine NumBlocks_bits Frequency_bits nb)
            (machine_frequency, racks, m2r) machines
      = (foldl (λ mf m,
                  <[m := wrap Frequency_bits
                           (wrap (Z.max 32 NumBlocks_bits)
                              (uint32 (default 0 (mf !! m)) + nb))]> mf)
               machine_frequency machines,
         list_to_set (rack_of <$> machines) ∪ racks,
         m2r')
      ∧ ∀ m, FindWithDefault m2r' m 0 = rack_of m.
Proof.
  induction machines as [|machine machines IH]; intros mf racks m2r Hm2r.
  { exists m2r. split; [|done]. simpl. by rewrite (left_id_L ∅ (∪)). }
  cbn [foldl]. unfold count_machine at 2.
  pose proof (index_or_insert_fst 0 machine m2r) as Hfst.
  pose proof (λ m, index_or_insert_snd 0 machine m m2r) as Hsnd.
  destruct (index_or_insert 0 machine m2r) as [rack m2r1]. simpl in Hfst, Hsnd.
  rewrite Hm2r in Hfst. subst rack.
  destruct (IH (<[machine := wrap Frequency_bits
                    (wrap (Z.max 32 NumBlocks_bits)
                       (uint32 (FindWithDefault mf machine 0) + nb))]> mf)
               ({[rack_of machine]} ∪ racks) m2r1) as (m2r' & -> & Hm2r').
  { intros m. by rewrite Hsnd. }
  exists m2r'. split; [|done]. f_equal. f_equal.
  rewrite fmap_cons, list_to_set_cons.
  by rewrite (assoc_L (∪)), (comm_L (∪) (list_to_set _)).
Qed.

(** The frequencies after the files [files], and the map of racks. *)
Definition counted (files : list Z) (f : frequencies) : Prop :=
  total_num_blocks f = total_blocks files
  ∧ (∀ m, machine_frequency f !! m
          = if existsb (holds_machine machines_of m) files
            then Some (local_blocks m files) else None)
  ∧ (∀ r, rack_frequency f !! r
          = if existsb (holds_rack machines_of rack_of r) files
            then Some (rack_blocks r files) else None)
  ∧ (∀ m, FindWithDefault (machine_to_rack f) m 0 = rack_of m).

Lemma counted_default_machine files f m :
  0 <= NumBlocks_bits -> counted files f ->
  default 0 (machine_frequency f !! m) = local_blocks m files.
Proof.
  intros Hb (_ & Hmf & _). rewrite Hmf.
  destruct (existsb _ files) eqn:Hex; [done|]. simpl.
  unfold Spec.local_blocks. by rewrite blocks_where_none.
Qed.

Lemma counted_default_rack files f r :
  0 <= NumBlocks_bits -> counted files f ->
  default 0 (rack_frequency f !! r) = rack_blocks r files.
Proof.
  intros Hb (_ & _ & Hrf & _). rewrite Hrf.
  destruct (existsb _ files) eqn:Hex; [done|]. simpl.
  unfold Spec.rack_blocks. by rewrite blocks_where_none.
Qed.

Lemma count_file_counted files f file_id :
  fit (total_blocks (files ++ [file_id])) ->
  counted files f ->
  counted (files ++ [file_id]) (count_file filesystem f file_id).
Proof.
  intros Hfit Hf.
  destruct (fit_bits _ Hfit) as [Hnb Hfb].
  pose proof (num_blocks_of_nonneg file_id Hnb) as Hfile.
  pose proof (λ P, blocks_where_nonneg num_blocks_of
                     (λ f, num_blocks_of_nonneg f Hnb) P files) as Hnonneg.
  assert (Htotal : total_blocks (files ++ [file_id])
                   = total_blocks files + num_blocks_of file_id)
    by (unfold Spec.total_blocks; by rewrite blocks_where_snoc).
  pose proof (counted_default_machine files f) as Hdm.
  pose proof (counted_default_rack files f) as Hdr.
  destruct Hf as (Ht & Hmf & Hrf & Hm2r).
  unfold SimulatedQuincyCostModel.count_file.
  change (NumBlocks_t NumBlocks_bits
            (SimulatedDFS_GetNumBlocks filesystem file_id))
    with (num_blocks_of file_id).
  destruct (count_machines_fold (num_blocks_of file_id)
              (elements (machines_of file_id))
              (machine_frequency f) ∅ (machine_to_rack f) Hm2r)
    as (m2r' & -> & Hm2r').
  unfold counted. cbn [total_num_blocks machine_frequency rack_frequency
                       machine_to_rack].
  split; [|split; [|split]].
  - rewrite Ht, Htotal. apply wrap_small. unfold blocks_fit in Hfit. lia.
  - intros m.
    rewrite (foldl_update_lookup
               (λ o, wrap Frequency_bits
                       (wrap (Z.max 32 NumBlocks_bits)
                          (uint32 (default 0 o) + num_blocks_of file_id))))
      by (done || apply NoDup_elements).
    rewrite existsb_app. cbn [existsb]. rewrite orb_false_r.
    unfold Spec.local_blocks. rewrite blocks_where_snoc.
    fold (local_blocks m files).
    unfold holds_machine at 2 3.
    destruct (decide (m ∈ elements (machines_of file_id))) as [Hin|Hnin].
    + rewrite bool_decide_eq_true_2 by by apply elem_of_elements.
      rewrite orb_true_r. f_equal.
      apply machine_counter_fits; [by apply Hdm|apply Hnonneg|done|].
      eapply fit_le; [|exact Hfit]. rewrite Htotal.
      pose proof (local_le_total num_blocks_of machines_of
                    (λ f, num_blocks_of_nonneg f Hnb) m files).
      specialize (Hnonneg (holds_machine machines_of m)).
      unfold Spec.local_blocks in *. lia.
    + rewrite bool_decide_eq_false_2 by by rewrite <- elem_of_elements.
      rewrite orb_false_r, Z.add_0_r. apply Hmf.
  - intros r.
    rewrite (foldl_update_lookup
               (λ o, uint64 (uint64 (default 0 o) + num_blocks_of file_id)))
      by (done || apply NoDup_elements).
    rewrite existsb_app. cbn [existsb]. rewrite orb_false_r.
    unfold Spec.rack_blocks. rewrite blocks_where_snoc.
    fold (rack_blocks r files).
    destruct (decide (r ∈ elements (list_to_set (rack_of <$> elements (machines_of file_id)) ∪ (∅ : gset Z))))
      as [Hin|Hnin].
    + assert (Hr : holds_rack machines_of rack_of r file_id = true).
      { apply holds_rack_spec. apply elem_of_elements in Hin.
        rewrite elem_of_union, elem_of_list_to_set, list_elem_of_fmap in Hin.
        destruct Hin as [(m & -> & Hm)|Hin]; [|set_solver].
        exists m. split; [by apply elem_of_elements|done]. }
      rewrite Hr, orb_true_r. f_equal.
      apply rack_counter_fits; [by apply Hdr|apply Hnonneg|done|].
      eapply fit_le; [|exact Hfit]. rewrite Htotal.
      pose proof (rack_le_total num_blocks_of machines_of rack_of
                    (λ f, num_blocks_of_nonneg f Hnb) r files).
      specialize (Hnonneg (holds_rack machines_of rack_of r)).
      unfold Spec.rack_blocks in *. lia.
    + assert (Hr : holds_rack machines_of rack_of r file_id = false).
      { apply not_true_is_false. intros (m & Hm & <-)%holds_rack_spec.
        apply Hnin, elem_of_elements.
        rewrite elem_of_union, elem_of_list_to_set, list_elem_of_fmap.
        left. exists m. split; [done|by apply elem_of_elements]. }
      rewrite Hr, orb_false_r, Z.add_0_r. apply Hrf.
  - done.
Qed.

Lemma count_files_from files : ∀ done f,
  fit (total_blocks (done ++ files)) ->
  counted done f ->
  counted (done ++ files) (foldl (count_file filesystem) f files).
Proof.
  induction files as [|file_id files IH]; intros done f Hfit Hf.
  { by rewrite app_nil_r. }
  cbn [foldl]. replace (done ++ file_id :: files) with ((done ++ [file_id]) ++ files)
    in * by (by rewrite <- app_assoc).
  destruct (fit_bits _ Hfit) as [Hnb _].
  apply IH; [done|]. apply count_file_counted; [|done].
  eapply fit_le; [|exact Hfit]. split.
  - apply (blocks_where_nonneg num_blocks_of (λ f, num_blocks_of_nonneg f Hnb)).
  - apply (total_blocks_prefix_le num_blocks_of (λ f, num_blocks_of_nonneg f Hnb)).
Qed.

(** The frequencies of a set of files whose blocks fit the counters. *)
Lemma count_files_counted (file_set : gset Z) :
  fit (total_blocks (elements file_set)) ->
  counted (elements file_set)
    (count_files SimulatedDFS_GetNumBlocks SimulatedDFS_GetMachines
       NumBlocks_bits Frequency_bits filesystem machine_to_rack_map file_set).
Proof.
  intros Hfit. unfold count_files.
  refine (count_files_from (elements file_set) [] _ Hfit _).
  unfold counted. simpl. repeat split; intros; apply lookup_empty.
Qed.

End Frequencies.

(** *** Doubles *)

Lemma digits2_pos_iter_xO (p k : positive) :
  digits2_pos (Pos.iter xO p k) = (digits2_pos p + k)%positive.
Proof.
  induction k as [|k IH] using Pos.peano_ind.
  - simpl. lia.
  - rewrite Pos.iter_succ. simpl. rewrite IH. lia.
Qed.

Lemma digits2_pos_bound (p : positive) : ∀ n : Z,
  0 <= n -> Z.pos p < 2 ^ n -> Z.pos (digits2_pos p) <= n.
Proof.
  induction p as [p IH|p IH|]; intros n Hn Hp; simpl.
  - assert (n ≠ 0) by (intros ->; simpl in Hp; lia).
    replace n with (Z.succ (n - 1)) in Hp by lia.
    rewrite Z.pow_succ_r in Hp by lia.
    specialize (IH (n - 1)). lia.
  - assert (n ≠ 0) by (intros ->; simpl in Hp; lia).
    replace n with (Z.succ (n - 1)) in Hp by lia.
    rewrite Z.pow_succ_r in Hp by lia.
    specialize (IH (n - 1)). lia.
  - assert (n ≠ 0) by (intros ->; simpl in Hp; lia). lia.
Qed.

(** An integer below 2^53 is converted to a finite, positive [double]:
    its mantissa is shifted to 53 digits and nothing is rounded. *)
Lemma double_of_uint_finite (n : Z) :
  0 < n < 2 ^ 53 -> ∃ m e, double_of_uint n = S754_finite false m e.
Proof.
  intros Hn. destruct n as [|p|p]; [lia| |lia].
  pose proof (digits2_pos_bound p 53 ltac:(lia) ltac:(lia)) as Hd.
  unfold double_of_uint, binary_normalize, binary_round, shl_align.
  unfold fexp, emin, double_prec, double_emax.
  set (d := Z.pos (digits2_pos p)) in *.
  assert (Hd1 : 1 <= d) by lia.
  replace (Z.max (d + 0 - 53) (3 - 1024 - 53)) with (d - 53) by lia.
  destruct (d - 53 - 0) as [|k|k] eqn:Hk; [ |lia| ].
  - unfold binary_round_aux, shr_fexp, fexp, emin. simpl Zdigits2. fold d.
    replace (Z.max (d + 0 - 53) (3 - 1024 - 53) - 0) with 0 by lia.
    simpl. fold d.
    replace (Z.max (d + 0 - 53) (3 - 1024 - 53) - 0) with 0 by lia.
    simpl. eauto.
  - unfold binary_round_aux, shr_fexp, fexp, emin. simpl Zdigits2.
    rewrite digits2_pos_iter_xO.
    replace (Z.max (Z.pos (digits2_pos p + k) + (d - 53) - 53) (3 - 1024 - 53)
             - (d - 53)) with 0 by lia.
    simpl. rewrite digits2_pos_iter_xO.
    replace (Z.max (Z.pos (digits2_pos p + k) + (d - 53) - 53) (3 - 1024 - 53)
             - (d - 53)) with 0 by lia.
    simpl.
    destruct (d - 53 <=? 1024 - 53) eqn:Hle; [eauto|apply Z.leb_gt in Hle; lia].
Qed.

(** A finite [double] divided by itself is 1. *)
Lemma double_div_self (m : positive) (e : Z) :
  double_div (S754_finite false m e) (S754_finite false m e) = double_one.
Proof.
  unfold double_div, SFdiv, SFdiv_core_binary.
  unfold fexp, emin, double_prec, double_emax.
  replace (Zdigits2 (Z.pos m) + e - (Zdigits2 (Z.pos m) + e)) with 0 by lia.
  replace (e - e) with 0 by lia.
  change (Z.min (Z.max (0 - 53) (3 - 1024 - 53)) 0) with (-53).
  change (0 - -53) with 53.
  cbv iota beta.
  rewrite Z.shiftl_mul_pow2 by lia.
  assert (Hdiv : Z.div_eucl (Z.pos m * 2 ^ 53) (Z.pos m) = (2 ^ 53, 0)).
  { pose proof (Z.div_mul (2 ^ 53) (Z.pos m) ltac:(lia)) as Hq.
    pose proof (Z.mod_mul (2 ^ 53) (Z.pos m) ltac:(lia)) as Hr.
    rewrite (Z.mul_comm (2 ^ 53)) in Hq, Hr.
    unfold Z.div, Z.modulo in Hq, Hr.
    destruct (Z.div_eucl _ _) as [q r]. by subst. }
  rewrite Hdiv. unfold new_location.
  assert (Hloc : ∀ b : bool,
            (if b then new_location_even (Z.pos m)
             else new_location_odd (Z.pos m)) 0 = loc_Exact)
    by (by intros []).
  rewrite Hloc. reflexivity.
Qed.

Lemma proportion_of_self (n : Z) :
  0 < n < 2 ^ 53 -> proportion_of n n = double_one.
Proof.
  intros Hn. unfold proportion_of.
  destruct (double_of_uint_finite n Hn) as (m & e & ->). apply double_div_self.
Qed.

(** The proportion of no blocks is a zero or a NaN: it is not above,
    and not at, a threshold that 0 is not above, resp. at. *)
Lemma proportion_of_zero_not_ge (total : Z) (delta : spec_float) :
  double_ge (double_of_uint 0) delta = false ->
  double_ge (proportion_of 0 total) delta = false.
Proof.
  unfold proportion_of, double_div. change (double_of_uint 0) with (S754_zero false).
  destruct (double_of_uint total) as [[]| | |[]]; simpl; try done;
    by destruct delta.
Qed.

Lemma proportion_of_zero_not_gt (total : Z) (delta : spec_float) :
  double_gt (double_of_uint 0) delta = false ->
  double_gt (proportion_of 0 total) delta = false.
Proof.
  unfold proportion_of, double_div. change (double_of_uint 0) with (S754_zero false).
  destruct (double_of_uint total) as [[]| | |[]]; simpl; try done;
    by destruct delta.
Qed.

(** Sums and products of [Cost_t]. *)
Lemma int64_add (a b : Z) : int64 (int64 a + int64 b) = int64 (a + b).
Proof.
  unfold int64, wrap_signed. change (2 ^ (64 - 1)) with (2 ^ 63).
  f_equal.
  replace ((a + 2 ^ 63) mod 2 ^ 64 - 2 ^ 63
           + ((b + 2 ^ 63) mod 2 ^ 64 - 2 ^ 63) + 2 ^ 63)
    with ((a + 2 ^ 63) mod 2 ^ 64 + ((b + 2 ^ 63) mod 2 ^ 64 - 2 ^ 63)) by lia.
  rewrite Zplus_mod_idemp_l.
  replace (a + 2 ^ 63 + ((b + 2 ^ 63) mod 2 ^ 64 - 2 ^ 63))
    with ((b + 2 ^ 63) mod 2 ^ 64 + a) by lia.
  rewrite Zplus_mod_idemp_l. f_equal. lia.
Qed.

(** *** The preferences of a task *)

Section Preferences.

Variable SimulatedDFS : Type.
Variable SimulatedDFS_GetNumBlocks : SimulatedDFS -> Z -> Z.
Variable SimulatedDFS_GetMachines : SimulatedDFS -> Z -> gset Z.
Variable SimulatedDFS_SampleFiles : SimulatedDFS -> Z -> Z -> gset Z.
Variable NumBlocks_bits Frequency_bits : Z.

#[local] Abbreviation t := (SimulatedQuincyCostModel.t SimulatedDFS).
#[local] Abbreviation num_blocks_in s :=
  (file_blocks SimulatedDFS_GetNumBlocks NumBlocks_bits (filesystem_ s)).
#[local] Abbreviation machines_in s := (SimulatedDFS_GetMachines (filesystem_ s)).
#[local] Abbreviation rack_in s := (machine_rack (machine_to_rack_map_ s)).
#[local] Abbreviation total_blocks s := (Spec.total_blocks (num_blocks_in s)).
#[local] Abbreviation local_blocks s :=
  (Spec.local_blocks (num_blocks_in s) (machines_in s)).
#[local] Abbreviation rack_blocks s :=
  (Spec.rack_blocks (num_blocks_in s) (machines_in s) (rack_in s)).
#[local] Abbreviation fit := (blocks_fit NumBlocks_bits Frequency_bits).
#[local] Abbreviation ComputeCostsAndPreferredSet :=
  (SimulatedQuincyCostModel.ComputeCostsAndPreferredSet
     SimulatedDFS_GetNumBlocks SimulatedDFS_GetMachines
     NumBlocks_bits Frequency_bits).
#[local] Abbreviation AddTask :=
  (SimulatedQuincyCostModel.AddTask SimulatedDFS_GetNumBlocks
     SimulatedDFS_GetMachines SimulatedDFS_SampleFiles
     NumBlocks_bits Frequency_bits).

(** The costs, when the numbers of blocks are what they are meant to be. *)
Lemma machine_cost_fits (s : t) (total rack local : Z) :
  0 <= local <= rack -> rack <= total < 2 ^ NumBlocks_bits ->
  machine_cost NumBlocks_bits s total rack local
  = int64 (locality_machine_cost total rack local
             (core_transfer_cost_ s) (tor_transfer_cost_ s)).
Proof.
  intros Hlocal Hrack. unfold machine_cost, NumBlocks_t, locality_machine_cost.
  rewrite (wrap_small _ (rack - local)) by lia.
  rewrite (wrap_small _ (total - (rack - local))) by lia.
  rewrite wrap_small by lia. rewrite (int64_add _ _).
  f_equal. lia.
Qed.

Lemma rack_cost_fits (s : t) (total rack : Z) :
  0 <= rack <= total -> total < 2 ^ NumBlocks_bits ->
  rack_cost NumBlocks_bits s total rack
  = int64 (stated_rack_cost total rack
             (core_transfer_cost_ s) (tor_transfer_cost_ s)).
Proof.
  intros Hrack Htotal. unfold rack_cost, NumBlocks_t, stated_rack_cost.
  rewrite wrap_small by lia. apply int64_add.
Qed.

(** What the second loop inserts for a machine of frequency [v]. *)
Definition machine_preference (s : t) (total : Z) (rack_frequency : gmap Z Z)
    (machine v : Z) : option Z :=
  if double_ge (proportion_of (NumBlocks_t NumBlocks_bits v) total)
       (proportion_machine_preferred_ s)
  then Some (machine_cost NumBlocks_bits s total
               (NumBlocks_t NumBlocks_bits
                  (default 0 (rack_frequency !! rack_in s machine)))
               (NumBlocks_t NumBlocks_bits v))
  else None.

(** What the third loop inserts for a rack of frequency [v]. *)
Definition rack_preference (s : t) (total : Z) (rack v : Z) : option Z :=
  if double_gt (proportion_of (NumBlocks_t NumBlocks_bits v) total)
       (proportion_rack_preferred_ s)
  then Some (rack_cost NumBlocks_bits s total (NumBlocks_t NumBlocks_bits v))
  else None.

(** The second loop applies [operator[]] to [rack_frequency] at racks that
    are in it, and leaves it as it is. *)
Lemma prefer_machines_fold (s : t) (total : Z) (rack_frequency : gmap Z Z)
    (frequencies : list (Z * Z)) :
  (∀ freq, freq ∈ frequencies -> is_Some (rack_frequency !! rack_in s freq.1)) ->
  ∀ preferred_machines m2r,
    (∀ m, FindWithDefault m2r m 0 = rack_in s m) ->
    ∃ m2r',
      foldl (prefer_machine NumBlocks_bits s total)
            (preferred_machines, rack_frequency, m2r) frequencies
      = (foldl (λ acc freq,
                  match machine_preference s total rack_frequency freq.1 freq.2 with
                  | Some cost => <[freq.1 := cost]> acc
                  | None => acc
                  end) preferred_machines frequencies,
         rack_frequency, m2r')
      ∧ ∀ m, FindWithDefault m2r' m 0 = rack_in s m.
Proof.
  induction frequencies as [|[machine v] frequencies IH]; intros Hracks pm m2r Hm2r.
  { exists m2r. by split. }
  cbn [foldl]. unfold prefer_machine at 2, machine_preference at 2.
  cbn [fst snd].
  destruct (double_ge _ _).
  - pose proof (index_or_insert_fst 0 machine m2r) as Hfst.
    pose proof (λ m, index_or_insert_snd 0 machine m m2r) as Hsnd.
    destruct (index_or_insert 0 machine m2r) as [rack m2r1]. simpl in Hfst, Hsnd.
    rewrite Hm2r in Hfst. subst rack.
    destruct (Hracks (machine, v)) as [num_rack_blocks Hrack]; [left|].
    simpl in Hrack. rewrite (index_or_insert_present 0 num_rack_blocks) by done.
    rewrite Hrack. simpl.
    apply IH.
    + intros freq Hin. apply Hracks. by right.
    + intros m. by rewrite Hsnd.
  - apply IH; [|done]. intros freq Hin. apply Hracks. by right.
Qed.

(** The three maps of a task after [ComputeCostsAndPreferredSet], for a
    task whose files hold a number of blocks that fits the counters. *)
Lemma ComputeCostsAndPreferredSet_spec (task_id : Z) (s : t) (file_set : gset Z) :
  file_map_ s !! task_id = Some file_set ->
  fit (total_blocks s (elements file_set)) ->
  ∃ preferred_machines preferred_racks,
    preferred_machine_map_ (ComputeCostsAndPreferredSet task_id s) !! task_id
    = Some preferred_machines
    ∧ preferred_rack_map_ (ComputeCostsAndPreferredSet task_id s) !! task_id
      = Some preferred_racks
    ∧ cluster_aggregator_cost_ (ComputeCostsAndPreferredSet task_id s) !! task_id
      = Some (int64 (stated_cluster_cost (total_blocks s (elements file_set))
                       (core_transfer_cost_ s)))
    ∧ (∀ m, preferred_machines !! m
            = if double_ge (proportion_of (local_blocks s m (elements file_set))
                              (total_blocks s (elements file_set)))
                   (proportion_machine_preferred_ s)
                 && existsb (holds_machine (machines_in s) m) (elements file_set)
              then Some (int64 (locality_machine_cost
                                  (total_blocks s (elements file_set))
                                  (rack_blocks s (rack_in s m) (elements file_set))
                                  (local_blocks s m (elements file_set))
                                  (core_transfer_cost_ s) (tor_transfer_cost_ s)))
              else None)
    ∧ (∀ r, preferred_racks !! r
            = if double_gt (proportion_of (rack_blocks s r (elements file_set))
                              (total_blocks s (elements file_set)))
                   (proportion_rack_preferred_ s)
                 && existsb (holds_rack (machines_in s) (rack_in s) r)
                      (elements file_set)
              then Some (int64 (stated_rack_cost
                                  (total_blocks s (elements file_set))
                                  (rack_blocks s r (elements file_set))
                                  (core_transfer_cost_ s) (tor_transfer_cost_ s)))
              else None).
Proof.
  intros Hfiles Hfit.
  destruct (fit_bits _ _ _ Hfit) as [Hnb _].
  pose proof (λ f, num_blocks_of_nonneg SimulatedDFS SimulatedDFS_GetNumBlocks
                     NumBlocks_bits (filesystem_ s) f Hnb) as Hnonneg.
  pose proof (count_files_counted SimulatedDFS SimulatedDFS_GetNumBlocks
                SimulatedDFS_GetMachines NumBlocks_bits Frequency_bits
                (filesystem_ s) (machine_to_rack_map_ s) file_set Hfit)
    as (Htotal & Hmf & Hrf & Hm2r).
  unfold SimulatedQuincyCostModel.ComputeCostsAndPreferredSet.
  rewrite (index_or_insert_present ∅ file_set) by done.
  set (f := count_files _ _ _ _ _ _ _) in *.
  destruct (prefer_machines_fold s (total_num_blocks f) (rack_frequency f)
              (map_to_list (machine_frequency f))) with
    (preferred_machines := (∅ : gmap Z Z)) (m2r := machine_to_rack f)
    as (m2r' & -> & Hm2r'); [|done|].
  { intros [m v] Hin%elem_of_map_to_list. simpl. rewrite Hrf.
    rewrite Hmf in Hin. destruct (existsb _ _) eqn:Hex; [|done].
    apply existsb_exists in Hex as (file_id & Hfile & Hholds).
    rewrite (proj2 (existsb_exists _ _)); [done|].
    exists file_id. split; [done|]. by apply holds_machine_rack. }
  eexists _, _. cbn [assign preferred_machine_map_ preferred_rack_map_
                     cluster_aggregator_cost_ m_preferred_machine_map
                     m_preferred_rack_map m_cluster_aggregator_cost].
  rewrite !lookup_insert_eq.
  split; [reflexivity|]. split; [reflexivity|]. split; [by rewrite Htotal|].
  assert (Hfits : ∀ x, 0 <= x <= total_blocks s (elements file_set) ->
                       NumBlocks_t NumBlocks_bits x = x).
  { intros x Hx. apply wrap_small. unfold blocks_fit in Hfit. lia. }
  pose proof (λ m, local_le_rack _ (machines_in s) (rack_in s) Hnonneg m
                     (elements file_set)) as Hlr.
  pose proof (λ r, rack_le_total _ (machines_in s) (rack_in s) Hnonneg r
                     (elements file_set)) as Hrt.
  pose proof (λ P, blocks_where_nonneg _ Hnonneg P (elements file_set)) as H0.
  split.
  - intros m.
    rewrite (foldl_select_lookup
               (machine_preference s (total_num_blocks f) (rack_frequency f)))
      by done.
    rewrite Hmf. destruct (existsb _ _) eqn:Hex; [|by rewrite andb_false_r].
    rewrite andb_true_r. simpl. unfold machine_preference.
    rewrite Htotal, Hrf.
    rewrite (proj2 (existsb_exists _ _)).
    2:{ apply existsb_exists in Hex as (file_id & Hfile & Hholds).
        exists file_id. split; [done|]. by apply holds_machine_rack. }
    simpl.
    specialize (Hlr m). specialize (Hrt (rack_in s m)).
    pose proof (H0 (holds_machine (machines_in s) m)) as Hl0.
    unfold Spec.local_blocks, Spec.rack_blocks, Spec.total_blocks in *.
    rewrite !Hfits by lia.
    destruct (double_ge _ _); [|done].
    rewrite machine_cost_fits; [done|lia|]. unfold blocks_fit in Hfit. lia.
  - intros r.
    rewrite (foldl_select_lookup (rack_preference s (total_num_blocks f)))
      by (intros acc [r0 v0]; unfold prefer_rack, rack_preference; simpl;
          by destruct (double_gt _ _)).
    rewrite Hrf. destruct (existsb _ _) eqn:Hex; [|by rewrite andb_false_r].
    rewrite andb_true_r. simpl. unfold rack_preference. rewrite Htotal.
    specialize (Hrt r).
    pose proof (H0 (holds_rack (machines_in s) (rack_in s) r)) as Hr0.
    unfold Spec.rack_blocks, Spec.total_blocks in *.
    rewrite !Hfits by lia.
    destruct (double_gt _ _); [|done].
    rewrite rack_cost_fits; [done|lia|]. unfold blocks_fit in Hfit. lia.
Qed.

End Preferences.

(** *** The preferences after [AddTask] and after [RemoveMachine] *)

Section Claims.

Variable SimulatedDFS : Type.
Variable SimulatedDFS_GetNumBlocks : SimulatedDFS -> Z -> Z.
Variable SimulatedDFS_GetMachines : SimulatedDFS -> Z -> gset Z.
Variable SimulatedDFS_SampleFiles : SimulatedDFS -> Z -> Z -> gset Z.
Variable SimulatedDFS_RemoveMachine : Z -> SimulatedDFS -> SimulatedDFS.
Variable NumBlocks_bits Frequency_bits : Z.

#[local] Abbreviation t := (SimulatedQuincyCostModel.t SimulatedDFS).
#[local] Abbreviation num_blocks_in s :=
  (file_blocks SimulatedDFS_GetNumBlocks NumBlocks_bits (filesystem_ s)).
#[local] Abbreviation machines_in s := (SimulatedDFS_GetMachines (filesystem_ s)).
#[local] Abbreviation rack_in s := (machine_rack (machine_to_rack_map_ s)).
#[local] Abbreviation total_blocks s := (Spec.total_blocks (num_blocks_in s)).
#[local] Abbreviation local_blocks s :=
  (Spec.local_blocks (num_blocks_in s) (machines_in s)).
#[local] Abbreviation rack_blocks s :=
  (Spec.rack_blocks (num_blocks_in s) (machines_in s) (rack_in s)).
#[local] Abbreviation fit := (blocks_fit NumBlocks_bits Frequency_bits).
#[local] Abbreviation files_of := (sampled_files SimulatedDFS_SampleFiles).
#[local] Abbreviation AddTask :=
  (SimulatedQuincyCostModel.AddTask SimulatedDFS_GetNumBlocks
     SimulatedDFS_GetMachines SimulatedDFS_SampleFiles
     NumBlocks_bits Frequency_bits).
#[local] Abbreviation RemoveMachine :=
  (SimulatedQuincyCostModel.RemoveMachine SimulatedDFS_RemoveMachine).

Lemma AddTask_spec (num_blocks task_id : Z) (s : t) :
  fit (total_blocks s (files_of num_blocks s)) ->
  ∃ preferred_machines preferred_racks,
    preferred_machine_map_ (AddTask num_blocks task_id s) !! task_id
    = Some preferred_machines
    ∧ preferred_rack_map_ (AddTask num_blocks task_id s) !! task_id
      = Some preferred_racks
    ∧ cluster_aggregator_cost_ (AddTask num_blocks task_id s) !! task_id
      = Some (int64 (stated_cluster_cost
                       (total_blocks s (files_of num_blocks s))
                       (core_transfer_cost_ s)))
    ∧ (∀ m, preferred_machines !! m
            = if double_ge (proportion_of
                              (local_blocks s m (files_of num_blocks s))
                              (total_blocks s (files_of num_blocks s)))
                   (proportion_machine_preferred_ s)
                 && existsb (holds_machine (machines_in s) m)
                      (files_of num_blocks s)
              then Some (int64 (locality_machine_cost
                                  (total_blocks s (files_of num_blocks s))
                                  (rack_blocks s (rack_in s m)
                                     (files_of num_blocks s))
                                  (local_blocks s m (files_of num_blocks s))
                                  (core_transfer_cost_ s) (tor_transfer_cost_ s)))
              else None)
    ∧ (∀ r, preferred_racks !! r
            = if double_gt (proportion_of
                              (rack_blocks s r (files_of num_blocks s))
                              (total_blocks s (files_of num_blocks s)))
                   (proportion_rack_preferred_ s)
                 && existsb (holds_rack (machines_in s) (rack_in s) r)
                      (files_of num_blocks s)
              then Some (int64 (stated_rack_cost
                                  (total_blocks s (files_of num_blocks s))
                                  (rack_blocks s r (files_of num_blocks s))
                                  (core_transfer_cost_ s) (tor_transfer_cost_ s)))
              else None).
Proof.
  intros Hfit. unfold SimulatedQuincyCostModel.AddTask.
  apply (ComputeCostsAndPreferredSet_spec SimulatedDFS SimulatedDFS_GetNumBlocks
           SimulatedDFS_GetMachines NumBlocks_bits Frequency_bits task_id
           (BuildTaskFileSet SimulatedDFS_SampleFiles num_blocks task_id s)
           (SimulatedDFS_SampleFiles (filesystem_ s) num_blocks
              (percent_block_tolerance_ s))).
  - simpl. apply lookup_insert_eq.
  - exact Hfit.
Qed.

(** A machine or a rack that holds no file of the task holds no block. *)
Lemma local_blocks_absent (s : t) (m : Z) (files : list Z) :
  existsb (holds_machine (machines_in s) m) files = false ->
  local_blocks s m files = 0.
Proof. apply blocks_where_none. Qed.

Lemma rack_blocks_absent (s : t) (r : Z) (files : list Z) :
  existsb (holds_rack (machines_in s) (rack_in s) r) files = false ->
  rack_blocks s r files = 0.
Proof. apply blocks_where_none. Qed.

(** The files of a task that are all on one machine. *)
Lemma blocks_on_single_machine (s : t) (A : Z) (files : list Z) :
  (∀ file_id, file_id ∈ files -> machines_in s file_id = {[ A ]}) ->
  local_blocks s A files = total_blocks s files
  ∧ rack_blocks s (rack_in s A) files = total_blocks s files
  ∧ ∀ m, m ≠ A -> local_blocks s m files = 0.
Proof.
  intros Hfiles.
  unfold Spec.local_blocks, Spec.rack_blocks, Spec.total_blocks, Spec.blocks_where.
  induction files as [|f files IH]; [done|]. simpl.
  destruct IH as (IH1 & IH2 & IH3); [intros; apply Hfiles; by right|].
  assert (Hf : machines_in s f = {[ A ]}) by (apply Hfiles; left).
  assert (HA : holds_machine (machines_in s) A f = true).
  { unfold holds_machine. apply bool_decide_eq_true. rewrite Hf. set_solver. }
  rewrite HA, (holds_machine_rack _ (rack_in s) A f HA), IH1, IH2.
  split; [done|]. split; [done|]. intros m Hm.
  rewrite (IH3 m Hm). unfold holds_machine.
  rewrite bool_decide_eq_false_2; [done|]. rewrite Hf. set_solver.
Qed.



(** C8.  After [RemoveMachine], the removed machine is not among the
    preference arcs of any task: a task that had preference arcs has the
    arcs that it had to the other machines, and a task that had none
    (for which [GetTaskPreferenceArcs] fails) still has none. *)
Theorem C8_removed_machine_not_preferred (res_id task_id : Z) (s : t) :
  match GetTaskPreferenceArcs task_id s with
  | Some arcs =>
      ∃ arcs', GetTaskPreferenceArcs task_id (RemoveMachine res_id s) = Some arcs'
               ∧ (res_id ∉ arcs')
               ∧ (∀ m, m ∈ arcs' ↔ (m ∈ arcs ∧ m ≠ res_id))
  | None => GetTaskPreferenceArcs task_id (RemoveMachine res_id s) = None
  end.
Proof.
  unfold GetTaskPreferenceArcs, SimulatedQuincyCostModel.RemoveMachine. simpl.
  rewrite lookup_fmap.
  destruct (preferred_machine_map_ s !! task_id) as [pm|]; simpl; [|done].
  eexists. split; [reflexivity|].
  assert (Hiff : ∀ m, m ∈ (map_to_list (delete res_id pm)).*1
                      ↔ m ∈ (map_to_list pm).*1 ∧ m ≠ res_id).
  { intros m. rewrite !elem_of_keys.
    destruct (decide (m = res_id)) as [->|Hne].
    - rewrite lookup_delete_eq. split; [by intros []|by intros []].
    - rewrite lookup_delete_ne by done. split; [by intros ?|by intros [? _]]. }
  split; [|exact Hiff]. intros Hin. by apply Hiff in Hin as [_ ?].
Qed.

End Claims.




End SimulatedQuincyFacts.

(** ** The simulated Quincy cost model: queries, removal and the order of the costs *)

Module SimulatedQuincyMoreFacts.
Import SimulatedQuincyCostModel Spec SimulatedQuincyFacts CostProps.

Section Facts.

Variable SimulatedDFS : Type.
Variable SimulatedDFS_GetNumBlocks : SimulatedDFS -> Z -> Z.
Variable SimulatedDFS_GetMachines : SimulatedDFS -> Z -> gset Z.
Variable SimulatedDFS_SampleFiles : SimulatedDFS -> Z -> Z -> gset Z.
Variable SimulatedDFS_RemoveMachine : Z -> SimulatedDFS -> SimulatedDFS.
Variable NumBlocks_bits Frequency_bits : Z.

#[local] Abbreviation t := (SimulatedQuincyCostModel.t SimulatedDFS).
#[local] Abbreviation num_blocks_in s :=
  (file_blocks SimulatedDFS_GetNumBlocks NumBlocks_bits (filesystem_ s)).
#[local] Abbreviation machines_in s := (SimulatedDFS_GetMachines (filesystem_ s)).
#[local] Abbreviation rack_in s := (machine_rack (machine_to_rack_map_ s)).
#[local] Abbreviation total_blocks s := (Spec.total_blocks (num_blocks_in s)).
#[local] Abbreviation local_blocks s :=
  (Spec.local_blocks (num_blocks_in s) (machines_in s)).
#[local] Abbreviation rack_blocks s :=
  (Spec.rack_blocks (num_blocks_in s) (machines_in s) (rack_in s)).
#[local] Abbreviation fit := (blocks_fit NumBlocks_bits Frequency_bits).
#[local] Abbreviation files_of := (sampled_files SimulatedDFS_SampleFiles).
#[local] Abbreviation AddTask :=
  (SimulatedQuincyCostModel.AddTask SimulatedDFS_GetNumBlocks
     SimulatedDFS_GetMachines SimulatedDFS_SampleFiles
     NumBlocks_bits Frequency_bits).
#[local] Abbreviation RemoveMachine :=
  (SimulatedQuincyCostModel.RemoveMachine SimulatedDFS_RemoveMachine).

(** X17.  [TaskToResourceNodeCost] reads the costs of a task with
    [operator[]]: asked about a machine that is not among the preference
    arcs of the task, it answers 0 and makes the machine one of the
    preference arcs, at cost 0; the other arcs are kept.  For a task
    without costs it dereferences a null pointer. *)
Theorem X17_cost_query_adds_preference_arc
    (task_id resource_id : Z) (s : t) (arcs : list Z) :
  GetTaskPreferenceArcs task_id s = Some arcs ->
  resource_id ∉ arcs ->
  ∃ s' arcs',
    TaskToResourceNodeCost task_id resource_id s = Some (0, s')
    ∧ GetTaskPreferenceArcs task_id s' = Some arcs'
    ∧ (∀ m, m ∈ arcs' ↔ m = resource_id ∨ m ∈ arcs)
    ∧ TaskToResourceNodeCost task_id resource_id s' = Some (0, s').
Proof.
  unfold GetTaskPreferenceArcs, TaskToResourceNodeCost.
  destruct (preferred_machine_map_ s !! task_id) as [pm|] eqn:Hpm; [|done].
  simpl. intros [= <-] Hnot.
  assert (Hnone : pm !! resource_id = None).
  { apply eq_None_not_Some. by rewrite <- elem_of_keys. }
  unfold index_or_insert. rewrite Hnone. eexists _, _.
  split; [reflexivity|]. simpl. rewrite lookup_insert_eq. simpl.
  split; [reflexivity|]. split.
  - intros m. rewrite !elem_of_keys. destruct (decide (m = resource_id)) as [->|Hne].
    + rewrite lookup_insert_eq. split; [by left|by eauto].
    + rewrite lookup_insert_ne by done. split; [by right|by intros [?|?]].
  - rewrite lookup_insert_eq. by rewrite insert_insert_eq.
Qed.

(** X18.  After [RemoveTask] the cost model holds nothing about the
    task: its preference arcs and the cost of a machine cannot be asked
    for (a null pointer is dereferenced), it has no equivalence class,
    and its costs to a rack aggregator and to the cluster aggregator are
    read as 0.  What the cost model answers about another task is what
    it answered before. *)
Theorem X18_removed_task_is_forgotten
    (task_id other resource_id tec : Z) (s : t) :
  other ≠ task_id ->
  TaskToResourceNodeCost task_id resource_id (RemoveTask task_id s) = None
  ∧ GetTaskPreferenceArcs task_id (RemoveTask task_id s) = None
  ∧ (GetTaskEquivClasses task_id (RemoveTask task_id s)).1 = []
  ∧ (TaskToEquivClassAggregator task_id tec (RemoveTask task_id s)).1 = 0
  ∧ (TaskToClusterAggCost task_id (RemoveTask task_id s)).1 = 0
  ∧ GetTaskPreferenceArcs other (RemoveTask task_id s)
    = GetTaskPreferenceArcs other s
  ∧ fst <$> TaskToResourceNodeCost other resource_id (RemoveTask task_id s)
    = fst <$> TaskToResourceNodeCost other resource_id s
  ∧ (GetTaskEquivClasses other (RemoveTask task_id s)).1
    = (GetTaskEquivClasses other s).1
  ∧ (TaskToEquivClassAggregator other tec (RemoveTask task_id s)).1
    = (TaskToEquivClassAggregator other tec s).1
  ∧ (TaskToClusterAggCost other (RemoveTask task_id s)).1
    = (TaskToClusterAggCost other s).1.
Proof.
  intros Hother.
  unfold TaskToResourceNodeCost, GetTaskPreferenceArcs, GetTaskEquivClasses,
    TaskToEquivClassAggregator, TaskToClusterAggCost, RemoveTask, index_or_insert.
  simpl. rewrite !lookup_delete_eq, !lookup_delete_ne by done. simpl.
  rewrite lookup_empty. simpl.
  repeat split.
  - destruct (preferred_machine_map_ s !! other) as [pm|]; [|done]. simpl.
    by destruct (pm !! resource_id).
  - by destruct (preferred_rack_map_ s !! other).
  - destruct (preferred_rack_map_ s !! other) as [pr|]; simpl;
      [by destruct (pr !! tec)|by rewrite lookup_empty].
  - by destruct (cluster_aggregator_cost_ s !! other).
Qed.

(** The loops of [ComputeCostsAndPreferredSet] apply [operator[]] to
    [machine_to_rack_map_]: the rack that is read for a machine, 0 when
    the map does not have it, is not changed by them. *)
Lemma count_files_rack (filesystem : SimulatedDFS) (files : list Z) :
  ∀ (f : frequencies) (m : Z),
    FindWithDefault
      (machine_to_rack
         (foldl (count_file SimulatedDFS_GetNumBlocks SimulatedDFS_GetMachines
                   NumBlocks_bits Frequency_bits filesystem) f files)) m 0
    = FindWithDefault (machine_to_rack f) m 0.
Proof.
  induction files as [|file_id files IH]; intros f m; [done|].
  cbn [foldl]. rewrite IH. unfold SimulatedQuincyCostModel.count_file.
  destruct (count_machines_fold NumBlocks_bits Frequency_bits (machine_to_rack f)
              (NumBlocks_t NumBlocks_bits
                 (SimulatedDFS_GetNumBlocks filesystem file_id))
              (elements (SimulatedDFS_GetMachines filesystem file_id))
              (machine_frequency f) ∅ (machine_to_rack f))
    as (m2r' & -> & Hm2r'); [done|].
  simpl. apply Hm2r'.
Qed.

Lemma prefer_machines_rack (s : t) (total : Z) (frequencies : list (Z * Z)) :
  ∀ (acc : gmap Z Z * gmap Z Z * gmap Z Z) (m : Z),
    FindWithDefault
      (foldl (prefer_machine NumBlocks_bits s total) acc frequencies).2 m 0
    = FindWithDefault acc.2 m 0.
Proof.
  induction frequencies as [|freq frequencies IH]; intros [[pm rf] m2r] m; [done|].
  cbn [foldl]. rewrite IH. unfold prefer_machine.
  destruct (double_ge _ _); [|done].
  pose proof (index_or_insert_snd 0 freq.1 m m2r) as Hsnd.
  destruct (index_or_insert 0 freq.1 m2r) as [rack m2r1].
  by destruct (index_or_insert 0 rack rf).
Qed.

Lemma AddTask_rack (num_blocks task_id : Z) (s : t) (m : Z) :
  rack_in (AddTask num_blocks task_id s) m = rack_in s m.
Proof.
  unfold SimulatedQuincyCostModel.AddTask,
    SimulatedQuincyCostModel.ComputeCostsAndPreferredSet, machine_rack.
  destruct (index_or_insert ∅ task_id _) as [file_set file_map].
  pose proof (prefer_machines_rack (BuildTaskFileSet SimulatedDFS_SampleFiles
                                      num_blocks task_id s)) as Hrack.
  match goal with
  | |- context [foldl (prefer_machine _ ?s1 ?total) ?acc ?l] =>
      specialize (Hrack total l acc m);
      destruct (foldl (prefer_machine _ s1 total) acc l) as [[pm rf] m2r]
  end.
  simpl in *. rewrite Hrack. unfold count_files. by rewrite count_files_rack.
Qed.

(** The maps of the tasks after [AddTask]. *)
Lemma AddTask_maps (num_blocks task_id : Z) (s : t) :
  ∃ preferred_machines preferred_racks cost,
    filesystem_ (AddTask num_blocks task_id s) = filesystem_ s
    ∧ file_map_ (AddTask num_blocks task_id s)
      = <[task_id := SimulatedDFS_SampleFiles (filesystem_ s) num_blocks
                       (percent_block_tolerance_ s)]> (file_map_ s)
    ∧ preferred_machine_map_ (AddTask num_blocks task_id s)
      = <[task_id := preferred_machines]> (preferred_machine_map_ s)
    ∧ preferred_rack_map_ (AddTask num_blocks task_id s)
      = <[task_id := preferred_racks]> (preferred_rack_map_ s)
    ∧ cluster_aggregator_cost_ (AddTask num_blocks task_id s)
      = <[task_id := cost]> (cluster_aggregator_cost_ s).
Proof.
  unfold SimulatedQuincyCostModel.AddTask,
    SimulatedQuincyCostModel.ComputeCostsAndPreferredSet.
  cbn [BuildTaskFileSet assign file_map_ m_file_map].
  rewrite (index_or_insert_present ∅ _ _ _ (lookup_insert_eq _ _ _)).
  destruct (foldl (prefer_machine _ _ _) _ _) as [[pm rf] m2r].
  eexists _, _, _. simpl. repeat split.
Qed.

(** X19.  [AddTask] for a task changes nothing that the cost model
    holds about another task, files, preferred machines, preferred
    racks and cost to the cluster aggregator, nor the file system; and
    although it reads [machine_to_rack_map_] with [operator[]], the rack
    of every machine, 0 for a machine that the map does not have, is the
    one before. *)
Theorem X19_add_task_keeps_other_tasks
    (num_blocks task_id other machine : Z) (s : t) :
  other ≠ task_id ->
  file_map_ (AddTask num_blocks task_id s) !! other = file_map_ s !! other
  ∧ preferred_machine_map_ (AddTask num_blocks task_id s) !! other
    = preferred_machine_map_ s !! other
  ∧ preferred_rack_map_ (AddTask num_blocks task_id s) !! other
    = preferred_rack_map_ s !! other
  ∧ cluster_aggregator_cost_ (AddTask num_blocks task_id s) !! other
    = cluster_aggregator_cost_ s !! other
  ∧ filesystem_ (AddTask num_blocks task_id s) = filesystem_ s
  ∧ rack_in (AddTask num_blocks task_id s) machine = rack_in s machine.
Proof.
  intros Hother.
  destruct (AddTask_maps num_blocks task_id s)
    as (pm & pr & cost & -> & -> & -> & -> & ->).
  rewrite !lookup_insert_ne by done. repeat split. apply AddTask_rack.
Qed.

(** X20.  [RemoveTask] undoes [AddTask]: removing a task that has just
    been added leaves the four maps of the tasks as removing it without
    adding it does, so for a task that the cost model did not hold the
    four maps are the ones before [AddTask]. *)
Theorem X20_remove_task_undoes_add_task (num_blocks task_id : Z) (s : t) :
  file_map_ (RemoveTask task_id (AddTask num_blocks task_id s))
  = delete task_id (file_map_ s)
  ∧ preferred_machine_map_ (RemoveTask task_id (AddTask num_blocks task_id s))
    = delete task_id (preferred_machine_map_ s)
  ∧ preferred_rack_map_ (RemoveTask task_id (AddTask num_blocks task_id s))
    = delete task_id (preferred_rack_map_ s)
  ∧ cluster_aggregator_cost_ (RemoveTask task_id (AddTask num_blocks task_id s))
    = delete task_id (cluster_aggregator_cost_ s)
  ∧ (file_map_ s !! task_id = None ->
     preferred_machine_map_ s !! task_id = None ->
     preferred_rack_map_ s !! task_id = None ->
     cluster_aggregator_cost_ s !! task_id = None ->
     members_of (RemoveTask task_id (AddTask num_blocks task_id s))
     = {| m_filesystem := filesystem_ s;
          m_machine_to_rack_map :=
            machine_to_rack_map_ (AddTask num_blocks task_id s);
          m_file_map := file_map_ s;
          m_preferred_machine_map := preferred_machine_map_ s;
          m_preferred_rack_map := preferred_rack_map_ s;
          m_cluster_aggregator_cost := cluster_aggregator_cost_ s |}).
Proof.
  destruct (AddTask_maps num_blocks task_id s)
    as (pm & pr & cost & Hfs & Hfiles & Hpm & Hpr & Hcost).
  unfold RemoveTask, members_of. simpl. rewrite Hfs, Hfiles, Hpm, Hpr, Hcost.
  rewrite !delete_insert_eq. do 4 (split; [done|]).
  intros H1 H2 H3 H4. by rewrite !delete_id by done.
Qed.

(** The proportion of no blocks among no blocks is a NaN, which is at
    or above no threshold. *)
Lemma proportion_of_nothing (delta : spec_float) :
  double_ge (proportion_of 0 0) delta = false
  ∧ double_gt (proportion_of 0 0) delta = false.
Proof. by destruct delta as [[]| | |[]]. Qed.

(** X21.  A task whose files hold no block, a task without files among
    them, gets no preference arc and no equivalence class, whatever the
    two thresholds are, and a cost of 0 to the cluster aggregator: the
    proportions are then 0/0, a NaN, which no comparison accepts. *)
Theorem X21_task_without_blocks_has_no_preference
    (num_blocks task_id : Z) (s : t) :
  0 <= NumBlocks_bits -> 0 <= Frequency_bits ->
  total_blocks s (files_of num_blocks s) = 0 ->
  GetTaskPreferenceArcs task_id (AddTask num_blocks task_id s) = Some []
  ∧ (GetTaskEquivClasses task_id (AddTask num_blocks task_id s)).1 = []
  ∧ (TaskToClusterAggCost task_id (AddTask num_blocks task_id s)).1 = 0.
Proof.
  intros Hnb Hfb Hzero.
  assert (Hfit : fit (total_blocks s (files_of num_blocks s))).
  { rewrite Hzero. unfold blocks_fit.
    pose proof (Z.pow_pos_nonneg 2 NumBlocks_bits).
    pose proof (Z.pow_pos_nonneg 2 Frequency_bits). lia. }
  pose proof (λ f, num_blocks_of_nonneg SimulatedDFS SimulatedDFS_GetNumBlocks
                     NumBlocks_bits (filesystem_ s) f Hnb) as Hnonneg.
  pose proof (λ P, blocks_where_nonneg _ Hnonneg P (files_of num_blocks s)) as H0.
  pose proof (λ m, local_le_total _ (machines_in s) Hnonneg m
                     (files_of num_blocks s)) as Hlt.
  pose proof (λ r, rack_le_total _ (machines_in s) (rack_in s) Hnonneg r
                     (files_of num_blocks s)) as Hrt.
  destruct (AddTask_spec SimulatedDFS SimulatedDFS_GetNumBlocks
              SimulatedDFS_GetMachines SimulatedDFS_SampleFiles
              NumBlocks_bits Frequency_bits num_blocks task_id s Hfit)
    as (pm & pr & Hpm & Hpr & Hcluster & Hm & Hr).
  assert (pm = ∅) as ->.
  { apply map_empty. intros m. rewrite Hm.
    assert (local_blocks s m (files_of num_blocks s) = 0) as ->.
    { specialize (Hlt m). specialize (H0 (holds_machine (machines_in s) m)).
      unfold Spec.local_blocks, Spec.total_blocks in *. lia. }
    rewrite Hzero. by rewrite (proj1 (proportion_of_nothing _)). }
  assert (pr = ∅) as ->.
  { apply map_empty. intros r. rewrite Hr.
    assert (rack_blocks s r (files_of num_blocks s) = 0) as ->.
    { specialize (Hrt r).
      specialize (H0 (holds_rack (machines_in s) (rack_in s) r)).
      unfold Spec.rack_blocks, Spec.total_blocks in *. lia. }
    rewrite Hzero. by rewrite (proj2 (proportion_of_nothing _)). }
  unfold GetTaskPreferenceArcs, GetTaskEquivClasses, TaskToClusterAggCost.
  rewrite Hpm, (index_or_insert_present ∅ _ _ _ Hpr),
    (index_or_insert_present 0 _ _ _ Hcluster).
  simpl. rewrite map_to_list_empty, Hzero. done.
Qed.

(** X22.  With transfer costs [0 <= tor_transfer_cost <=
    core_transfer_cost] and a cost to the cluster aggregator that does
    not overflow [Cost_t], the costs that [AddTask] computes are
    ordered as the preferences are: the cost of a preferred machine and
    the cost of a preferred rack are between 0 and the cost to the
    cluster aggregator, and a preferred machine costs no more than its
    rack when that is preferred too. *)
Theorem X22_preferences_cost_less
    (num_blocks task_id : Z) (s : t) (preferred_machines preferred_racks : gmap Z Z)
    (cluster_cost : Z) :
  fit (total_blocks s (files_of num_blocks s)) ->
  0 <= tor_transfer_cost_ s <= core_transfer_cost_ s ->
  total_blocks s (files_of num_blocks s) * core_transfer_cost_ s < 2 ^ 63 ->
  preferred_machine_map_ (AddTask num_blocks task_id s) !! task_id
  = Some preferred_machines ->
  preferred_rack_map_ (AddTask num_blocks task_id s) !! task_id
  = Some preferred_racks ->
  cluster_aggregator_cost_ (AddTask num_blocks task_id s) !! task_id
  = Some cluster_cost ->
  (∀ m cost, preferred_machines !! m = Some cost -> 0 <= cost <= cluster_cost)
  ∧ (∀ r cost, preferred_racks !! r = Some cost -> 0 <= cost <= cluster_cost)
  ∧ (∀ m machine_cost rack_cost,
       preferred_machines !! m = Some machine_cost ->
       preferred_racks !! rack_in s m = Some rack_cost ->
       machine_cost <= rack_cost).
Proof.
  intros Hfit Hcosts Hmax Hpm' Hpr' Hcluster'.
  destruct (fit_bits _ _ _ Hfit) as [Hnb _].
  pose proof (λ f, num_blocks_of_nonneg SimulatedDFS SimulatedDFS_GetNumBlocks
                     NumBlocks_bits (filesystem_ s) f Hnb) as Hnonneg.
  pose proof (λ P, blocks_where_nonneg _ Hnonneg P (files_of num_blocks s)) as H0.
  pose proof (λ m, local_le_rack _ (machines_in s) (rack_in s) Hnonneg m
                     (files_of num_blocks s)) as Hlr.
  pose proof (λ r, rack_le_total _ (machines_in s) (rack_in s) Hnonneg r
                     (files_of num_blocks s)) as Hrt.
  destruct (AddTask_spec SimulatedDFS SimulatedDFS_GetNumBlocks
              SimulatedDFS_GetMachines SimulatedDFS_SampleFiles
              NumBlocks_bits Frequency_bits num_blocks task_id s Hfit)
    as (pm & pr & Hpm & Hpr & Hcluster & Hm & Hr).
  rewrite Hpm in Hpm'. injection Hpm' as <-.
  rewrite Hpr in Hpr'. injection Hpr' as <-.
  rewrite Hcluster in Hcluster'. injection Hcluster' as <-.
  set (T := total_blocks s (files_of num_blocks s)) in *.
  assert (HT : 0 <= T) by apply (H0 (λ _, true)).
  assert (Hmachine : ∀ m,
            0 <= locality_machine_cost T
                   (rack_blocks s (rack_in s m) (files_of num_blocks s))
                   (local_blocks s m (files_of num_blocks s))
                   (core_transfer_cost_ s) (tor_transfer_cost_ s)
              <= stated_rack_cost T
                   (rack_blocks s (rack_in s m) (files_of num_blocks s))
                   (core_transfer_cost_ s) (tor_transfer_cost_ s)).
  { intros m. specialize (Hlr m). specialize (Hrt (rack_in s m)).
    pose proof (H0 (holds_machine (machines_in s) m)) as Hl0.
    unfold locality_machine_cost, stated_rack_cost, Spec.local_blocks,
      Spec.rack_blocks, Spec.total_blocks, T in *. nia. }
  assert (Hrack : ∀ r,
            0 <= stated_rack_cost T (rack_blocks s r (files_of num_blocks s))
                   (core_transfer_cost_ s) (tor_transfer_cost_ s)
              <= stated_cluster_cost T (core_transfer_cost_ s)).
  { intros r. specialize (Hrt r).
    pose proof (H0 (holds_rack (machines_in s) (rack_in s) r)) as Hr0.
    unfold stated_rack_cost, stated_cluster_cost, Spec.rack_blocks,
      Spec.total_blocks, T in *. nia. }
  assert (Hcluster_small : int64 (stated_cluster_cost T (core_transfer_cost_ s))
                           = stated_cluster_cost T (core_transfer_cost_ s)).
  { apply int64_small. unfold stated_cluster_cost. nia. }
  assert (Hmachine_small : ∀ m cost, pm !! m = Some cost ->
            cost = locality_machine_cost T
                     (rack_blocks s (rack_in s m) (files_of num_blocks s))
                     (local_blocks s m (files_of num_blocks s))
                     (core_transfer_cost_ s) (tor_transfer_cost_ s)).
  { intros m cost Hcost. rewrite Hm in Hcost.
    destruct (_ && _); [|done]. injection Hcost as <-.
    apply int64_small. specialize (Hmachine m). specialize (Hrack (rack_in s m)).
    unfold stated_cluster_cost in *. lia. }
  assert (Hrack_small : ∀ r cost, pr !! r = Some cost ->
            cost = stated_rack_cost T (rack_blocks s r (files_of num_blocks s))
                     (core_transfer_cost_ s) (tor_transfer_cost_ s)).
  { intros r cost Hcost. rewrite Hr in Hcost.
    destruct (_ && _); [|done]. injection Hcost as <-.
    apply int64_small. specialize (Hrack r).
    unfold stated_cluster_cost in *. lia. }
  rewrite Hcluster_small. split; [|split].
  - intros m cost Hcost. rewrite (Hmachine_small m cost Hcost).
    specialize (Hmachine m). specialize (Hrack (rack_in s m)). lia.
  - intros r cost Hcost. rewrite (Hrack_small r cost Hcost). apply Hrack.
  - intros m mc rc Hmc Hrc.
    rewrite (Hmachine_small m mc Hmc), (Hrack_small _ rc Hrc). apply Hmachine.
Qed.

(** X23.  [RemoveMachine] deletes the preference arcs to the machine
    and recomputes nothing: the equivalence classes of every task, its
    costs to the rack aggregators and to the cluster aggregator, and
    the cost of every other machine are what they were, also when the
    removed machine held the blocks that made a rack preferred. *)
Theorem X23_remove_machine_recomputes_nothing
    (res_id task_id machine tec : Z) (s : t) :
  machine ≠ res_id ->
  (GetTaskEquivClasses task_id (RemoveMachine res_id s)).1
  = (GetTaskEquivClasses task_id s).1
  ∧ (TaskToEquivClassAggregator task_id tec (RemoveMachine res_id s)).1
    = (TaskToEquivClassAggregator task_id tec s).1
  ∧ (TaskToClusterAggCost task_id (RemoveMachine res_id s)).1
    = (TaskToClusterAggCost task_id s).1
  ∧ fst <$> TaskToResourceNodeCost task_id machine (RemoveMachine res_id s)
    = fst <$> TaskToResourceNodeCost task_id machine s
  ∧ file_map_ (RemoveMachine res_id s) = file_map_ s
  ∧ machine_to_rack_map_ (RemoveMachine res_id s) = machine_to_rack_map_ s.
Proof.
  intros Hother.
  unfold GetTaskEquivClasses, TaskToEquivClassAggregator, TaskToClusterAggCost,
    TaskToResourceNodeCost, SimulatedQuincyCostModel.RemoveMachine, index_or_insert.
  simpl. rewrite lookup_fmap. repeat split.
  - by destruct (preferred_rack_map_ s !! task_id).
  - destruct (preferred_rack_map_ s !! task_id) as [pr|]; simpl;
      [by destruct (pr !! tec)|by rewrite lookup_empty].
  - by destruct (cluster_aggregator_cost_ s !! task_id).
  - destruct (preferred_machine_map_ s !! task_id) as [pm|]; [|done]. simpl.
    rewrite lookup_delete_ne by done. by destruct (pm !! machine).
Qed.

(** X24.  After [AddTask] for a task whose files hold a number of
    blocks that fits the counters, and whatever the thresholds are:
    every preference arc goes to a machine that holds a file of the
    task, and every equivalence class is the rack of such a machine.
    When [machine_to_rack_map_] is empty, as the constructor leaves it,
    the only equivalence class that a task can get is rack 0. *)
Theorem X24_preferences_hold_files
    (num_blocks task_id : Z) (s : t) (arcs : list Z) :
  fit (total_blocks s (files_of num_blocks s)) ->
  GetTaskPreferenceArcs task_id (AddTask num_blocks task_id s) = Some arcs ->
  (∀ m, m ∈ arcs ->
        ∃ file_id, file_id ∈ files_of num_blocks s ∧ m ∈ machines_in s file_id)
  ∧ (∀ r, r ∈ (GetTaskEquivClasses task_id (AddTask num_blocks task_id s)).1 ->
          ∃ file_id m, file_id ∈ files_of num_blocks s
                       ∧ m ∈ machines_in s file_id ∧ rack_in s m = r)
  ∧ (machine_to_rack_map_ s = ∅ ->
     ∀ r, r ∈ (GetTaskEquivClasses task_id (AddTask num_blocks task_id s)).1 ->
          r = 0).
Proof.
  intros Hfit Harcs.
  destruct (AddTask_spec SimulatedDFS SimulatedDFS_GetNumBlocks
              SimulatedDFS_GetMachines SimulatedDFS_SampleFiles
              NumBlocks_bits Frequency_bits num_blocks task_id s Hfit)
    as (pm & pr & Hpm & Hpr & _ & Hm & Hr).
  unfold GetTaskPreferenceArcs in Harcs. rewrite Hpm in Harcs.
  simpl in Harcs. injection Harcs as <-.
  unfold GetTaskEquivClasses. rewrite (index_or_insert_present ∅ _ _ _ Hpr).
  cbn [fst].
  assert (Hracks : ∀ r, r ∈ (map_to_list pr).*1 ->
            ∃ file_id m, file_id ∈ files_of num_blocks s
                         ∧ m ∈ machines_in s file_id ∧ rack_in s m = r).
  { intros r [cost Hcost]%elem_of_keys. rewrite Hr in Hcost.
    destruct (existsb _ _) eqn:Hex; [|by rewrite andb_false_r in Hcost].
    apply existsb_exists in Hex as (file_id & Hfile & Hholds).
    apply holds_rack_spec in Hholds as (m & Hin & Hrack).
    exists file_id, m. split; [by apply list_elem_of_In|done]. }
  split; [|split; [exact Hracks|]].
  - intros m [cost Hcost]%elem_of_keys. rewrite Hm in Hcost.
    destruct (existsb _ _) eqn:Hex; [|by rewrite andb_false_r in Hcost].
    apply existsb_exists in Hex as (file_id & Hfile & Hholds).
    exists file_id. split; [by apply list_elem_of_In|].
    by apply bool_decide_eq_true in Hholds.
  - intros Hempty r Hin.
    destruct (Hracks r Hin) as (file_id & m & _ & _ & <-).
    unfold machine_rack, FindWithDefault. by rewrite Hempty, lookup_empty.
Qed.

End Facts.
Lemma X17_cost_query_adds_preference_arc_witness :
  ∃ s' arcs',
    TaskToResourceNodeCost 42 2 one_rack_with_task_42 = Some (0, s')
    ∧ GetTaskPreferenceArcs 42 s' = Some arcs'
    ∧ (2 ∈ arcs' ∧ 1 ∈ arcs').
Proof.
  destruct (X17_cost_query_adds_preference_arc unit 42 2 one_rack_with_task_42 [1])
    as (s' & arcs' & Hcost & Harcs & Hiff & _).
  - vm_compute. reflexivity.
  - apply (bool_decide_unpack _). vm_compute. reflexivity.
  - exists s', arcs'. split; [exact Hcost|]. split; [exact Harcs|].
    split; apply Hiff; [by left|right; by left].
Defined.

Lemma X18_removed_task_is_forgotten_witness :
  GetTaskPreferenceArcs 42 (RemoveTask 42 one_rack_with_tasks_42_43) = None
  ∧ (TaskToClusterAggCost 42 (RemoveTask 42 one_rack_with_tasks_42_43)).1 = 0
  ∧ GetTaskPreferenceArcs 43 (RemoveTask 42 one_rack_with_tasks_42_43)
    = GetTaskPreferenceArcs 43 one_rack_with_tasks_42_43.
Proof.
  destruct (X18_removed_task_is_forgotten unit 42 43 1 0 one_rack_with_tasks_42_43)
    as (_ & Harcs & _ & _ & Hcluster & Hother & _).
  - lia.
  - split; [exact Harcs|]. split; [exact Hcluster|exact Hother].
Defined.

Lemma X19_add_task_keeps_other_tasks_witness :
  preferred_machine_map_ one_rack_with_tasks_42_43 !! 42
  = preferred_machine_map_ one_rack_with_task_42 !! 42
  ∧ machine_rack (machine_to_rack_map_ one_rack_with_tasks_42_43) 9
    = machine_rack (machine_to_rack_map_ one_rack_with_task_42) 9.
Proof.
  destruct (X19_add_task_keeps_other_tasks unit one_file_dfs_GetNumBlocks
              one_file_dfs_GetMachines one_file_dfs_SampleFiles 32 32
              10 43 42 9 one_rack_with_task_42)
    as (_ & Hpm & _ & _ & _ & Hrack).
  - lia.
  - split; [exact Hpm|exact Hrack].
Defined.

Lemma X20_remove_task_undoes_add_task_witness :
  members_of (RemoveTask 42 one_rack_with_task_42)
  = {| m_filesystem := ();
       m_machine_to_rack_map := machine_to_rack_map_ one_rack_with_task_42;
       m_file_map := ∅;
       m_preferred_machine_map := ∅;
       m_preferred_rack_map := ∅;
       m_cluster_aggregator_cost := ∅ |}.
Proof.
  destruct (X20_remove_task_undoes_add_task unit one_file_dfs_GetNumBlocks
              one_file_dfs_GetMachines one_file_dfs_SampleFiles 32 32
              10 42 one_rack_cost_model)
    as (_ & _ & _ & _ & Hmembers).
  apply Hmembers; reflexivity.
Defined.

Lemma X21_task_without_blocks_has_no_preference_witness :
  GetTaskPreferenceArcs 42 one_rack_with_idle_task_42 = Some []
  ∧ (GetTaskEquivClasses 42 one_rack_with_idle_task_42).1 = []
  ∧ (TaskToClusterAggCost 42 one_rack_with_idle_task_42).1 = 0.
Proof.
  apply (X21_task_without_blocks_has_no_preference unit one_file_dfs_GetNumBlocks
           one_file_dfs_GetMachines no_file_dfs_SampleFiles 32 32
           10 42 one_rack_cost_model).
  - lia.
  - lia.
  - vm_compute. reflexivity.
Defined.

Lemma X22_preferences_cost_less_witness :
  (∀ m cost, ({[ 1 := 0 ]} : gmap Z Z) !! m = Some cost -> 0 <= cost <= 20)
  ∧ (∀ r cost, ({[ 0 := 10 ]} : gmap Z Z) !! r = Some cost -> 0 <= cost <= 20)
  ∧ (∀ m machine_cost rack_cost,
       ({[ 1 := 0 ]} : gmap Z Z) !! m = Some machine_cost ->
       ({[ 0 := 10 ]} : gmap Z Z)
         !! machine_rack (machine_to_rack_map_ one_rack_cost_model) m
       = Some rack_cost ->
       machine_cost <= rack_cost).
Proof.
  apply (X22_preferences_cost_less unit one_file_dfs_GetNumBlocks
           one_file_dfs_GetMachines one_file_dfs_SampleFiles 32 32
           10 42 one_rack_cost_model {[ 1 := 0 ]} {[ 0 := 10 ]} 20).
  - vm_compute. repeat split; discriminate.
  - simpl. lia.
  - vm_compute. reflexivity.
  - vm_compute. reflexivity.
  - vm_compute. reflexivity.
  - vm_compute. reflexivity.
Defined.

Lemma X23_remove_machine_recomputes_nothing_witness :
  GetTaskPreferenceArcs 42
    (RemoveMachine (λ _ dfs, dfs) 1 one_rack_with_task_42) = Some []
  ∧ (GetTaskEquivClasses 42
       (RemoveMachine (λ _ dfs, dfs) 1 one_rack_with_task_42)).1 = [0]
  ∧ (TaskToEquivClassAggregator 42 0
       (RemoveMachine (λ _ dfs, dfs) 1 one_rack_with_task_42)).1 = 10.
Proof.
  destruct (X23_remove_machine_recomputes_nothing unit (λ _ dfs, dfs)
              1 42 2 0 one_rack_with_task_42) as (Hclasses & Hrack & _).
  - lia.
  - split; [vm_compute; reflexivity|]. split.
    + rewrite Hclasses. vm_compute. reflexivity.
    + rewrite Hrack. vm_compute. reflexivity.
Defined.

Lemma X24_preferences_hold_files_witness :
  (∀ m, m ∈ [1] ->
        ∃ file_id, file_id ∈ sampled_files one_file_dfs_SampleFiles 10 new_cost_model
                   ∧ m ∈ one_file_dfs_GetMachines () file_id)
  ∧ ∀ r, r ∈ (GetTaskEquivClasses 42 new_with_task_42).1 -> r = 0.
Proof.
  destruct (X24_preferences_hold_files unit one_file_dfs_GetNumBlocks
              one_file_dfs_GetMachines one_file_dfs_SampleFiles 32 32
              10 42 new_cost_model [1]) as (Harcs & _ & Hracks).
  - vm_compute. repeat split; discriminate.
  - vm_compute. reflexivity.
  - split; [exact Harcs|]. apply Hracks. reflexivity.
Defined.

End SimulatedQuincyMoreFacts.
